(** * verif.input: the format dispatcher, the legacy naming codec and the
      text decoder of [verif/input.py], embedded and verified.

    The development follows the source file top to bottom:
    - [PyStr]   the string builtins the source calls ([replace], [split], ...);
    - [PyNum]   Python floats as IEEE 754 binary64 values ([float()], ["%g"],
                ["%d"], comparisons and arithmetic);
    - [Comps]   the legacy decoder: its validity predicate and naming codec;
    - [NetcdfCf] the validity predicate of the self-describing decoder;
    - [Text]    the text decoder: row parsing, location resolution, the
                sparse tables, dense assembly and deferred id assignment;
    - [Dispatch] [get_input]. *)

From Stdlib Require Import ZArith String Ascii List Bool Lia SpecFloat DecimalString.
From stdpp Require Import base option list gmap strings sorting.

Local Open Scope string_scope.
Local Open Scope Z_scope.

(** ** Outcomes of Python code

    A call either returns, or leaves through [verif.util.error] (which
    reports and terminates, it never returns), or through an uncaught
    exception. *)

Inductive failure :=
  | FileDoesNotExist (filename : string)
  | NotValidInput (filename : string)
  | MissingColumn (filename col : string)
  | IncorrectNumberOfColumns (expecting : nat) (rowstr : string)
  | IndexError
  | KeyError
  | ValueError
  | OverflowError
  | AttributeError
  | IOError.

Inductive result (A : Type) :=
  | Ret (a : A)
  | Fail (e : failure).
Arguments Ret {A} a.
Arguments Fail {A} e.

Definition rbind {A B} (r : result A) (k : A -> result B) : result B :=
  match r with
  | Ret a => k a
  | Fail e => Fail e
  end.

(** ** String builtins *)

Module PyStr.

Definition is_space (c : ascii) : bool :=
  let n := N_of_ascii c in
  (N.eqb n 32 || (N.leb 9 n && N.leb n 13))%N.

Fixpoint rev_onto (s acc : string) : string :=
  match s with
  | EmptyString => acc
  | String c s' => rev_onto s' (String c acc)
  end.

Definition rev (s : string) : string := rev_onto s "".

(** [s[i]] for [i = 0], which raises IndexError on the empty string. *)
Definition head (s : string) : result ascii :=
  match s with
  | EmptyString => Fail IndexError
  | String c _ => Ret c
  end.

(** [s[1:]] *)
Definition tail (s : string) : string :=
  match s with
  | EmptyString => ""
  | String _ s' => s'
  end.

Definition starts_with_char (c : ascii) (s : string) : bool :=
  match s with
  | EmptyString => false
  | String c' _ => Ascii.eqb c' c
  end.

(** [s.replace(old, new)]: every non-overlapping occurrence of [old],
    scanning from the left.  [skip] counts the characters of an
    occurrence that are still to be dropped. *)
Fixpoint replace_from (old new : string) (skip : nat) (s : string) : string :=
  match s with
  | EmptyString => ""
  | String c s' =>
      match skip with
      | S k => replace_from old new k s'
      | O =>
          if String.prefix old s
          then new ++ replace_from old new (String.length old - 1) s'
          else String c (replace_from old new 0 s')
      end
  end.

Fixpoint intersperse (new s : string) : string :=
  match s with
  | EmptyString => new
  | String c s' => new ++ String c (intersperse new s')
  end.

Definition replace (old new s : string) : string :=
  match old with
  | EmptyString => intersperse new s
  | _ => replace_from old new 0 s
  end.

(** [s.split()]: the maximal runs of non-whitespace characters. *)
Fixpoint split_from (s cur : string) : list string :=
  match s with
  | EmptyString =>
      match cur with EmptyString => [] | _ => [rev cur] end
  | String c s' =>
      if is_space c
      then match cur with
           | EmptyString => split_from s' ""
           | _ => rev cur :: split_from s' ""
           end
      else split_from s' (String c cur)
  end.

Definition split (s : string) : list string := split_from s "".

Fixpoint lstrip (s : string) : string :=
  match s with
  | EmptyString => ""
  | String c s' => if is_space c then lstrip s' else s
  end.

Definition strip (s : string) : string := rev (lstrip (rev (lstrip s))).

(** [' '.join(l)] *)
Fixpoint join (l : list string) : string :=
  match l with
  | [] => ""
  | [s] => s
  | s :: l' => s ++ " " ++ join l'
  end.

Definition lower (c : ascii) : ascii :=
  let n := N_of_ascii c in
  if (N.leb 65 n && N.leb n 90)%N then ascii_of_N (n + 32) else c.

Fixpoint lowercase (s : string) : string :=
  match s with
  | EmptyString => ""
  | String c s' => String (lower c) (lowercase s')
  end.

End PyStr.

(** ** Python floats

    A Python float is an IEEE 754 binary64 value; [spec_float] with
    precision 53 and maximal exponent 1024 is exactly that, and its
    operations round to nearest, ties to even, as the hardware does. *)

Module PyNum.

Definition b64 := spec_float.

Definition b64_sub : b64 -> b64 -> b64 := SFsub 53 1024.
Definition b64_add : b64 -> b64 -> b64 := SFadd 53 1024.
Definition b64_mul : b64 -> b64 -> b64 := SFmul 53 1024.
Definition b64_div : b64 -> b64 -> b64 := SFdiv 53 1024.
Definition b64_abs : b64 -> b64 := SFabs.
Definition b64_eqb : b64 -> b64 -> bool := SFeqb.
Definition b64_ltb : b64 -> b64 -> bool := SFltb.
Definition b64_leb : b64 -> b64 -> bool := SFleb.
Definition b64_gtb (x y : b64) : bool := SFltb y x.
Definition b64_geb (x y : b64) : bool := SFleb y x.

Definition isnan (x : b64) : bool :=
  match x with S754_nan => true | _ => false end.

(** An integer converted to a float (as in [x < 1] or [x / 100]). *)
Definition of_Z (z : Z) : b64 := binary_normalize 53 1024 z 0 false.

(** The float nearest to [m * 10^k], for [m > 0]: what a decimal
    literal denotes.  For a negative [k] the quotient is computed with
    more than 64 bits and the remainder decides the rounding. *)
Definition of_decimal (neg : bool) (m : positive) (k : Z) : b64 :=
  if 0 <=? k
  then binary_normalize 53 1024 ((if neg then Z.neg m else Z.pos m) * 10 ^ k) 0 neg
  else
    let d := 10 ^ (- k) in
    let s := 64 + Z.log2_up d in
    let '(q, r) := Z.div_eucl (Z.pos m * 2 ^ s) d in
    binary_round_aux 53 1024 neg q (- s) (new_location d r).

Arguments of_Z : simpl never.
Arguments of_decimal : simpl never.

(** *** [float(s)] *)

Definition digit_of (c : ascii) : option Z :=
  let n := N_of_ascii c in
  if (N.leb 48 n && N.leb n 57)%N then Some (Z.of_N n - 48) else None.

(** Reads a run of digits: its value appended to [acc], how many digits
    were read, and the rest of the string. *)
Fixpoint digits (s : string) (acc : Z) (n : Z) : Z * Z * string :=
  match s with
  | EmptyString => (acc, n, s)
  | String c s' =>
      match digit_of c with
      | Some d => digits s' (10 * acc + d) (n + 1)
      | None => (acc, n, s)
      end
  end.

Definition sign_of (s : string) : bool * string :=
  match s with
  | String "-" s' => (true, s')
  | String "+" s' => (false, s')
  | _ => (false, s)
  end.

Definition exponent_of (s : string) : option Z :=
  match s with
  | EmptyString => Some 0
  | String c s' =>
      if Ascii.eqb (PyStr.lower c) "e"
      then
        let '(neg, s'') := sign_of s' in
        match digits s'' 0 0 with
        | (e, n, EmptyString) =>
            if 0 <? n then Some (if neg then - e else e) else None
        | _ => None
        end
      else None
  end.

Definition finite_of (neg : bool) (s : string) : option b64 :=
  let '(ip, ni, s1) := digits s 0 0 in
  let '(m, nf, s2) :=
    match s1 with
    | String "." s1' => let '(m, nf, s2) := digits s1' ip 0 in (m, nf, s2)
    | _ => (ip, 0, s1)
    end in
  if 0 <? ni + nf
  then
    match exponent_of s2 with
    | Some e =>
        Some match m with
             | Z0 => S754_zero neg
             | Z.pos p => of_decimal neg p (e - nf)
             | Z.neg _ => S754_nan
             end
    | None => None
    end
  else None.

(** [float(s)]; [None] stands for the ValueError of a malformed literal. *)
Definition float (s : string) : option b64 :=
  let '(neg, body) := sign_of (PyStr.strip s) in
  let low := PyStr.lowercase body in
  if String.eqb low "nan" then Some S754_nan
  else if String.eqb low "inf" || String.eqb low "infinity" then Some (S754_infinity neg)
  else finite_of neg body.

(** *** Printing *)

Definition string_of_Z (z : Z) : string :=
  NilZero.string_of_int (Z.to_int z).

Fixpoint zeros (n : nat) : string :=
  match n with
  | O => ""
  | S n' => String "0" (zeros n')
  end.

Fixpoint drop_zeros (s : string) : string :=
  match s with
  | String "0" s' => drop_zeros s'
  | _ => s
  end.

(** Drops the zeros at the end of a digit string. *)
Definition strip_zeros (s : string) : string :=
  PyStr.rev (drop_zeros (PyStr.rev s)).

Definition with_point (ip fp : string) : string :=
  match strip_zeros fp with
  | EmptyString => ip
  | fp' => ip ++ "." ++ fp'
  end.

(** [a / b] rounded to the nearest integer, ties to even. *)
Definition div_nearest (a b : Z) : Z :=
  let '(q, r) := Z.div_eucl a b in
  match 2 * r ?= b with
  | Lt => q
  | Gt => q + 1
  | Eq => if Z.even q then q else q + 1
  end.

(** [num / den] against [10^x]. *)
Definition ge_pow10 (num den x : Z) : bool :=
  if 0 <=? x then den * 10 ^ x <=? num else den <=? num * 10 ^ (- x).

Fixpoint raise_exp (fuel : nat) (num den x : Z) : Z :=
  match fuel with
  | O => x
  | S fuel' =>
      if ge_pow10 num den (x + 1) then raise_exp fuel' num den (x + 1) else x
  end.

(** The decimal exponent of [num / den > 0]: the [x] with
    [10^x <= num / den < 10^(x+1)], found from the sizes in bits. *)
Definition floor_log10 (num den : Z) : Z :=
  let lg2 := Z.log2 num - Z.log2 den in
  raise_exp 4 num den ((lg2 - 1) * 30103 / 100000 - 1).

(** ["%g" % v] for a positive [v = num / den]: six significant digits,
    fixed notation when the exponent is in [-4, 6), no trailing zeros. *)
Definition fmt_g_pos (num den : Z) : string :=
  let x0 := floor_log10 num den in
  let d0 :=
    if 0 <=? 5 - x0
    then div_nearest (num * 10 ^ (5 - x0)) den
    else div_nearest num (den * 10 ^ (x0 - 5)) in
  let '(d, x) := if 1000000 <=? d0 then (d0 / 10, x0 + 1) else (d0, x0) in
  let ds := string_of_Z d in
  if (x <? -4) || (6 <=? x)
  then
    let ax := string_of_Z (Z.abs x) in
    with_point (String.substring 0 1 ds) (String.substring 1 5 ds)
    ++ "e" ++ (if x <? 0 then "-" else "+")
    ++ (if Z.abs x <? 10 then "0" else "") ++ ax
  else if 0 <=? x
  then with_point (String.substring 0 (Z.to_nat (x + 1)) ds)
                  (String.substring (Z.to_nat (x + 1)) (Z.to_nat (5 - x)) ds)
  else with_point "0" (zeros (Z.to_nat (- x - 1)) ++ ds).

Definition fmt_g (v : b64) : string :=
  match v with
  | S754_nan => "nan"
  | S754_infinity s => if s then "-inf" else "inf"
  | S754_zero s => if s then "-0" else "0"
  | S754_finite s m e =>
      (if s then "-" else "")
      ++ (if 0 <=? e then fmt_g_pos (Z.pos m * 2 ^ e) 1
          else fmt_g_pos (Z.pos m) (2 ^ (- e)))
  end.

(** [int(v)]: truncation towards zero; it raises on nan and infinities. *)
Definition to_int (v : b64) : result Z :=
  match v with
  | S754_nan => Fail ValueError
  | S754_infinity _ => Fail OverflowError
  | S754_zero _ => Ret 0
  | S754_finite s m e =>
      let a := if 0 <=? e then Z.pos m * 2 ^ e else Z.pos m / 2 ^ (- e) in
      Ret (if s then - a else a)
  end.

(** ["%d" % v] for a float [v]. *)
Definition fmt_d (v : b64) : result string :=
  rbind (to_int v) (fun z => Ret (string_of_Z z)).

End PyNum.

(** ** Collaborators outside [verif/input.py] *)

(** Modelled from the spec: [verif.location.Location], whose class is not
    part of this file; "a Location constructor taking (id, lat, lon,
    elevation)" building the record {id, lat, lon, elevation}. *)
Record Location := mkLocation {
  loc_id : PyNum.b64;
  loc_lat : PyNum.b64;
  loc_lon : PyNum.b64;
  loc_elev : PyNum.b64;
}.

(** Modelled from the spec: [verif.variable.Variable], "a Variable record
    taking (name, units)". *)
Record VariableT := mkVariable {
  var_name : string;
  var_units : string;
}.

Module Util.
Import PyNum.

(** Modelled from the spec: [verif.util.is_number], the
    "string-is-numeric" utility: the string is one [float()] accepts. *)
Definition is_number (s : string) : bool :=
  match float s with Some _ => true | None => false end.

Definition sentinel : b64 := of_Z (-999).

(** Modelled from the spec: [verif.util.clean], "a numeric-cleaning
    utility that maps sentinel values to not-a-number and passes through
    arrays unchanged otherwise". *)
Definition clean (data : list b64) : list b64 :=
  map (fun v => if b64_eqb v sentinel then S754_nan else v) data.

End Util.

(** ** The NetCDF files both structured decoders read

    [netcdf(filename, 'r')] gives a file object with global attributes
    (read as Python attributes of the object) and named variables, or
    raises when the file is not a NetCDF file. *)

Record nc_file := mkNc {
  nc_attrs : gmap string string;
  nc_variables : list (string * list PyNum.b64);
}.

(** What the decoders see of the machine: [os.path.exists],
    [os.path.expanduser], [netcdf(_, 'r')] and [open(_, 'rU')] with the
    lines it yields.  [None] stands for the exception the call raises. *)
Record world := mkWorld {
  path_exists : string -> bool;
  expanduser : string -> string;
  netcdf : string -> option nc_file;
  open_lines : string -> option (list string);
}.

Definition hasattr (file : nc_file) (name : string) : bool :=
  match nc_attrs file !! name with Some _ => true | None => false end.

(** [file.name]; [None] stands for AttributeError. *)
Definition getattr (file : nc_file) (name : string) : option string :=
  nc_attrs file !! name.

(** [file.variables[name]]; a missing name raises KeyError. *)
Fixpoint variables_get (vars : list (string * list PyNum.b64)) (name : string)
  : result (list PyNum.b64) :=
  match vars with
  | [] => Fail KeyError
  | (n, v) :: vars' => if String.eqb n name then Ret v else variables_get vars' name
  end.

Fixpoint mem_string (s : string) (l : list string) : bool :=
  match l with
  | [] => false
  | s' :: l' => String.eqb s' s || mem_string s l'
  end.

Arguments mem_string : simpl never.

(** The units rule shared by both structured decoders' [_get_variable]. *)
Definition units_of (file : nc_file) : string :=
  match getattr file "Units" with
  | Some u =>
      if String.eqb u "" then "No units"
      else if String.eqb u "%" then "%"
      else "$" ++ u ++ "$"
  | None => "No units"
  end.

(** [Location(id[i], lat[i], lon[i], elev[i]) for i in range(lat.shape[0])];
    an index past the end of a shorter array raises IndexError. *)
Fixpoint zip_locations (lat lon id elev : list PyNum.b64) : result (list Location) :=
  match lat with
  | [] => Ret []
  | la :: lat' =>
      match lon, id, elev with
      | lo :: lon', i :: id', e :: elev' =>
          rbind (zip_locations lat' lon' id' elev')
                (fun l => Ret (mkLocation i la lo e :: l))
      | _, _, _ => Fail IndexError
      end
  end.

(** ** Structured-format decoder B: the legacy COMPS files *)

Module Comps.
Import PyNum.

Definition _dimensionNames : list string :=
  ["Date"; "Offset"; "Location"; "Lat"; "Lon"; "Elev"].

Record t := mk {
  fullname : string;
  _filename : string;
  _file : nc_file;
  dates : list b64;
  offsets : list b64;
  thresholds : list b64;
  quantiles : list b64;
  locations : list Location;
  variable : VariableT;
}.

(** [is_valid]: the body of the [try]; any exception is caught by the
    bare [except] and gives False.  [valid] is computed and the function
    then returns the constant True. *)
Definition is_valid_try (w : world) (filename : string) : option bool :=
  file ← netcdf w filename;
  valid ←
    (if hasattr file "Convensions"
     then v ← getattr file "Convension"; Some (String.eqb v "comps")
     else Some false);
  Some true.

Definition is_valid (w : world) (filename : string) : bool :=
  match is_valid_try w filename with
  | Some b => b
  | None => false
  end.

(** [len(variable_name) >= 2 or variable_name[0] == c] *)
Definition long_or_starts (c : ascii) (variable_name : string) : result bool :=
  if (2 <=? String.length variable_name)%nat then Ret true
  else rbind (PyStr.head variable_name) (fun c' => Ret (Ascii.eqb c' c)).

(** Converts from COMPS name (i.e p03) to verif threshold (i.e 0.3).
    The source's [assert] compares the length of [np.where(...)], a
    one-element tuple, with 2 and never fails. *)
Definition _comps_to_verif_threshold (variable_name : string) : result (option b64) :=
  rbind (long_or_starts "p" variable_name) (fun c =>
  if c then
    let variable_name := PyStr.replace "m" "-" variable_name in
    let variable_name := PyStr.replace "p0" "0." variable_name in
    let variable_name := PyStr.replace "p" "" variable_name in
    if Util.is_number variable_name then Ret (float variable_name) else Ret None
  else Ret None).

(** Converts from COMPS name (i.e q30) to verif quantile (i.e 0.3) *)
Definition _comps_to_verif_quantile (variable_name : string) : result (option b64) :=
  rbind (long_or_starts "q" variable_name) (fun c =>
  if c then
    let variable_name := PyStr.replace "q0" "0." variable_name in
    let variable_name := PyStr.replace "q" "" variable_name in
    if Util.is_number variable_name then
      match float variable_name with
      | Some f =>
          let temp := b64_div f (of_Z 100) in
          if b64_geb temp (of_Z 0) && b64_leb temp (of_Z 1)
          then Ret (Some temp) else Ret None
      | None => Fail ValueError
      end
    else Ret None
  else Ret None).

(** Converts from verif threshold (i.e. 0.3) to COMPS name (i.e p03) *)
Definition _verif_to_comps_threshold (threshold : b64) : result string :=
  rbind
    (if b64_eqb threshold (of_Z 0) then Ret "0"
     else if b64_ltb (b64_abs threshold) (of_Z 1)
          then Ret (PyStr.replace "." "" (fmt_g threshold))
          else fmt_d threshold)
    (fun variable_name =>
       let variable_name := PyStr.replace "-" "m" variable_name in
       Ret ("p" ++ variable_name)).

(** Converts from verif quantile (i.e. 0.3) to COMPS name (i.e q30);
    [None] is the source's [return None]. *)
Definition _verif_to_comps_quantile (quantile : b64) : option string :=
  if b64_ltb quantile (of_Z 0) || b64_gtb quantile (of_Z 1) then None
  else
    let variable_name :=
      if b64_eqb quantile (of_Z 0) then "0"
      else PyStr.replace "." "" (fmt_g (b64_mul quantile (of_Z 100))) in
    Some ("q" ++ variable_name).

(** The loop shared by [_get_thresholds] and [_get_quantiles]: every
    stored variable that is not a dimension and that the codec decodes. *)
Fixpoint discover (codec : string -> result (option b64))
         (vars : list (string * list b64)) : result (list b64) :=
  match vars with
  | [] => Ret []
  | (var, _) :: vars' =>
      if negb (mem_string var _dimensionNames)
      then rbind (codec var) (fun o =>
           rbind (discover codec vars') (fun l =>
           Ret (match o with Some v => v :: l | None => l end)))
      else discover codec vars'
  end.

Definition _get_thresholds (file : nc_file) : result (list b64) :=
  discover _comps_to_verif_threshold (nc_variables file).

Definition _get_quantiles (file : nc_file) : result (list b64) :=
  discover _comps_to_verif_quantile (nc_variables file).

Definition _get_locations (file : nc_file) : result (list Location) :=
  rbind (variables_get (nc_variables file) "Lat") (fun lat =>
  rbind (variables_get (nc_variables file) "Lon") (fun lon =>
  rbind (variables_get (nc_variables file) "Location") (fun id =>
  rbind (variables_get (nc_variables file) "Elev") (fun elev =>
  zip_locations (Util.clean lat) (Util.clean lon) (Util.clean id) (Util.clean elev))))).

Definition _get_variable (file : nc_file) : result VariableT :=
  match getattr file "Variable" with
  | Some name => Ret (mkVariable name (units_of file))
  | None => Fail AttributeError
  end.

Definition __init__ (w : world) (filename : string) : result t :=
  let _filename := expanduser w filename in
  match netcdf w _filename with
  | None => Fail IOError
  | Some file =>
      rbind (variables_get (nc_variables file) "Date") (fun dates =>
      rbind (variables_get (nc_variables file) "Offset") (fun offsets =>
      rbind (_get_thresholds file) (fun thresholds =>
      rbind (_get_quantiles file) (fun quantiles =>
      rbind (_get_locations file) (fun locations =>
      rbind (_get_variable file) (fun variable =>
      Ret (mk filename _filename file (Util.clean dates) (Util.clean offsets)
              thresholds quantiles locations variable)))))))
  end.

End Comps.

(** ** Structured-format decoder A: NetCDF/CF files *)

Module NetcdfCf.
Import PyNum.

Record t := mk {
  fullname : string;
  _filename : string;
  _file : nc_file;
  dates : list b64;
  offsets : list b64;
  locations : list Location;
  thresholds : list b64;
  quantiles : list b64;
  variable : VariableT;
}.

Definition is_valid (w : world) (filename : string) : bool :=
  match netcdf w filename with
  | None => false
  | Some file =>
      let valid := false in
      let valid :=
        if hasattr file "Conventions"
           && match getattr file "Conventions" with
              | Some v => String.eqb v "verif_1.0.0"
              | None => false
              end
        then true else valid in
      valid
  end.

Definition _get_locations (file : nc_file) : result (list Location) :=
  rbind (variables_get (nc_variables file) "lat") (fun lat =>
  rbind (variables_get (nc_variables file) "lon") (fun lon =>
  rbind (variables_get (nc_variables file) "id") (fun id =>
  rbind (variables_get (nc_variables file) "elev") (fun elev =>
  zip_locations (Util.clean lat) (Util.clean lon) (Util.clean id) (Util.clean elev))))).

Definition _get_variable (file : nc_file) : result VariableT :=
  match getattr file "standard_name" with
  | Some name => Ret (mkVariable name (units_of file))
  | None => Fail AttributeError
  end.

Definition __init__ (w : world) (filename : string) : result t :=
  let _filename := expanduser w filename in
  match netcdf w _filename with
  | None => Fail IOError
  | Some file =>
      rbind (variables_get (nc_variables file) "date") (fun dates =>
      rbind (variables_get (nc_variables file) "offset") (fun offsets =>
      rbind (_get_locations file) (fun locations =>
      rbind (variables_get (nc_variables file) "thresholds") (fun thresholds =>
      rbind (variables_get (nc_variables file) "quantiles") (fun quantiles =>
      rbind (_get_variable file) (fun variable =>
      Ret (mk filename _filename file (Util.clean dates) (Util.clean offsets)
              locations (Util.clean thresholds) (Util.clean quantiles) variable)))))))
  end.

End NetcdfCf.

(** ** The text decoder *)

#[global] Instance spec_float_eq_dec : EqDecision spec_float.
Proof. solve_decision. Defined.

#[global] Instance spec_float_countable : Countable spec_float.
Proof.
  refine (inj_countable'
    (fun v => match v with
              | S754_zero s => inl (inl s)
              | S754_infinity s => inl (inr s)
              | S754_nan => inr (inl tt)
              | S754_finite s m e => inr (inr (s, m, e))
              end)
    (fun c => match c with
              | inl (inl s) => S754_zero s
              | inl (inr s) => S754_infinity s
              | inr (inl _) => S754_nan
              | inr (inr (s, m, e)) => S754_finite s m e
              end) _).
  intros []; reflexivity.
Defined.

(** The order in which [list(s)] walks a set [s].  A set keeps one
    element per key; which order its hash table yields them in is decided
    by the interpreter and by the elements' hashes, not by this file, so
    the decoder takes it as given: some rearrangement of the elements,
    here presented in the order they were added. *)
Record iteration (A : Type) := mkIteration {
  as_list : list A -> list A;
  as_list_perm : forall l, as_list l ≡ₚ l;
}.
Arguments as_list {A} _ _.
Arguments as_list_perm {A} _ _.

Module Text.
Import PyNum.

(** *** Float objects, sets and dictionary keys

    Sets and dictionaries find an element [y] for [x] when
    [x is y or x == y].  For floats [==] identifies [0.0] with [-0.0] and
    tells every other pair of distinct values apart, and a NaN equals
    nothing, so that a NaN is found only through the very same object.
    [fobj] is the identity of the object; [np.nan] is object 0. *)
Record pyfloat := mkFloat { fval : b64; fobj : N }.

Definition np_nan : pyfloat := mkFloat S754_nan 0.

Definition key_val (v : b64) : b64 :=
  match v with
  | S754_zero _ => S754_zero false
  | _ => v
  end.

Definition fk : Type := b64 * N.

Definition fkey (f : pyfloat) : fk :=
  match fval f with
  | S754_nan => (S754_nan, fobj f)
  | v => (key_val v, 0%N)
  end.

(** Modelled from the spec: equality and hash of
    [verif.location.Location], whose class is not part of this file.  A
    location's identity is "(lat,lon,elev)-derived" and the sparse tables
    are keyed by (date, offset, lat, lon, elevation), "not keyed by id":
    two Location objects are the same set element when their latitude,
    longitude and elevation are equal. *)
Definition loc_key (l : Location) : b64 * b64 * b64 :=
  (key_val (loc_lat l), key_val (loc_lon l), key_val (loc_elev l)).

(** [s.add(x)]: nothing happens when an element with the key of [x] is
    already in the set. *)
Definition set_add {A K : Type} `{EqDecision K} (key : A -> K) (x : A) (s : list A)
  : list A :=
  if decide (key x ∈ map key s) then s else (s ++ [x])%list.

Definition key5 : Type := fk * fk * b64 * b64 * b64.
Definition key6 : Type := key5 * fk.

(** The tuple [(date, offset, lat, lon, elev)] as a dictionary key. *)
Definition mk_key5 (date offset : pyfloat) (lat lon elev : b64) : key5 :=
  (fkey date, fkey offset, key_val lat, key_val lon, key_val elev).

(** The tuple [(date, offset, lat, lon, elev, level)]. *)
Definition mk_key6 (date offset : pyfloat) (lat lon elev : b64) (level : pyfloat)
  : key6 :=
  (mk_key5 date offset lat lon elev, fkey level).

(** *** What the decoder writes out *)

Inductive warning_msg :=
  | IgnoringLine (line filename : string)
  | ConflictingInfo (currLat currLon currElev lat lon elev : b64).

Inductive event :=
  | Printed (dlat dlon delev : b64)
  | Warned (w : warning_msg).

(** *** The variables of [__init__] while it reads the file *)

Record state := mkState {
  _units : string;
  _variable : string;
  _dates : list pyfloat;
  _offsets : list pyfloat;
  _locations : list Location;
  _quantiles : list pyfloat;
  _thresholds : list pyfloat;
  obs : gmap key5 b64;
  fcst : gmap key5 b64;
  cdf : gmap key6 b64;
  pit : gmap key5 b64;
  x : gmap key6 b64;
  indices : gmap string nat;
  header : option (list string);
  offset : pyfloat;
  date : pyfloat;
  locationInfo : gmap fk Location;
  shownConflictingWarning : bool;
  out : list event;
  next_obj : N;
}.

Definition set__units v (s : state) :=
  mkState v (_variable s) (_dates s) (_offsets s) (_locations s) (_quantiles s)
    (_thresholds s) (obs s) (fcst s) (cdf s) (pit s) (x s) (indices s) (header s)
    (offset s) (date s) (locationInfo s) (shownConflictingWarning s) (out s) (next_obj s).
Definition set__variable v (s : state) :=
  mkState (_units s) v (_dates s) (_offsets s) (_locations s) (_quantiles s)
    (_thresholds s) (obs s) (fcst s) (cdf s) (pit s) (x s) (indices s) (header s)
    (offset s) (date s) (locationInfo s) (shownConflictingWarning s) (out s) (next_obj s).
Definition set__dates v (s : state) :=
  mkState (_units s) (_variable s) v (_offsets s) (_locations s) (_quantiles s)
    (_thresholds s) (obs s) (fcst s) (cdf s) (pit s) (x s) (indices s) (header s)
    (offset s) (date s) (locationInfo s) (shownConflictingWarning s) (out s) (next_obj s).
Definition set__offsets v (s : state) :=
  mkState (_units s) (_variable s) (_dates s) v (_locations s) (_quantiles s)
    (_thresholds s) (obs s) (fcst s) (cdf s) (pit s) (x s) (indices s) (header s)
    (offset s) (date s) (locationInfo s) (shownConflictingWarning s) (out s) (next_obj s).
Definition set__locations v (s : state) :=
  mkState (_units s) (_variable s) (_dates s) (_offsets s) v (_quantiles s)
    (_thresholds s) (obs s) (fcst s) (cdf s) (pit s) (x s) (indices s) (header s)
    (offset s) (date s) (locationInfo s) (shownConflictingWarning s) (out s) (next_obj s).
Definition set__quantiles v (s : state) :=
  mkState (_units s) (_variable s) (_dates s) (_offsets s) (_locations s) v
    (_thresholds s) (obs s) (fcst s) (cdf s) (pit s) (x s) (indices s) (header s)
    (offset s) (date s) (locationInfo s) (shownConflictingWarning s) (out s) (next_obj s).
Definition set__thresholds v (s : state) :=
  mkState (_units s) (_variable s) (_dates s) (_offsets s) (_locations s) (_quantiles s)
    v (obs s) (fcst s) (cdf s) (pit s) (x s) (indices s) (header s)
    (offset s) (date s) (locationInfo s) (shownConflictingWarning s) (out s) (next_obj s).
Definition set_obs v (s : state) :=
  mkState (_units s) (_variable s) (_dates s) (_offsets s) (_locations s) (_quantiles s)
    (_thresholds s) v (fcst s) (cdf s) (pit s) (x s) (indices s) (header s)
    (offset s) (date s) (locationInfo s) (shownConflictingWarning s) (out s) (next_obj s).
Definition set_fcst v (s : state) :=
  mkState (_units s) (_variable s) (_dates s) (_offsets s) (_locations s) (_quantiles s)
    (_thresholds s) (obs s) v (cdf s) (pit s) (x s) (indices s) (header s)
    (offset s) (date s) (locationInfo s) (shownConflictingWarning s) (out s) (next_obj s).
Definition set_cdf v (s : state) :=
  mkState (_units s) (_variable s) (_dates s) (_offsets s) (_locations s) (_quantiles s)
    (_thresholds s) (obs s) (fcst s) v (pit s) (x s) (indices s) (header s)
    (offset s) (date s) (locationInfo s) (shownConflictingWarning s) (out s) (next_obj s).
Definition set_pit v (s : state) :=
  mkState (_units s) (_variable s) (_dates s) (_offsets s) (_locations s) (_quantiles s)
    (_thresholds s) (obs s) (fcst s) (cdf s) v (x s) (indices s) (header s)
    (offset s) (date s) (locationInfo s) (shownConflictingWarning s) (out s) (next_obj s).
Definition set_x v (s : state) :=
  mkState (_units s) (_variable s) (_dates s) (_offsets s) (_locations s) (_quantiles s)
    (_thresholds s) (obs s) (fcst s) (cdf s) (pit s) v (indices s) (header s)
    (offset s) (date s) (locationInfo s) (shownConflictingWarning s) (out s) (next_obj s).
Definition set_indices v (s : state) :=
  mkState (_units s) (_variable s) (_dates s) (_offsets s) (_locations s) (_quantiles s)
    (_thresholds s) (obs s) (fcst s) (cdf s) (pit s) (x s) v (header s)
    (offset s) (date s) (locationInfo s) (shownConflictingWarning s) (out s) (next_obj s).
Definition set_header v (s : state) :=
  mkState (_units s) (_variable s) (_dates s) (_offsets s) (_locations s) (_quantiles s)
    (_thresholds s) (obs s) (fcst s) (cdf s) (pit s) (x s) (indices s) v
    (offset s) (date s) (locationInfo s) (shownConflictingWarning s) (out s) (next_obj s).
Definition set_offset v (s : state) :=
  mkState (_units s) (_variable s) (_dates s) (_offsets s) (_locations s) (_quantiles s)
    (_thresholds s) (obs s) (fcst s) (cdf s) (pit s) (x s) (indices s) (header s)
    v (date s) (locationInfo s) (shownConflictingWarning s) (out s) (next_obj s).
Definition set_date v (s : state) :=
  mkState (_units s) (_variable s) (_dates s) (_offsets s) (_locations s) (_quantiles s)
    (_thresholds s) (obs s) (fcst s) (cdf s) (pit s) (x s) (indices s) (header s)
    (offset s) v (locationInfo s) (shownConflictingWarning s) (out s) (next_obj s).
Definition set_locationInfo v (s : state) :=
  mkState (_units s) (_variable s) (_dates s) (_offsets s) (_locations s) (_quantiles s)
    (_thresholds s) (obs s) (fcst s) (cdf s) (pit s) (x s) (indices s) (header s)
    (offset s) (date s) v (shownConflictingWarning s) (out s) (next_obj s).
Definition set_shownConflictingWarning v (s : state) :=
  mkState (_units s) (_variable s) (_dates s) (_offsets s) (_locations s) (_quantiles s)
    (_thresholds s) (obs s) (fcst s) (cdf s) (pit s) (x s) (indices s) (header s)
    (offset s) (date s) (locationInfo s) v (out s) (next_obj s).
Definition set_out v (s : state) :=
  mkState (_units s) (_variable s) (_dates s) (_offsets s) (_locations s) (_quantiles s)
    (_thresholds s) (obs s) (fcst s) (cdf s) (pit s) (x s) (indices s) (header s)
    (offset s) (date s) (locationInfo s) (shownConflictingWarning s) v (next_obj s).
Definition set_next_obj v (s : state) :=
  mkState (_units s) (_variable s) (_dates s) (_offsets s) (_locations s) (_quantiles s)
    (_thresholds s) (obs s) (fcst s) (cdf s) (pit s) (x s) (indices s) (header s)
    (offset s) (date s) (locationInfo s) (shownConflictingWarning s) (out s) v.

(** *** Statements: a state transformer that may fail *)

Definition M (A : Type) : Type := state -> result A * state.

#[export] Instance M_ret : MRet M := fun A a st => (Ret a, st).

#[export] Instance M_bind : MBind M := fun A B k m st =>
  match m st with
  | (Ret a, st') => k a st'
  | (Fail e, st') => (Fail e, st')
  end.

Definition gets {A} (f : state -> A) : M A := fun st => (Ret (f st), st).
Definition modify (f : state -> state) : M unit := fun st => (Ret tt, f st).
Definition raise {A} (e : failure) : M A := fun st => (Fail e, st).
Definition emit (e : event) : M unit :=
  modify (fun st => set_out (out st ++ [e])%list st).

(** Modelled from the spec: [verif.util.warning] "logs and continues". *)
Definition warning (w : warning_msg) : M unit := emit (Warned w).

(** Modelled from the spec: [verif.util.error] "aborts the load"; it
    never returns. *)
Definition error {A} (e : failure) : M A := raise e.

(** [float(s)] makes a new object. *)
Definition float_obj (s : string) : M pyfloat :=
  match float s with
  | None => raise ValueError
  | Some v =>
      fun st => (Ret (mkFloat v (next_obj st)), set_next_obj (next_obj st + 1)%N st)
  end.

(** Parse string into float, changing -999 into np.nan *)
Definition _clean (value : string) : M pyfloat :=
  fvalue ← float_obj value;
  if b64_eqb (fval fvalue) (of_Z (-999)) then mret np_nan else mret fvalue.

Fixpoint _get_quantile_fields (fields : list string) : list string :=
  match fields with
  | [] => []
  | att :: fields' =>
      if PyStr.starts_with_char "q" att
      then att :: _get_quantile_fields fields'
      else _get_quantile_fields fields'
  end.

Fixpoint _get_threshold_fields (fields : list string) : list string :=
  match fields with
  | [] => []
  | att :: fields' =>
      if PyStr.starts_with_char "p" att && negb (String.eqb att "pit")
      then att :: _get_threshold_fields fields'
      else _get_threshold_fields fields'
  end.

(** [l[i]] and [d[k]] *)
Definition list_get {A} (l : list A) (i : nat) : M A :=
  match l !! i with
  | Some a => mret a
  | None => raise IndexError
  end.

Definition dict_get {K A} `{Countable K} (d : gmap K A) (k : K) : M A :=
  match d !! k with
  | Some a => mret a
  | None => raise KeyError
  end.

Definition contains {K A} `{Countable K} (d : gmap K A) (k : K) : bool :=
  match d !! k with
  | Some _ => true
  | None => false
  end.

(** [self._clean(row[indices[name]])] *)
Definition cell (row : list string) (name : string) : M pyfloat :=
  ind ← gets indices;
  i ← dict_get ind name;
  value ← list_get row i;
  _clean value.

(** [a is b] for two results of [len()].  CPython keeps one object for
    each int from -5 to 256 and makes a new object for any other
    result, so that two lengths are the same object when they are equal
    and at most 256. *)
Definition len_is (a b : nat) : bool := (a =? b)%nat && (a <=? 256)%nat.

Definition zero : b64 := of_Z 0.
Definition tol_latlon : b64 := of_decimal false 1 (-4).
Definition tol_elev : b64 := of_decimal false 1 (-3).

(** *** A metadata line: [rowstr[0] == "#"] *)
Definition comment_line (filename rowstr : string) : M unit :=
  let curr := PyStr.tail rowstr in
  let curr := PyStr.split curr in
  curr0 ← list_get curr 0;
  if String.eqb curr0 "variable:" then
    modify (set__variable (PyStr.join (drop 1 curr)))
  else if String.eqb curr0 "units:" then
    curr1 ← list_get curr 1;
    modify (set__units curr1)
  else
    warning (IgnoringLine (PyStr.strip rowstr) filename).

(** *** The header line *)
Definition header_index (att : string) (i : nat) (indices : gmap string nat)
  : gmap string nat :=
  if String.eqb att "date" then <["date" := i]> indices
  else if String.eqb att "offset" then <["offset" := i]> indices
  else if String.eqb att "lat" then <["lat" := i]> indices
  else if String.eqb att "lon" then <["lon" := i]> indices
  else if String.eqb att "elev" then <["elev" := i]> indices
  else if String.eqb att "obs" then <["obs" := i]> indices
  else if String.eqb att "fcst" then <["fcst" := i]> indices
  else <[att := i]> indices.

Fixpoint header_indices (header : list string) (i : nat) (indices : gmap string nat)
  : gmap string nat :=
  match header with
  | [] => indices
  | att :: header' => header_indices header' (S i) (header_index att i indices)
  end.

Fixpoint require_columns (filename : string) (cols : list string) : M unit :=
  match cols with
  | [] => mret tt
  | col :: cols' =>
      ind ← gets indices;
      (if negb (contains ind col) then error (MissingColumn filename col) else mret tt);;
      require_columns filename cols'
  end.

Definition header_line (filename : string) (row : list string) : M unit :=
  modify (set_header (Some row));;
  modify (fun st => set_indices (header_indices row 0 (indices st)) st);;
  require_columns filename ["obs"; "fcst"].

(** *** A data row *)

(** [if(name in indices): v = self._clean(row[indices[name]])], with the
    value [v] had before when the column is missing. *)
Definition column_or (row : list string) (name : string) (v : pyfloat) : M pyfloat :=
  ind ← gets indices;
  if contains ind name then cell row name else mret v.

Definition exceeds (curr stored tol : b64) : bool :=
  negb (isnan curr) && b64_gtb (b64_abs (b64_sub curr stored)) tol.

Definition or_zero (curr : b64) : b64 :=
  if isnan curr then zero else curr.

(** Lines 426 to 473: the arity check, the coordinates of the row, the
    lookup of previous location information, and the key
    [(date, offset, lat, lon, elev)] the row is stored under. *)
Definition row_key (header : list string) (rowstr : string) (row : list string)
  : M (pyfloat * pyfloat * b64 * b64 * b64) :=
  (if negb (len_is (length row) (length header))
   then error (IncorrectNumberOfColumns (length header) (PyStr.strip rowstr))
   else mret tt);;
  date0 ← gets date;
  date ← column_or row "date" date0;
  modify (set_date date);;
  modify (fun st => set__dates (set_add fkey date (_dates st)) st);;
  offset0 ← gets offset;
  offset ← column_or row "offset" offset0;
  modify (set_offset offset);;
  modify (fun st => set__offsets (set_add fkey offset (_offsets st)) st);;
  id ← column_or row "id" np_nan;
  (* Lookup previous locationInfo *)
  currLat ← column_or row "lat" np_nan;
  currLon ← column_or row "lon" np_nan;
  currElev ← column_or row "elev" np_nan;
  let currLat := fval currLat in
  let currLon := fval currLon in
  let currElev := fval currElev in
  info ← gets locationInfo;
  (if negb (isnan (fval id)) && contains info (fkey id) then
     location ← dict_get info (fkey id);
     let lat := loc_lat location in
     let lon := loc_lon location in
     let elev := loc_elev location in
     shown ← gets shownConflictingWarning;
     if negb shown then
       if exceeds currLat lat tol_latlon
          || exceeds currLon lon tol_latlon
          || exceeds currElev elev tol_elev
       then
         emit (Printed (b64_sub currLat lat) (b64_sub currLon lon)
                       (b64_sub currElev elev));;
         warning (ConflictingInfo currLat currLon currElev lat lon elev);;
         modify (set_shownConflictingWarning true)
       else mret tt
     else mret tt
   else
     let currLat := or_zero currLat in
     let currLon := or_zero currLon in
     let currElev := or_zero currElev in
     let location := mkLocation (fval id) currLat currLon currElev in
     modify (fun st => set__locations (set_add loc_key location (_locations st)) st);;
     modify (fun st => set_locationInfo (<[fkey id := location]> (locationInfo st)) st));;
  info ← gets locationInfo;
  location ← dict_get info (fkey id);
  mret (date, offset, loc_lat location, loc_lon location, loc_elev location).

(** [for field in quantileFields: ...] *)
Fixpoint store_quantiles (fields row : list string)
         (date offset : pyfloat) (lat lon elev : b64) : M unit :=
  match fields with
  | [] => mret tt
  | field :: fields' =>
      quantile ← float_obj (PyStr.tail field);
      modify (fun st => set__quantiles (set_add fkey quantile (_quantiles st)) st);;
      let key := mk_key6 date offset lat lon elev quantile in
      v ← cell row field;
      modify (fun st => set_x (<[key := fval v]> (x st)) st);;
      store_quantiles fields' row date offset lat lon elev
  end.

(** [for field in thresholdFields: ...] *)
Fixpoint store_thresholds (fields row : list string)
         (date offset : pyfloat) (lat lon elev : b64) : M unit :=
  match fields with
  | [] => mret tt
  | field :: fields' =>
      threshold ← float_obj (PyStr.tail field);
      modify (fun st => set__thresholds (set_add fkey threshold (_thresholds st)) st);;
      let key := mk_key6 date offset lat lon elev threshold in
      v ← cell row field;
      modify (fun st => set_cdf (<[key := fval v]> (cdf st)) st);;
      store_thresholds fields' row date offset lat lon elev
  end.

(** Lines 474 to 489: the row's values go into the sparse tables. *)
Definition store_row (header row : list string)
           (k : pyfloat * pyfloat * b64 * b64 * b64) : M unit :=
  let '(date, offset, lat, lon, elev) := k in
  let key := mk_key5 date offset lat lon elev in
  v ← cell row "obs";
  modify (fun st => set_obs (<[key := fval v]> (obs st)) st);;
  v ← cell row "fcst";
  modify (fun st => set_fcst (<[key := fval v]> (fcst st)) st);;
  let quantileFields := _get_quantile_fields header in
  let thresholdFields := _get_threshold_fields header in
  ind ← gets indices;
  (if contains ind "pit" then
     v ← cell row "pit";
     modify (fun st => set_pit (<[key := fval v]> (pit st)) st)
   else mret tt);;
  store_quantiles quantileFields row date offset lat lon elev;;
  store_thresholds thresholdFields row date offset lat lon elev.

Definition data_row (header : list string) (rowstr : string) (row : list string)
  : M unit :=
  k ← row_key header rowstr row;
  store_row header row k.

(** The body of [for rowstr in file]. *)
Definition line (filename rowstr : string) : M unit :=
  match PyStr.head rowstr with
  | Fail e => raise e
  | Ret c =>
      if Ascii.eqb c "#" then comment_line filename rowstr
      else
        let row := PyStr.split rowstr in
        header ← gets header;
        match header with
        | None => header_line filename row
        | Some header => data_row header rowstr row
        end
  end.

Fixpoint lines (filename : string) (file : list string) : M unit :=
  match file with
  | [] => mret tt
  | rowstr :: file' => line filename rowstr;; lines filename file'
  end.

Definition initial : state :=
  {| _units := "Unknown units"; _variable := "Unknown";
     _dates := []; _offsets := []; _locations := [];
     _quantiles := []; _thresholds := [];
     obs := ∅; fcst := ∅; cdf := ∅; pit := ∅; x := ∅;
     indices := ∅; header := None;
     offset := mkFloat zero 0; date := mkFloat zero 0;
     locationInfo := ∅; shownConflictingWarning := false;
     out := []; next_obj := 1 |}.

(** *** Dense assembly (lines 504 to 537)

    Each array is allocated full of NaN and each of its cells is
    visited once, taking the value stored under the cell's key when the
    sparse table has the key. *)
Definition at_key {K} `{Countable K} (table : gmap K b64) (key : K) : b64 :=
  match table !! key with
  | Some v => v
  | None => S754_nan
  end.

Definition dense3 (table : gmap key5 b64)
           (dates offsets : list pyfloat) (locations : list Location)
  : list (list (list b64)) :=
  map (fun date =>
    map (fun offset =>
      map (fun location =>
        at_key table (mk_key5 date offset (loc_lat location) (loc_lon location)
                              (loc_elev location)))
        locations) offsets) dates.

Definition dense4 (table : gmap key6 b64)
           (dates offsets : list pyfloat) (locations : list Location)
           (levels : list pyfloat)
  : list (list (list (list b64))) :=
  map (fun date =>
    map (fun offset =>
      map (fun location =>
        map (fun level =>
          at_key table (mk_key6 date offset (loc_lat location) (loc_lon location)
                                (loc_elev location) level))
          levels) locations) offsets) dates.

(** *** Deferred id assignment (lines 539 to 553) *)
Fixpoint max_id (locations : list Location) (maxLocationId : b64) : b64 :=
  match locations with
  | [] => maxLocationId
  | location :: locations' =>
      max_id locations'
        (if isnan maxLocationId then loc_id location
         else if b64_gtb (loc_id location) maxLocationId then loc_id location
         else maxLocationId)
  end.

Definition with_id (location : Location) (id : b64) : Location :=
  mkLocation id (loc_lat location) (loc_lon location) (loc_elev location).

Fixpoint assign_ids (locations : list Location) (counter : b64) : list Location :=
  match locations with
  | [] => []
  | location :: locations' =>
      if isnan (loc_id location)
      then with_id location counter :: assign_ids locations' (b64_add counter (of_Z 1))
      else location :: assign_ids locations' counter
  end.

(** The counter is the int 0 or the float [maxLocationId + 1]; an int
    and the float of the same value are the same id. *)
Definition first_id (locations : list Location) : b64 :=
  let maxLocationId := max_id locations S754_nan in
  if negb (isnan maxLocationId) then b64_add maxLocationId (of_Z 1) else zero.

(** *** The snapshot *)
Record t := mk {
  fullname : string;
  _filename : string;
  _pit : option (list (list (list b64)));
  dates_ : list pyfloat;
  offsets_ : list pyfloat;
  quantiles_ : list pyfloat;
  thresholds_ : list pyfloat;
  deterministic : list (list (list b64));
  self_obs : list (list (list b64));
  threshold_scores : list (list (list (list b64)));
  quantile_scores : list (list (list (list b64)));
  dates : list b64;
  offsets : list b64;
  thresholds : list b64;
  quantiles : list b64;
  locations : list Location;
  variable : VariableT;
}.

(** Lines 491 to 560, from the state the loop over the file ends in. *)
Definition assemble (itf : iteration pyfloat) (itl : iteration Location)
           (filename _filename : string) (st : state) : t :=
  let dates_ := as_list itf (_dates st) in
  let offsets_ := as_list itf (_offsets st) in
  let locations_ := as_list itl (_locations st) in
  let quantiles_ := as_list itf (_quantiles st) in
  let thresholds_ := as_list itf (_thresholds st) in
  {| fullname := filename;
     _filename := _filename;
     _pit := if negb (size (pit st) =? 0)%nat
             then Some (dense3 (pit st) dates_ offsets_ locations_) else None;
     dates_ := dates_;
     offsets_ := offsets_;
     quantiles_ := quantiles_;
     thresholds_ := thresholds_;
     self_obs := dense3 (obs st) dates_ offsets_ locations_;
     deterministic := dense3 (fcst st) dates_ offsets_ locations_;
     threshold_scores := dense4 (cdf st) dates_ offsets_ locations_ thresholds_;
     quantile_scores := dense4 (x st) dates_ offsets_ locations_ quantiles_;
     dates := map fval dates_;
     offsets := map fval offsets_;
     thresholds := map fval thresholds_;
     quantiles := map fval quantiles_;
     locations := assign_ids locations_ (first_id locations_);
     variable := mkVariable (_variable st) (_units st) |}.

(** [Text(filename)]: the snapshot or the failure, and what was written
    out on the way. *)
Definition __init__ (itf : iteration pyfloat) (itl : iteration Location)
           (w : world) (filename : string) : result t * list event :=
  let _filename := expanduser w filename in
  match open_lines w _filename with
  | None => (Fail IOError, [])
  | Some file =>
      match lines _filename file initial with
      | (Ret _, st) => (Ret (assemble itf itl filename _filename st), out st)
      | (Fail e, st) => (Fail e, out st)
      end
  end.

Definition is_valid (filename : string) : bool := true.

End Text.

(** ** The format dispatcher *)

Module Dispatch.

Inductive decoder := NetcdfCf | Comps | Text.

Inductive input :=
  | InNetcdfCf (i : NetcdfCf.t)
  | InComps (i : Comps.t)
  | InText (i : Text.t).

(** What a call of [get_input] does that can be seen from outside: the
    validity predicates it calls, in the order of the calls, and the
    text decoder's output. *)
Record run := mkRun {
  probes : list decoder;
  returned : result input;
  output : list Text.event;
}.

Definition construct (itf : iteration Text.pyfloat) (itl : iteration Location)
           (w : world) (filename : string) (d : decoder) : result input * list Text.event :=
  match d with
  | NetcdfCf => (rbind (NetcdfCf.__init__ w filename) (fun i => Ret (InNetcdfCf i)), [])
  | Comps => (rbind (Comps.__init__ w filename) (fun i => Ret (InComps i)), [])
  | Text =>
      let '(r, o) := Text.__init__ itf itl w filename in
      (rbind r (fun i => Ret (InText i)), o)
  end.

Definition is_valid (w : world) (filename : string) (d : decoder) : bool :=
  match d with
  | NetcdfCf => NetcdfCf.is_valid w filename
  | Comps => Comps.is_valid w filename
  | Text => Text.is_valid filename
  end.

Definition get_input (itf : iteration Text.pyfloat) (itl : iteration Location)
           (w : world) (filename : string) : run :=
  if negb (path_exists w filename) then
    mkRun [] (Fail (FileDoesNotExist filename)) []
  else if NetcdfCf.is_valid w filename then
    let '(r, o) := construct itf itl w filename NetcdfCf in
    mkRun [NetcdfCf] r o
  else if Comps.is_valid w filename then
    let '(r, o) := construct itf itl w filename Comps in
    mkRun [NetcdfCf; Comps] r o
  else if Text.is_valid filename then
    let '(r, o) := construct itf itl w filename Text in
    mkRun [NetcdfCf; Comps; Text] r o
  else
    mkRun [NetcdfCf; Comps; Text] (Fail (NotValidInput filename)) [].

End Dispatch.

(** ** Iteration orders *)


Module SetOrder.
Import PyNum.

(** The order of insertion. *)
Definition insertion {A : Type} : iteration A :=
  mkIteration A (fun l => l) (fun l => reflexivity l).

(** CPython 2.7 hashes a float that has an integral value of moderate
    size to that integer (and -1 to -2), a NaN to 0 and the infinities
    to two constants.  [None]: another float, whose hash is not
    modelled. *)
Definition hash_double (v : b64) : option Z :=
  match v with
  | S754_nan => Some 0
  | S754_infinity s => Some (if s then -271828 else 314159)
  | S754_zero _ => Some 0
  | S754_finite s m e =>
      let a := if 0 <=? e then Z.pos m * 2 ^ e else Z.pos m / 2 ^ (- e) in
      if ((0 <=? e) || (Z.pos m mod 2 ^ (- e) =? 0)) && (a <=? 2 ^ 62)
      then Some (if s then (if a =? 1 then -2 else - a) else a)
      else None
  end.

(** The slot of a key in the table of eight slots a small set has. *)
Definition slot (f : Text.pyfloat) : Z :=
  match hash_double (Text.fval f) with
  | Some h => h mod 8
  | None => 0
  end.

Definition by_slot (f g : Text.pyfloat) : Prop := slot f <= slot g.

#[export] Instance by_slot_dec f g : Decision (by_slot f g).
Proof. unfold by_slot. apply _. Defined.

(** A set of at most five floats with integral values that fall into
    different slots is laid out, and walked, in the order of the slots,
    whatever the order of insertion was. *)
Definition table8 : iteration Text.pyfloat :=
  mkIteration Text.pyfloat (merge_sort by_slot) (merge_sort_Permutation by_slot).

(** An order for the set of locations: by latitude, then longitude, then
    elevation, as a table whose slots follow the coordinates would give. *)
Definition coords_le (a b : Location) : Prop :=
  b64_leb (loc_lat a) (loc_lat b) = true.

#[export] Instance coords_le_dec a b : Decision (coords_le a b).
Proof. unfold coords_le. apply _. Defined.

Definition by_latitude : iteration Location :=
  mkIteration Location (merge_sort coords_le) (merge_sort_Permutation coords_le).

End SetOrder.

(** ** Notions the statements use *)

Module Facts.
Import PyNum.

(** A float the source writes as a decimal literal. *)
Definition lit (s : string) : b64 :=
  match float s with Some v => v | None => S754_nan end.

Definition in_unit_interval (q : b64) : Prop :=
  b64_leb (of_Z 0) q = true /\ b64_leb q (of_Z 1) = true.

Definition threshold_roundtrip (t : b64) : Prop :=
  exists token, Comps._verif_to_comps_threshold t = Ret token
                /\ Comps._comps_to_verif_threshold token = Ret (Some t).

Definition quantile_roundtrip (q : b64) : Prop :=
  exists token, Comps._verif_to_comps_quantile q = Some token
                /\ Comps._comps_to_verif_quantile token = Ret (Some q).

Definition newline : string := String (ascii_of_nat 10) "".

(** A world with one file, which is not a NetCDF file. *)
Definition text_world (file : list string) : world :=
  mkWorld (fun _ => true) (fun s => s) (fun _ => None) (fun _ => Some file).

(** A world with one file, which is a NetCDF file. *)
Definition netcdf_world (file : nc_file) : world :=
  mkWorld (fun _ => true) (fun s => s) (fun _ => Some file) (fun _ => None).

Fixpoint repeat_string (n : nat) (s : string) : string :=
  match n with
  | O => ""
  | S n' => s ++ repeat_string n' s
  end.

(** A header of 257 columns and a data row of 257 fields. *)
Definition wide_file : list string :=
  [ "obs fcst" ++ repeat_string 255 " c" ++ newline;
    "1 2" ++ repeat_string 255 " 0" ++ newline ].

(** *** The text decoder's run over a file *)

Definition coords : Type := Text.pyfloat * Text.pyfloat * b64 * b64 * b64.

Definition key5_of (k : coords) : Text.key5 :=
  let '(date, offset, lat, lon, elev) := k in Text.mk_key5 date offset lat lon elev.

Definition date_of (k : coords) : Text.pyfloat := k.1.1.1.1.
Definition offset_of (k : coords) : Text.pyfloat := k.1.1.1.2.
Definition place_of (k : coords) : b64 * b64 * b64 :=
  (Text.key_val k.1.1.2, Text.key_val k.1.2, Text.key_val k.2).

(** The header, when the loop in state [st] takes [rowstr] for a data
    row: the line is not a comment and the header has been read. *)
Definition as_data_row (st : Text.state) (rowstr : string) : option (list string) :=
  match PyStr.head rowstr with
  | Ret c => if Ascii.eqb c "#" then None else Text.header st
  | Fail _ => None
  end.

(** A data row as the loop meets it: the state the loop is in, the
    header and the line. *)
Record met_row := mkMet {
  met_state : Text.state;
  met_header : list string;
  met_rowstr : string;
}.

(** The data rows the loop processes, in the order of the file, up to
    the line at which the load fails, if it does. *)
Fixpoint data_rows (filename : string) (file : list string) (st : Text.state)
  : list met_row :=
  match file with
  | [] => []
  | rowstr :: file' =>
      let rest :=
        match Text.line filename rowstr st with
        | (Ret _, st') => data_rows filename file' st'
        | (Fail _, _) => []
        end in
      match as_data_row st rowstr with
      | Some header => mkMet st header rowstr :: rest
      | None => rest
      end
  end.

(** The key [(date, offset, lat, lon, elev)] the decoder stores a data
    row under. *)
Definition key_of (r : met_row) : option coords :=
  match Text.row_key (met_header r) (met_rowstr r) (PyStr.split (met_rowstr r))
                     (met_state r) with
  | (Ret k, _) => Some k
  | (Fail _, _) => None
  end.

(** The data rows of the file [Text(filename)] reads, and their keys. *)
Definition rows_of (w : world) (filename : string) : list met_row :=
  match open_lines w (expanduser w filename) with
  | Some file => data_rows (expanduser w filename) file Text.initial
  | None => []
  end.

Definition keys_of (w : world) (filename : string) : list coords :=
  omap key_of (rows_of w filename).

(** The state the row leaves the loop in, with what it stored. *)
Definition after (r : met_row) : Text.state :=
  (Text.data_row (met_header r) (met_rowstr r) (PyStr.split (met_rowstr r))
                 (met_state r)).2.

(** The elements of a list under distinct keys, each where it occurs
    first. *)
Definition distinct {A K : Type} `{EqDecision K} (key : A -> K) (l : list A) : list A :=
  foldl (fun s a => Text.set_add key a s) [] l.

(** What [_clean] makes of a field, apart from the identity of the
    object. *)
Definition clean_value (value : string) : option b64 :=
  v ← float value;
  Some (if b64_eqb v (of_Z (-999)) then S754_nan else v).

(** The value of the column [name] in a row, [dflt] when the header has
    no such column. *)
Definition read_column (ind : gmap string nat) (row : list string) (name : string)
           (dflt : b64) : option b64 :=
  match ind !! name with
  | Some i => value ← row !! i; clean_value value
  | None => Some dflt
  end.

(** The row names a location that is registered and states a latitude,
    longitude or elevation that is off the registered one by more than
    the tolerance. *)
Definition conflicting (r : met_row) : bool :=
  let st := met_state r in
  let row := PyStr.split (met_rowstr r) in
  let read name := read_column (Text.indices st) row name S754_nan in
  match read "id", read "lat", read "lon", read "elev" with
  | Some id, Some currLat, Some currLon, Some currElev =>
      negb (isnan id)
      && match Text.locationInfo st !! (Text.key_val id, 0%N) with
         | Some location =>
             Text.exceeds currLat (loc_lat location) Text.tol_latlon
             || Text.exceeds currLon (loc_lon location) Text.tol_latlon
             || Text.exceeds currElev (loc_elev location) Text.tol_elev
         | None => false
         end
  | _, _, _, _ => false
  end.

Definition is_conflict_warning (e : Text.event) : bool :=
  match e with
  | Text.Warned (Text.ConflictingInfo _ _ _ _ _ _) => true
  | _ => false
  end.

Definition conflict_warnings (o : list Text.event) : nat :=
  length (filter (fun e => is_conflict_warning e = true) o).

(** [a[d][o][s]] and [a[d, o, s, q]] *)
Definition at3 (a : list (list (list b64))) (d o s : nat) : option b64 :=
  l ← a !! d; l ← l !! o; l !! s.

Definition at4 (a : list (list (list (list b64)))) (d o s q : nat) : option b64 :=
  l ← a !! d; l ← l !! o; l ← l !! s; l !! q.



(** *** Sample files of the legacy decoder and failures of the decoders *)

Definition legacy_file : nc_file :=
  mkNc {[ "Variable" := "T" ]}
       [ ("Date", [lit "20150101"]); ("Offset", [lit "0"]);
         ("Lat", [lit "49.2"]); ("Lon", [lit "-122.1"]);
         ("Location", [lit "214"]); ("Elev", [lit "92"]);
         ("q30", [lit "1.5"]); ("q250", [lit "2.5"]); ("p03", [lit "0.5"]) ].


End Facts.

(** ** Notions the statements about the text decoder use *)

Module TextNotions.
Import PyNum Facts Text.

Definition base_after (date offset : pyfloat) (n : N) (st : state) : state :=
  set_next_obj n
    (set__offsets (set_add fkey offset (_offsets st))
       (set_offset offset
          (set__dates (set_add fkey date (_dates st)) (set_date date st)))).

Definition known_id (st : state) (id : b64) : bool :=
  negb (isnan id) && contains (locationInfo st) (key_val id, 0%N).

Definition off_by (currLat currLon currElev : b64) (location : Location) : bool :=
  exceeds currLat (loc_lat location) tol_latlon
  || exceeds currLon (loc_lon location) tol_latlon
  || exceeds currElev (loc_elev location) tol_elev.

Definition conflict_events (currLat currLon currElev : b64) (location : Location)
  : list event :=
  [ Printed (b64_sub currLat (loc_lat location)) (b64_sub currLon (loc_lon location))
            (b64_sub currElev (loc_elev location));
    Warned (ConflictingInfo currLat currLon currElev (loc_lat location)
                            (loc_lon location) (loc_elev location)) ].

(** The last of the fields whose level is [v]. *)
Fixpoint level_field (fields : list string) (v : b64) : option string :=
  match fields with
  | [] => None
  | f :: fs =>
      match level_field fs v with
      | Some g => Some g
      | None =>
          match float (PyStr.tail f) with
          | Some u =>
              if bool_decide (key_val u = key_val v) && negb (isnan u)
              then Some f else None
          | None => None
          end
      end
  end.

(** Storing a row leaves everything but the tables, the level sets and
    the object counter as it was. *)
Definition same_but_tables (st st' : state) : Prop :=
  _units st' = _units st /\ _variable st' = _variable st
  /\ _dates st' = _dates st /\ _offsets st' = _offsets st
  /\ _locations st' = _locations st /\ indices st' = indices st
  /\ header st' = header st /\ offset st' = offset st /\ date st' = date st
  /\ locationInfo st' = locationInfo st
  /\ shownConflictingWarning st' = shownConflictingWarning st
  /\ out st' = out st.

(** A line that is not a data row leaves the sets, the tables, the
    registered locations and the object counter alone, and writes no
    conflict warning. *)
Definition quiet (st st' : state) : Prop :=
  _dates st' = _dates st /\ _offsets st' = _offsets st
  /\ _locations st' = _locations st
  /\ _quantiles st' = _quantiles st /\ _thresholds st' = _thresholds st
  /\ obs st' = obs st /\ fcst st' = fcst st /\ cdf st' = cdf st
  /\ pit st' = pit st /\ x st' = x st
  /\ offset st' = offset st /\ date st' = date st
  /\ locationInfo st' = locationInfo st
  /\ shownConflictingWarning st' = shownConflictingWarning st
  /\ conflict_warnings (out st') = conflict_warnings (out st).

(** Every registered location is in the set of locations, up to its
    coordinates. *)
Definition registered_in_set (st : state) : Prop :=
  forall idk location,
    locationInfo st !! idk = Some location ->
    loc_key location ∈ map loc_key (_locations st).

(** Rows stored under other keys leave the entries of a key alone. *)
Definition not_at (key : key5) (r : met_row) : Prop :=
  key5_of <$> key_of r <> Some key.

(** The id of the [j]-th location without one, counting from [first]. *)
Definition nth_id (first : b64) (j : nat) : b64 :=
  Nat.iter j (fun c => b64_add c (of_Z 1)) first.

Definition unassigned (l : Location) : Prop := isnan (loc_id l) = true.
Definition assigned (l : Location) : Prop := isnan (loc_id l) = false.

(** How many of the locations before position [s] have no id. *)
Definition unassigned_before (ls : list Location) (s : nat) : nat :=
  length (filter unassigned (take s ls)).

Definition greatest_id (ls : list Location) (m : b64) : Prop :=
  isnan m = false /\ m ∈ map loc_id ls
  /\ forall l, l ∈ ls -> assigned l -> b64_gtb (loc_id l) m = false.

#[export] Instance unassigned_dec l : Decision (unassigned l).
Proof. unfold unassigned. apply _. Defined.

Definition fails_in {A} (P : failure -> Prop) (m : M A) : Prop :=
  forall st e st', m st = (Fail e, st') -> P e.

(** The failures of reading a field: a missing column, a short row, a
    field that is not a number. *)
Definition lookup_failure (e : failure) : Prop :=
  e = IndexError \/ e = KeyError \/ e = ValueError.


Definition example_file : list string :=
  [ "# variable: Temperature" ++ newline;
    "# units: $^oC$" ++ newline;
    "date     offset id      lat     lon      elev obs fcst      p10" ++ newline;
    "20150101 0      214     49.2    -122.1   92 3.4 2.1     0.91" ++ newline;
    "20150101 1      214     49.2    -122.1   92 4.7 4.2      0.85" ++ newline;
    "20150101 0      180     50.3    -120.3   150 0.2 -1.2 0.99" ++ newline ].

(** Two rows under one key, and a third row that names the location of
    the first with another latitude. *)
Definition repeated_file : list string :=
  [ "date offset id lat lon elev obs fcst pit p10 q0.5" ++ newline;
    "20150101 0 214 49.2 -122.1 92 3.4 2.1 0.5 0.91 2.0" ++ newline;
    "20150102 0 214 49.9 -122.1 92 1.0 1.5 0.1 0.11 1.1" ++ newline;
    "20150101 0 214 49.2 -122.1 92 4.7 4.2 0.6 0.85 4.0" ++ newline ].

Definition quantile_file : list string :=
  [ "obs fcst q50" ++ newline; "1 2 3" ++ newline ].

Definition offsets_file : list string :=
  [ "offset obs fcst" ++ newline; "1 1 1" ++ newline; "0 1 1" ++ newline ].

Definition places_file : list string :=
  [ "lat obs fcst" ++ newline; "2 1 1" ++ newline; "1 1 1" ++ newline ].

Abbreviation load file :=
  (__init__ SetOrder.insertion SetOrder.insertion (text_world file) "f").

(** The data row at position [i] of a file. *)
Abbreviation row_at file i :=
  (nth i (rows_of (text_world file) "f") (mkMet initial [] "")).

Definition conflict_file : list string :=
  [ "id lat obs fcst" ++ newline;
    "214 49.2 1 2" ++ newline;
    "214 49.9 3 4" ++ newline;
    "214 50.5 5 6" ++ newline ].

#[export] Instance not_at_dec key r : Decision (not_at key r).
Proof. unfold not_at. apply _. Defined.

Definition lat_and_id (l : Location) : string * string :=
  (fmt_g (loc_lat l), fmt_g (loc_id l)).

(** The location a data row states: the id of the row, NaN when the
    header has no id column or the field is the sentinel, and the
    latitude, longitude and elevation of the row, 0 for each that is
    missing. *)
Definition stated_location (r : met_row) : option Location :=
  let row := PyStr.split (met_rowstr r) in
  let read name := read_column (indices (met_state r)) row name S754_nan in
  id ← read "id";
  lat ← read "lat";
  lon ← read "lon";
  elev ← read "elev";
  Some (mkLocation id (or_zero lat) (or_zero lon) (or_zero elev)).

(** Of the locations the rows state, in the order of the rows, those
    the loop puts to the set of locations: the ones without an id, and
    the ones whose id no earlier row had.  [seen]: the ids of the
    earlier rows. *)
Fixpoint collected (seen : list b64) (stated : list Location) : list Location :=
  match stated with
  | [] => []
  | l :: stated' =>
      if isnan (loc_id l) then l :: collected seen stated'
      else if bool_decide (key_val (loc_id l) ∈ seen) then collected seen stated'
      else l :: collected (key_val (loc_id l) :: seen) stated'
  end.

(** The set of locations at the end of the loop, in the order of
    insertion: one location for each place (latitude, longitude and
    elevation), the first that was put to the set. *)
Definition location_set (w : world) (filename : string) : list Location :=
  distinct loc_key (collected [] (omap stated_location (rows_of w filename))).

(** The ids that are keys of [locationInfo] are those of the rows so
    far. *)
Definition ids_seen (st : state) (seen : list b64) : Prop :=
  forall v, isnan v = false ->
            contains (locationInfo st) (key_val v, 0%N) = bool_decide (key_val v ∈ seen).



End TextNotions.

(** ** The base class [Input] *)

(** [s.rfind(c)], [s[i:]] and [s[:i]] as the base class uses them. *)
Module PySlice.

(** [s.rfind(c)] for a one-character [c]: the highest index at which [c]
    occurs, or -1. *)
Fixpoint rfind (c : ascii) (s : string) : Z :=
  match s with
  | EmptyString => -1
  | String c' s' =>
      let r := rfind c s' in
      if 0 <=? r then r + 1 else if Ascii.eqb c' c then 0 else -1
  end.

Fixpoint drop (n : nat) (s : string) : string :=
  match n, s with
  | O, _ => s
  | S n', String _ s' => drop n' s'
  | S _, EmptyString => ""
  end.

Fixpoint take (n : nat) (s : string) : string :=
  match n, s with
  | S n', String c s' => String c (take n' s')
  | _, _ => ""
  end.

(** [s[i:]]; a negative [i] counts from the end. *)
Definition from (i : Z) (s : string) : string :=
  let i := if 0 <=? i then i else Z.max 0 (Z.of_nat (String.length s) + i) in
  drop (Z.to_nat i) s.

(** [s[:i]]; a negative [i] counts from the end. *)
Definition upto (i : Z) (s : string) : string :=
  let i := if 0 <=? i then i else Z.max 0 (Z.of_nat (String.length s) + i) in
  take (Z.to_nat i) s.

End PySlice.

Module Input.

(** Default to setting the name to the filename without the path *)
Definition name (fullname : string) : string :=
  let I := PySlice.rfind "/" fullname in
  let name := PySlice.from (I + 1) fullname in
  name.

(** Default to setting the name to the filename without the path and
    extension *)
Definition shortname (fullname : string) : string :=
  let I := PySlice.rfind "." (name fullname) in
  let name := PySlice.upto I (name fullname) in
  name.

End Input.

Module InputNotions.

(** The character [c] occurs in [s]. *)
Fixpoint occurs (c : ascii) (s : string) : bool :=
  match s with
  | EmptyString => false
  | String c' s' => Ascii.eqb c' c || occurs c s'
  end.

End InputNotions.

(** ** Notions for the structured decoders *)

Module StructuredNotions.

(** The names of the variables of a file. *)
Definition variable_names (file : nc_file) : list string :=
  map fst (nc_variables file).

(** The length of a variable of a file, 0 when the file has no such
    variable. *)
Definition var_length (file : nc_file) (name : string) : nat :=
  match variables_get (nc_variables file) name with
  | Ret v => length v
  | Fail _ => 0%nat
  end.

(** No array of the location is shorter than the latitudes. *)
Definition locations_fit (file : nc_file) (lat lon id elev : string) : Prop :=
  (var_length file lat <= var_length file lon)%nat
  /\ (var_length file lat <= var_length file id)%nat
  /\ (var_length file lat <= var_length file elev)%nat.

(** Two files with one attribute each, of the same name. *)
Definition comps_file : nc_file := mkNc {[ "Convension" := "comps" ]} [].
Definition other_file : nc_file := mkNc {[ "Convension" := "other" ]} [].

End StructuredNotions.

(** ** Notions for the failures of the text decoder *)

Module LoadNotions.
Import PyNum Facts Text TextNotions.

(** A statement run from a state in [I] returns in [Q] or fails in [P]. *)
Definition triple {A} (I : state -> Prop) (m : M A) (Q : A -> state -> Prop)
           (P : failure -> Prop) : Prop :=
  forall st, I st ->
    match m st with
    | (Ret a, st') => Q a st'
    | (Fail e, _) => P e
    end.

(** The header [h] has been read into the column indices [ind]: the
    columns are the names that have an index, every index is a position
    of the header, and the two required columns are there. *)
Definition columns_of (h : list string) (ind : gmap string nat) : Prop :=
  (forall name, name ∈ h <-> is_Some (ind !! name))
  /\ (forall name i, ind !! name = Some i -> (i < length h)%nat)
  /\ is_Some (ind !! "obs") /\ is_Some (ind !! "fcst").

(** The state between two lines of the file. *)
Definition between_lines (st : state) : Prop :=
  match header st with
  | None => indices st = ∅
  | Some h => columns_of h (indices st)
  end.

(** The state inside a data row under the header [h]. *)
Definition in_row (h : list string) (ind : gmap string nat) (st : state) : Prop :=
  header st = Some h /\ indices st = ind.

Definition arity_or_value (e : failure) : Prop :=
  e = ValueError \/ exists n s, e = IncorrectNumberOfColumns n s.

(** The failures of a load: the two errors of the decoder, a field that
    is not a number, and an index past the end of a list. *)
Definition text_failure (e : failure) : Prop :=
  match e with
  | IndexError | ValueError | MissingColumn _ _ | IncorrectNumberOfColumns _ _ => True
  | _ => False
  end.

(** The header has not been read yet. *)
Definition no_header (st : state) : Prop := header st = None /\ indices st = ∅.

(** The float [v] is among the levels [l], as [==] compares floats. *)
Definition has_level (l : list b64) (v : b64) : Prop :=
  exists u, u ∈ l /\ b64_eqb u v = true.

(** A header and a row of one field. *)
Definition short_row : list string * list string := (["obs"; "fcst"], ["1"]).

(** *** Files that load

    A metadata line has a word after the "#", and a value when the word
    is "units:"; the header has the two required columns and a number
    after the letter of every quantile and threshold column; a data row
    has as many fields as the header, at most 256, all of them
    numbers. *)
Definition metadata_ok (l : string) : bool :=
  match PyStr.split (PyStr.tail l) with
  | [] => false
  | [word] => negb (String.eqb word "units:")
  | _ => true
  end.

Definition header_ok (h : list string) : bool :=
  bool_decide ("obs" ∈ h) && bool_decide ("fcst" ∈ h)
  && forallb (fun f => Util.is_number (PyStr.tail f))
             (_get_quantile_fields h ++ _get_threshold_fields h).

Definition row_ok (h row : list string) : bool :=
  (length row =? length h)%nat && (length h <=? 256)%nat
  && forallb Util.is_number row.

Fixpoint well_formed (hdr : option (list string)) (file : list string) : bool :=
  match file with
  | [] => true
  | l :: file' =>
      if PyStr.starts_with_char "#" l
      then metadata_ok l && well_formed hdr file'
      else
        negb (String.eqb l "")
        && match hdr with
           | None =>
               header_ok (PyStr.split l) && well_formed (Some (PyStr.split l)) file'
           | Some h => row_ok h (PyStr.split l) && well_formed hdr file'
           end
  end.

(** The metadata lines the decoder does not know. *)
Definition unknown_metadata (l : string) : bool :=
  PyStr.starts_with_char "#" l
  && match PyStr.split (PyStr.tail l) with
     | word :: _ => negb (String.eqb word "variable:") && negb (String.eqb word "units:")
     | [] => false
     end.

Definition is_ignoring (e : event) : bool :=
  match e with
  | Warned (IgnoringLine _ _) => true
  | _ => false
  end.

(** A file with a metadata line the decoder does not know. *)
Definition annotated_file : list string :=
  [ "# source: station" ++ newline;
    "# variable: T" ++ newline;
    "obs fcst" ++ newline;
    "1 2" ++ newline ].

(** A file whose data row has a field that is not a number. *)
Definition bad_value_file : list string :=
  [ "obs fcst" ++ newline; "1 x" ++ newline ].

End LoadNotions.

(** * Theorems *)

(** ** The naming codec *)

Module CompsFacts.
Import PyNum Facts.

(** C1, where it fails: the threshold -0.5 is encoded as "pm05", and
    "pm05" is decoded as -5, because turning "m" into "-" first leaves
    no "p0" for the decimal point to be put back after. *)
Theorem C1_minus_half_decodes_to_minus_five :
  Comps._verif_to_comps_threshold (lit "-0.5") = Ret "pm05"
  /\ Comps._comps_to_verif_threshold "pm05" = Ret (Some (lit "-5"))
  /\ b64_eqb (lit "-5") (lit "-0.5") = false
  /\ ~ threshold_roundtrip (lit "-0.5").
Proof.
  split; [vm_compute; reflexivity|].
  split; [vm_compute; reflexivity|].
  split; [vm_compute; reflexivity|].
  intros (token & Henc & Hdec).
  assert (Comps._verif_to_comps_threshold (lit "-0.5") = Ret "pm05") as E1
    by (vm_compute; reflexivity).
  rewrite E1 in Henc. injection Henc as <-.
  assert (Comps._comps_to_verif_threshold "pm05" = Ret (Some (lit "-5"))) as E2
    by (vm_compute; reflexivity).
  rewrite E2 in Hdec.
  set (same := fun r : result (option b64) =>
                 match r with
                 | Ret (Some v) => b64_eqb v (lit "-0.5")
                 | _ => true
                 end).
  assert (same (Ret (Some (lit "-5"))) = false) as E3
    by (vm_compute; reflexivity).
  assert (same (Ret (Some (lit "-0.5"))) = true) as E4
    by (vm_compute; reflexivity).
  rewrite Hdec in E3.
  congruence.
Qed.

(** The other sampled thresholds and all sampled quantiles are decoded
    to the very float that was encoded. *)
Lemma codec_roundtrip_samples :
  Forall threshold_roundtrip [lit "-2"; lit "0"; lit "0.3"; lit "5"]
  /\ Forall quantile_roundtrip [lit "0"; lit "0.3"; lit "0.5"; lit "1"].
Proof.
  split;
    repeat (apply List.Forall_cons;
            [eexists; split; [vm_compute; reflexivity | vm_compute; reflexivity]|]);
    apply List.Forall_nil.
Qed.

Lemma discover_Forall (P : b64 -> Prop) codec :
  (forall name v, codec name = Ret (Some v) -> P v) ->
  forall vars l, Comps.discover codec vars = Ret l -> Forall P l.
Proof.
  intros Hc vars. induction vars as [|[var data] vars IH]; simpl; intros l H.
  - injection H as <-. constructor.
  - destruct (negb (mem_string var Comps._dimensionNames)); [|auto].
    destruct (codec var) as [o|] eqn:Ho; simpl in H; [|discriminate].
    destruct (Comps.discover codec vars) as [l'|]; simpl in H; [|discriminate].
    injection H as <-. specialize (IH l' eq_refl).
    destruct o; [constructor; eauto | assumption].
Qed.

Lemma quantile_decoded_in_unit_interval name q :
  Comps._comps_to_verif_quantile name = Ret (Some q) -> in_unit_interval q.
Proof.
  unfold Comps._comps_to_verif_quantile, in_unit_interval, b64_geb.
  destruct (Comps.long_or_starts "q" name) as [[]|]; simpl; try discriminate.
  destruct (Util.is_number _); try discriminate.
  destruct (float _); try discriminate.
  match goal with
  | |- context [if ?a && ?b then _ else _] => destruct a eqn:H0, b eqn:H1
  end; simpl; try discriminate.
  intros [= <-]. split; assumption.
Qed.

(** C5, as far as it holds: whatever file the legacy decoder is built
    from, every quantile of the snapshot is at least 0 and at most 1. *)
Theorem C5_comps_quantiles_in_unit_interval w filename i :
  Comps.__init__ w filename = Ret i ->
  Forall in_unit_interval (Comps.quantiles i).
Proof.
  unfold Comps.__init__. destruct (netcdf w _) as [file|]; [|discriminate].
  destruct (variables_get _ "Date"); simpl; [|discriminate].
  destruct (variables_get _ "Offset"); simpl; [|discriminate].
  destruct (Comps._get_thresholds file); simpl; [|discriminate].
  destruct (Comps._get_quantiles file) as [qs|] eqn:Hq; simpl; [|discriminate].
  destruct (Comps._get_locations file); simpl; [|discriminate].
  destruct (Comps._get_variable file); simpl; [|discriminate].
  intros [= <-]. simpl.
  eapply discover_Forall; [|exact Hq].
  apply quantile_decoded_in_unit_interval.
Qed.

(** C5 on a legacy file with the variables q30, q250 and p03: the only
    quantile is 0.3. *)
Lemma C5_comps_quantiles_witness :
  exists i, Comps.__init__ (netcdf_world legacy_file) "f" = Ret i
            /\ Comps.quantiles i = [lit "0.3"]
            /\ Forall in_unit_interval (Comps.quantiles i).
Proof.
  eexists. split; [vm_compute; reflexivity|]. split; [vm_compute; reflexivity|].
  apply (C5_comps_quantiles_in_unit_interval (netcdf_world legacy_file) "f").
  vm_compute. reflexivity.
Defined.

(** [Comps.is_valid] accepts exactly the files that open as NetCDF and
    do not carry "Convensions" without "Convension". *)
Lemma is_valid_iff w filename :
  Comps.is_valid w filename = true <->
  exists file, netcdf w filename = Some file
               /\ (hasattr file "Convensions" = true -> hasattr file "Convension" = true).
Proof.
  unfold Comps.is_valid, Comps.is_valid_try.
  destruct (netcdf w filename) as [file|]; simpl;
    [|split; [discriminate | intros (f & H & _); discriminate]].
  destruct (hasattr file "Convensions") eqn:E1; simpl.
  - unfold getattr. destruct (nc_attrs file !! "Convension") as [v|] eqn:E2; simpl.
    + split; [intros _|reflexivity]. exists file. split; [reflexivity|].
      intros _. unfold hasattr. by rewrite E2.
    + split; [discriminate|]. intros (f & [= <-] & H).
      specialize (H E1). unfold hasattr in H. rewrite E2 in H. discriminate.
  - split; [intros _|reflexivity]. exists file. split; [reflexivity|].
    rewrite E1. discriminate.
Qed.

(** C2, where it fails: a NetCDF file without any attribute is accepted. *)
Theorem C2_accepts_file_without_attribute :
  Comps.is_valid (netcdf_world (mkNc ∅ [])) "f" = true
  /\ hasattr (mkNc ∅ []) "Convensions" = false
  /\ hasattr (mkNc ∅ []) "Convension" = false.
Proof. split; [|split]; vm_compute; reflexivity. Qed.

End CompsFacts.

(** ** The text decoder *)

Module TextFacts.
Import PyNum Facts Text TextNotions.

(** *** Running statements *)

Lemma bind_Ret {A B} (m : M A) (k : A -> M B) st b st' :
  (m ≫= k) st = (Ret b, st') <->
  exists a st1, m st = (Ret a, st1) /\ k a st1 = (Ret b, st').
Proof.
  unfold mbind, M_bind. destruct (m st) as [[a|e] st1].
  - split; [eauto|]. intros (a' & st2 & [= <- <-] & H). exact H.
  - split; [discriminate|]. intros (a' & st2 & H & _). discriminate.
Qed.

Lemma bind_Fail {A B} (m : M A) (k : A -> M B) st e st' :
  (m ≫= k) st = (Fail e, st') <->
  m st = (Fail e, st')
  \/ exists a st1, m st = (Ret a, st1) /\ k a st1 = (Fail e, st').
Proof.
  unfold mbind, M_bind. destruct (m st) as [[a|e'] st1].
  - split; [intros H; right; eauto|].
    intros [H|(a' & st2 & [= <- <-] & H)]; [discriminate|exact H].
  - split; [intros [= <- <-]; left; reflexivity|].
    intros [[= <- <-]|(a' & st2 & H & _)]; [reflexivity|discriminate].
Qed.

Ltac proj :=
  cbn [_units _variable _dates _offsets _locations _quantiles _thresholds
       obs fcst cdf pit x indices header offset date locationInfo
       shownConflictingWarning out next_obj
       set__units set__variable set__dates set__offsets set__locations
       set__quantiles set__thresholds set_obs set_fcst set_cdf set_pit set_x
       set_indices set_header set_offset set_date set_locationInfo
       set_shownConflictingWarning set_out set_next_obj] in *.

(** Two states with the same variables are the same state. *)

(** What a read of a field does: the value it returns is the one
    [read_column] gives, and only the object counter moves. *)
Lemma _clean_eq value st :
  _clean value st =
  match float value with
  | None => (Fail ValueError, st)
  | Some v =>
      (Ret (if b64_eqb v (of_Z (-999)) then np_nan else mkFloat v (next_obj st)),
       set_next_obj (next_obj st + 1)%N st)
  end.
Proof.
  unfold _clean, float_obj, mbind, M_bind, raise.
  destruct (float value) as [v|]; [|reflexivity].
  cbn [fval]. destruct (b64_eqb v (of_Z (-999))); reflexivity.
Qed.

Lemma cell_eq row name st :
  cell row name st =
  match indices st !! name with
  | None => (Fail KeyError, st)
  | Some i =>
      match row !! i with
      | None => (Fail IndexError, st)
      | Some value => _clean value st
      end
  end.
Proof.
  unfold cell, gets, dict_get, list_get, mbind, M_bind, raise, mret, M_ret.
  destruct (indices st !! name) as [i|]; [|reflexivity].
  destruct (row !! i); reflexivity.
Qed.

Lemma column_or_eq row name v st :
  column_or row name v st =
  match indices st !! name with
  | None => (Ret v, st)
  | Some i =>
      match row !! i with
      | None => (Fail IndexError, st)
      | Some value => _clean value st
      end
  end.
Proof.
  unfold column_or, gets, contains, mbind, M_bind.
  destruct (indices st !! name) eqn:E; [|reflexivity].
  rewrite cell_eq, E. reflexivity.
Qed.

Lemma column_or_Ret row name v st u st' :
  column_or row name v st = (Ret u, st') ->
  read_column (indices st) row name (fval v) = Some (fval u)
  /\ (exists n, st' = set_next_obj n st /\ (next_obj st <= n)%N).
Proof.
  rewrite column_or_eq. unfold read_column, clean_value.
  destruct (indices st !! name) as [i|].
  - destruct (row !! i) as [value|]; [|discriminate]. rewrite _clean_eq. simpl.
    destruct (float value) as [f|]; [|discriminate]. simpl.
    intros [= <- <-]. split.
    + destruct (b64_eqb f (of_Z (-999))); reflexivity.
    + eexists. split; [reflexivity|]. lia.
  - intros [= <- <-]. split; [reflexivity|].
    exists (next_obj st). split; [destruct st; reflexivity | lia].
Qed.

Lemma gets_Ret {A} (f : state -> A) st a st' :
  gets f st = (Ret a, st') -> a = f st /\ st' = st.
Proof. intros [= <- <-]. auto. Qed.

Lemma modify_Ret f st a st' : modify f st = (Ret a, st') -> st' = f st.
Proof. intros [= <-]. auto. Qed.

Lemma emit_Ret e st a st' :
  emit e st = (Ret a, st') -> st' = set_out (out st ++ [e])%list st.
Proof. intros [= <-]. auto. Qed.

Lemma mret_Ret {A} (a : A) st b st' :
  mret (M := M) a st = (Ret b, st') -> b = a /\ st' = st.
Proof. intros [= <- <-]. auto. Qed.

Lemma raise_Ret {A} e st (a : A) st' : raise e st = (Ret a, st') -> False.
Proof. discriminate. Qed.

Ltac prim H :=
  try unfold error in H; try unfold warning in H;
  first
    [ apply raise_Ret in H; destruct H
    | apply (raise_Ret (A := unit)) in H; destruct H
    | apply gets_Ret in H as [? ?]; subst
    | apply modify_Ret in H; subst
    | apply emit_Ret in H; subst
    | apply mret_Ret in H as [? ?]; subst ];
  repeat match goal with E : ?x = ?x |- _ => clear E end.

Tactic Notation "step" hyp(H) "as" simple_intropattern(a) ident(H1) :=
  let s := fresh "s" in apply bind_Ret in H as (a & s & H1 & H).

Tactic Notation "step" hyp(H) :=
  let a := fresh "a" in
  let s := fresh "s" in
  let H1 := fresh "H" in
  apply bind_Ret in H as (a & s & H1 & H); prim H1.

Lemma fkey_not_nan f : isnan (fval f) = false -> fkey f = (key_val (fval f), 0%N).
Proof. unfold fkey. destruct (fval f); simpl; congruence. Qed.

Lemma row_key_Ret header rowstr row st k st' :
  row_key header rowstr row st = (Ret k, st') ->
  exists date offset id currLat currLon currElev n location,
    len_is (length row) (length header) = true
    /\ read_column (indices st) row "id" S754_nan = Some id
    /\ read_column (indices st) row "lat" S754_nan = Some currLat
    /\ read_column (indices st) row "lon" S754_nan = Some currLon
    /\ read_column (indices st) row "elev" S754_nan = Some currElev
    /\ (next_obj st <= n)%N
    /\ k = (date, offset, loc_lat location, loc_lon location, loc_elev location)
    /\ let base := base_after date offset n st in
       if known_id st id then
         locationInfo st !! (key_val id, 0%N) = Some location
         /\ st' = if negb (shownConflictingWarning st)
                     && off_by currLat currLon currElev location
                  then set_shownConflictingWarning true
                         (set_out (out st ++ conflict_events currLat currLon currElev
                                                             location)%list base)
                  else base
       else
         location = mkLocation id (or_zero currLat) (or_zero currLon) (or_zero currElev)
         /\ exists idk,
             (isnan id = false -> idk = (key_val id, 0%N))
             /\ st' = set_locationInfo (<[idk := location]> (locationInfo st))
                     (set__locations (set_add loc_key location (_locations st)) base).
Proof.
  unfold row_key. intros H.
  step H as [] H0.
  destruct (len_is _ _) eqn:Hlen; cbn [negb] in H0; prim H0.
  step H.
  step H as date H0. apply column_or_Ret in H0 as (Rdate & n1 & -> & Hn1).
  do 2 step H. proj.
  step H.
  step H as offset H0. apply column_or_Ret in H0 as (Roffset & n2 & -> & Hn2).
  do 2 step H. proj.
  step H as id H0. apply column_or_Ret in H0 as (Rid & n3 & -> & Hn3).
  step H as cLat H0. apply column_or_Ret in H0 as (Rlat & n4 & -> & Hn4).
  step H as cLon H0. apply column_or_Ret in H0 as (Rlon & n5 & -> & Hn5).
  step H as cElev H0. apply column_or_Ret in H0 as (Relev & n6 & -> & Hn6).
  step H. proj.
  step H as [] H0. step H. step H as location H1. prim H.
  exists date, offset, (fval id), (fval cLat), (fval cLon), (fval cElev), n6, location.
  cbn [fval np_nan] in *.
  repeat (split; [solve [assumption | reflexivity | lia]|]).
  unfold known_id. cbv zeta.
  destruct (isnan (fval id)) eqn:Hnan; cbn [negb andb] in *.
  - (* an unassigned id *)
    step H0. prim H0. proj. unfold dict_get in H1. rewrite lookup_insert_eq in H1.
    prim H1.
    split; [reflexivity|]. eexists. split; [discriminate|].
    unfold base_after. destruct st; reflexivity.
  - rewrite <- (fkey_not_nan id Hnan).
    destruct (contains _ _) eqn:Hin.
    + step H0 as location' H2. unfold dict_get in H1, H2. proj.
      destruct (locationInfo st !! fkey id) as [l|] eqn:El; prim H2.
      step H0. proj. unfold off_by, conflict_events.
      destruct (shownConflictingWarning st); cbn [negb andb] in *.
      * prim H0. proj. rewrite El in H1. prim H1.
        split; [exact El|]. unfold base_after. destruct st; reflexivity.
      * destruct (_ || _) eqn:Hoff.
        -- step H0. step H0. prim H0. proj. rewrite El in H1. prim H1.
           rewrite Hoff.
           split; [exact El|]. unfold base_after. destruct st. proj.
           rewrite <- app_assoc. reflexivity.
        -- prim H0. proj. rewrite El in H1. prim H1. rewrite Hoff.
           split; [exact El|]. unfold base_after. destruct st; reflexivity.
    + step H0. prim H0. proj. unfold dict_get in H1. rewrite lookup_insert_eq in H1.
      prim H1.
      split; [reflexivity|]. eexists. split; [intros _; reflexivity|].
      unfold base_after. destruct st; reflexivity.
Qed.

Lemma cell_Ret row name st u st' :
  cell row name st = (Ret u, st') ->
  is_Some (indices st !! name)
  /\ read_column (indices st) row name S754_nan = Some (fval u)
  /\ st' = set_next_obj (next_obj st + 1)%N st.
Proof.
  rewrite cell_eq. unfold read_column, clean_value.
  destruct (indices st !! name) as [i|]; [|discriminate].
  destruct (row !! i) as [value|]; [|discriminate]. rewrite _clean_eq. simpl.
  destruct (float value) as [f|]; [|discriminate]. simpl.
  intros [= <- <-]. split; [eauto|]. split; [|reflexivity].
  destruct (b64_eqb f (of_Z (-999))); reflexivity.
Qed.

Lemma float_obj_Ret s st u st' :
  float_obj s st = (Ret u, st') ->
  float s = Some (fval u) /\ fobj u = next_obj st
  /\ st' = set_next_obj (next_obj st + 1)%N st.
Proof.
  unfold float_obj, raise. destruct (float s); [|discriminate].
  intros [= <- <-]. auto.
Qed.

(** *** Sets *)

Lemma set_add_keys {A K} `{EqDecision K} (key : A -> K) x s k :
  k ∈ map key (set_add key x s) <-> k = key x \/ k ∈ map key s.
Proof.
  unfold set_add. destruct (decide (key x ∈ map key s)) as [Hin|Hin].
  - split; [auto|]. intros [->|?]; assumption.
  - rewrite map_app. cbn [map]. rewrite elem_of_app, list_elem_of_singleton. tauto.
Qed.

Lemma set_add_NoDup {A K} `{EqDecision K} (key : A -> K) x s :
  NoDup (map key s) -> NoDup (map key (set_add key x s)).
Proof.
  unfold set_add. destruct (decide (key x ∈ map key s)) as [Hin|Hin]; [auto|].
  intros Hs. rewrite map_app. cbn [map]. apply NoDup_app. split; [exact Hs|].
  split; [|apply NoDup_singleton].
  intros k Hk Hk'. apply list_elem_of_singleton in Hk'. subst. contradiction.
Qed.

Lemma set_add_map {A K} `{EqDecision K} (key : A -> K) x s :
  map key (set_add key x s) = set_add (fun k => k) (key x) (map key s).
Proof.
  unfold set_add. rewrite map_id.
  destruct (decide (key x ∈ map key s)); [reflexivity|]. by rewrite map_app.
Qed.

Lemma key_val_not_nan v : isnan v = false -> key_val v <> S754_nan.
Proof. destruct v; simpl; congruence. Qed.

Lemma fkey_level q v :
  isnan v = false ->
  fkey q = (key_val v, 0%N) <->
  bool_decide (key_val (fval q) = key_val v) && negb (isnan (fval q)) = true.
Proof.
  intros Hv. pose proof (key_val_not_nan v Hv) as Hn.
  rewrite andb_true_iff, bool_decide_eq_true, negb_true_iff. unfold fkey.
  destruct (fval q) eqn:E; cbn [isnan key_val].
  - split; [intros [= <-]; auto | intros [<- _]; reflexivity].
  - split; [intros [= <-]; auto | intros [<- _]; reflexivity].
  - split; [intros [= ? ?]; congruence | intros [_ ?]; discriminate].
  - split; [intros [= <-]; auto | intros [<- _]; reflexivity].
Qed.

Lemma level_field_cons f fs v :
  level_field (f :: fs) v =
  match level_field fs v with
  | Some g => Some g
  | None =>
      match float (PyStr.tail f) with
      | Some u =>
          if bool_decide (key_val u = key_val v) && negb (isnan u)
          then Some f else None
      | None => None
      end
  end.
Proof. reflexivity. Qed.

Lemma store_thresholds_Ret fields row d o la lo el st st' :
  store_thresholds fields row d o la lo el st = (Ret tt, st') ->
  (exists n c t, st' = set_next_obj n (set_cdf c (set__thresholds t st)))
  /\ (forall v, isnan v = false ->
        (key_val v, 0%N) ∈ map fkey (_thresholds st') <->
        (key_val v, 0%N) ∈ map fkey (_thresholds st) \/ is_Some (level_field fields v))
  /\ (forall k6, k6.1 <> mk_key5 d o la lo el -> cdf st' !! k6 = cdf st !! k6)
  /\ (forall v, isnan v = false ->
        cdf st' !! (mk_key5 d o la lo el, (key_val v, 0%N)) =
        match level_field fields v with
        | Some f => read_column (indices st) row f S754_nan
        | None => cdf st !! (mk_key5 d o la lo el, (key_val v, 0%N))
        end)
  /\ Forall (fun f => is_Some (read_column (indices st) row f S754_nan)) fields.
Proof.
  revert st. induction fields as [|f fs IH]; intros st H; cbn [store_thresholds] in H.
  - prim H. split; [|split; [|split; [|split]]]; [| | | |constructor].
    + exists (next_obj st), (cdf st), (_thresholds st). destruct st; reflexivity.
    + intros v _. cbn [level_field]. split; [auto|]. intros [?|[? ?]]; [assumption|discriminate].
    + reflexivity.
    + reflexivity.
  - step H as q Hq. apply float_obj_Ret in Hq as (Hq & Hobj & ->).
    step H. proj.
    step H as u Hu. apply cell_Ret in Hu as (_ & Hu & ->). proj.
    step H. proj.
    apply IH in H as ((n & c & t & ->) & Hset & Hother & Hval & Hreads). proj.
    split; [|split; [|split; [|split]]]; [| | | |constructor; eauto].
    + do 3 eexists. destruct st; reflexivity.
    + intros v Hv. rewrite Hset by exact Hv. proj.
      rewrite set_add_keys, level_field_cons, Hq.
      pose proof (fkey_level q v Hv) as Hk.
      destruct (level_field fs v) as [g|].
      { split; intros _; right; eauto. }
      destruct (bool_decide _ && _).
      * split; intros _; [right; eauto|]. left. left. symmetry. by apply Hk.
      * split; [|intros [?|[? ?]]; [auto|discriminate]].
        intros [[E|?]|[? ?]]; [|auto|discriminate].
        symmetry in E. apply Hk in E. discriminate.
    + intros k6 Hk. rewrite Hother by exact Hk. proj.
      apply lookup_insert_ne. unfold mk_key6. intros E. apply Hk. rewrite <- E. reflexivity.
    + intros v Hv. rewrite Hval by exact Hv. rewrite level_field_cons, Hq. proj.
      pose proof (fkey_level q v Hv) as Hk.
      destruct (level_field fs v); [reflexivity|]. unfold mk_key6.
      destruct (bool_decide _ && _).
      * rewrite (proj2 Hk eq_refl), lookup_insert_eq. symmetry. exact Hu.
      * apply lookup_insert_ne. intros [= E]. apply Hk in E. discriminate.
Qed.

Lemma store_quantiles_Ret fields row d o la lo el st st' :
  store_quantiles fields row d o la lo el st = (Ret tt, st') ->
  (exists n c t, st' = set_next_obj n (set_x c (set__quantiles t st)))
  /\ (forall v, isnan v = false ->
        (key_val v, 0%N) ∈ map fkey (_quantiles st') <->
        (key_val v, 0%N) ∈ map fkey (_quantiles st) \/ is_Some (level_field fields v))
  /\ (forall k6, k6.1 <> mk_key5 d o la lo el -> x st' !! k6 = x st !! k6)
  /\ (forall v, isnan v = false ->
        x st' !! (mk_key5 d o la lo el, (key_val v, 0%N)) =
        match level_field fields v with
        | Some f => read_column (indices st) row f S754_nan
        | None => x st !! (mk_key5 d o la lo el, (key_val v, 0%N))
        end)
  /\ Forall (fun f => is_Some (read_column (indices st) row f S754_nan)) fields.
Proof.
  revert st. induction fields as [|f fs IH]; intros st H; cbn [store_quantiles] in H.
  - prim H. split; [|split; [|split; [|split]]]; [| | | |constructor].
    + exists (next_obj st), (x st), (_quantiles st). destruct st; reflexivity.
    + intros v _. cbn [level_field]. split; [auto|]. intros [?|[? ?]]; [assumption|discriminate].
    + reflexivity.
    + reflexivity.
  - step H as q Hq. apply float_obj_Ret in Hq as (Hq & Hobj & ->).
    step H. proj.
    step H as u Hu. apply cell_Ret in Hu as (_ & Hu & ->). proj.
    step H. proj.
    apply IH in H as ((n & c & t & ->) & Hset & Hother & Hval & Hreads). proj.
    split; [|split; [|split; [|split]]]; [| | | |constructor; eauto].
    + do 3 eexists. destruct st; reflexivity.
    + intros v Hv. rewrite Hset by exact Hv. proj.
      rewrite set_add_keys, level_field_cons, Hq.
      pose proof (fkey_level q v Hv) as Hk.
      destruct (level_field fs v) as [g|].
      { split; intros _; right; eauto. }
      destruct (bool_decide _ && _).
      * split; intros _; [right; eauto|]. left. left. symmetry. by apply Hk.
      * split; [|intros [?|[? ?]]; [auto|discriminate]].
        intros [[E|?]|[? ?]]; [|auto|discriminate].
        symmetry in E. apply Hk in E. discriminate.
    + intros k6 Hk. rewrite Hother by exact Hk. proj.
      apply lookup_insert_ne. unfold mk_key6. intros E. apply Hk. rewrite <- E. reflexivity.
    + intros v Hv. rewrite Hval by exact Hv. rewrite level_field_cons, Hq. proj.
      pose proof (fkey_level q v Hv) as Hk.
      destruct (level_field fs v); [reflexivity|]. unfold mk_key6.
      destruct (bool_decide _ && _).
      * rewrite (proj2 Hk eq_refl), lookup_insert_eq. symmetry. exact Hu.
      * apply lookup_insert_ne. intros [= E]. apply Hk in E. discriminate.
Qed.

Lemma store_row_Ret header row d o la lo el st st' :
  store_row header row (d, o, la, lo, el) st = (Ret tt, st') ->
  let key := mk_key5 d o la lo el in
  same_but_tables st st'
  /\ (exists v, read_column (indices st) row "obs" S754_nan = Some v
                /\ obs st' = <[key := v]> (obs st))
  /\ (exists v, read_column (indices st) row "fcst" S754_nan = Some v
                /\ fcst st' = <[key := v]> (fcst st))
  /\ match indices st !! "pit" with
     | Some _ => exists v, read_column (indices st) row "pit" S754_nan = Some v
                           /\ pit st' = <[key := v]> (pit st)
     | None => pit st' = pit st
     end
  /\ (forall v, isnan v = false ->
        (key_val v, 0%N) ∈ map fkey (_quantiles st') <->
        (key_val v, 0%N) ∈ map fkey (_quantiles st)
        \/ is_Some (level_field (_get_quantile_fields header) v))
  /\ (forall k6, k6.1 <> key -> x st' !! k6 = x st !! k6)
  /\ (forall v, isnan v = false ->
        x st' !! (key, (key_val v, 0%N)) =
        match level_field (_get_quantile_fields header) v with
        | Some f => read_column (indices st) row f S754_nan
        | None => x st !! (key, (key_val v, 0%N))
        end)
  /\ (forall v, isnan v = false ->
        (key_val v, 0%N) ∈ map fkey (_thresholds st') <->
        (key_val v, 0%N) ∈ map fkey (_thresholds st)
        \/ is_Some (level_field (_get_threshold_fields header) v))
  /\ (forall k6, k6.1 <> key -> cdf st' !! k6 = cdf st !! k6)
  /\ (forall v, isnan v = false ->
        cdf st' !! (key, (key_val v, 0%N)) =
        match level_field (_get_threshold_fields header) v with
        | Some f => read_column (indices st) row f S754_nan
        | None => cdf st !! (key, (key_val v, 0%N))
        end)
  /\ Forall (fun f => is_Some (read_column (indices st) row f S754_nan))
            (_get_quantile_fields header ++ _get_threshold_fields header).
Proof.
  unfold store_row. intros H.
  step H as vobs Hobs. apply cell_Ret in Hobs as (_ & Hobs & ->).
  step H. proj.
  step H as vfcst Hfcst. apply cell_Ret in Hfcst as (_ & Hfcst & ->).
  step H. proj. step H. proj.
  step H as [] Hpit.
  assert (exists n p, s = set_next_obj n (set_pit p
            (set_fcst (<[mk_key5 d o la lo el:=fval vfcst]> (fcst st))
               (set_obs (<[mk_key5 d o la lo el:=fval vobs]> (obs st)) st)))
          /\ match indices st !! "pit" with
             | Some _ => exists v, read_column (indices st) row "pit" S754_nan = Some v
                                   /\ p = <[mk_key5 d o la lo el := v]> (pit st)
             | None => p = pit st
             end) as (n & p & -> & Hp).
  { unfold contains in Hpit. proj. destruct (indices st !! "pit") eqn:Ep.
    - step Hpit as vpit Hc. apply cell_Ret in Hc as (_ & Hc & ->). prim Hpit. proj.
      do 2 eexists. split; [destruct st; reflexivity|]. eauto.
    - prim Hpit. exists (next_obj st + 1 + 1)%N, (pit st).
      split; [destruct st; reflexivity | reflexivity]. }
  step H as [] Hq.
  apply store_quantiles_Ret in Hq as ((nq & cq & tq & ->) & Hqs & Hqo & Hqv & Hqr).
  apply store_thresholds_Ret in H as ((nt & ct & tt' & ->) & Hts & Hto & Htv & Htr).
  proj.
  split; [repeat split|].
  split; [eauto|]. split; [eauto|].
  split; [destruct (indices st !! "pit"); exact Hp|].
  split; [exact Hqs|]. split; [exact Hqo|]. split; [exact Hqv|].
  split; [exact Hts|]. split; [exact Hto|]. split; [exact Htv|].
  apply Forall_app. split; assumption.
Qed.

Lemma conflict_warnings_app o o' :
  conflict_warnings (o ++ o') = (conflict_warnings o + conflict_warnings o')%nat.
Proof. unfold conflict_warnings. by rewrite filter_app, length_app. Qed.

Lemma conflict_warnings_one e :
  conflict_warnings [e] = if is_conflict_warning e then 1%nat else 0%nat.
Proof.
  unfold conflict_warnings. rewrite filter_cons, filter_nil.
  destruct (decide _) as [E|E]; destruct (is_conflict_warning e);
    try reflexivity; congruence.
Qed.

Lemma require_columns_Ret filename cols st st' :
  require_columns filename cols st = (Ret tt, st') -> st' = st.
Proof.
  revert st. induction cols as [|c cols IH]; intros st H; cbn [require_columns] in H.
  - prim H. reflexivity.
  - step H. step H as [] Hc. destruct (negb _); prim Hc. eauto.
Qed.

Lemma line_Ret filename rowstr st st' :
  line filename rowstr st = (Ret tt, st') ->
  match as_data_row st rowstr with
  | Some header => data_row header rowstr (PyStr.split rowstr) st = (Ret tt, st')
  | None => quiet st st'
  end.
Proof.
  unfold line, as_data_row. destruct (PyStr.head rowstr) as [c|]; [|discriminate].
  destruct (Ascii.eqb c "#").
  - (* a metadata line *)
    unfold comment_line. intros H. step H as curr0 H0.
    unfold list_get in H0. destruct (_ !! 0%nat); prim H0.
    destruct (String.eqb _ "variable:"); [prim H; repeat split|].
    destruct (String.eqb _ "units:").
    + step H as curr1 H1. unfold list_get in H1. destruct (_ !! 1%nat); prim H1.
      prim H. repeat split.
    + prim H. repeat split. proj.
      rewrite conflict_warnings_app, conflict_warnings_one. cbn. lia.
  - intros H. step H. destruct (header st) as [h|]; [exact H|].
    unfold header_line in H. step H. step H. apply require_columns_Ret in H as ->.
    repeat split.
Qed.

Lemma data_row_Ret header rowstr row st st' :
  data_row header rowstr row st = (Ret tt, st') <->
  exists k st1, row_key header rowstr row st = (Ret k, st1)
                /\ store_row header row k st1 = (Ret tt, st').
Proof. unfold data_row. apply bind_Ret. Qed.

Lemma lines_cons filename rowstr file st st' :
  lines filename (rowstr :: file) st = (Ret tt, st') <->
  exists st1, line filename rowstr st = (Ret tt, st1)
              /\ lines filename file st1 = (Ret tt, st').
Proof.
  cbn [lines]. rewrite bind_Ret. split.
  - intros ([] & st1 & ? & ?). eauto.
  - intros (st1 & ? & ?). exists tt, st1. auto.
Qed.

(** Induction over a run that completes: the data rows one after the
    other, with quiet lines in between. *)
Lemma run_ind filename (P : state -> list met_row -> state -> Prop) :
  (forall st, P st [] st) ->
  (forall st header rowstr st1 rows st',
      as_data_row st rowstr = Some header ->
      data_row header rowstr (PyStr.split rowstr) st = (Ret tt, st1) ->
      P st1 rows st' ->
      P st (mkMet st header rowstr :: rows) st') ->
  (forall st st1 rows st', quiet st st1 -> P st1 rows st' -> P st rows st') ->
  forall file st st',
    lines filename file st = (Ret tt, st') -> P st (data_rows filename file st) st'.
Proof.
  intros Hnil Hrow Hquiet file.
  induction file as [|rowstr file IH]; intros st st' H.
  - prim H. apply Hnil.
  - apply lines_cons in H as (st1 & Hl & H). cbn [data_rows]. rewrite Hl.
    apply IH in H. apply line_Ret in Hl.
    destruct (as_data_row st rowstr) as [header|] eqn:E.
    + eapply Hrow; eauto.
    + eapply Hquiet; eauto.
Qed.

(** *** What one data row does *)

Lemma conflicting_known header rowstr st id currLat currLon currElev :
  let row := PyStr.split rowstr in
  read_column (indices st) row "id" S754_nan = Some id ->
  read_column (indices st) row "lat" S754_nan = Some currLat ->
  read_column (indices st) row "lon" S754_nan = Some currLon ->
  read_column (indices st) row "elev" S754_nan = Some currElev ->
  conflicting (mkMet st header rowstr) =
  negb (isnan id)
  && match locationInfo st !! (key_val id, 0%N) with
     | Some location => off_by currLat currLon currElev location
     | None => false
     end.
Proof.
  intros row Hid Hlat Hlon Helev. unfold conflicting. cbn [met_state met_rowstr].
  fold row. rewrite Hid, Hlat, Hlon, Helev. reflexivity.
Qed.

Lemma data_row_sets hdr rowstr st st' :
  data_row hdr rowstr (PyStr.split rowstr) st = (Ret tt, st') ->
  exists k, key_of (mkMet st hdr rowstr) = Some k
    /\ _dates st' = set_add fkey (date_of k) (_dates st)
    /\ _offsets st' = set_add fkey (offset_of k) (_offsets st)
    /\ Text.header st' = Text.header st /\ indices st' = indices st
    /\ (registered_in_set st ->
        registered_in_set st'
        /\ map loc_key (_locations st') =
           set_add (fun p => p) (place_of k) (map loc_key (_locations st))).
Proof.
  intros H. apply data_row_Ret in H as (k & st1 & Hk & Hs).
  exists k. unfold key_of. cbn [met_state met_header met_rowstr]. rewrite Hk.
  split; [reflexivity|].
  apply row_key_Ret in Hk
    as (date & offset & id & cLat & cLon & cElev & n & location
        & Hlen & Rid & Rlat & Rlon & Relev & Hn & -> & Hst).
  apply store_row_Ret in Hs as (Hsame & _).
  destruct Hsame as (_ & _ & Hd & Ho & Hl & Hi & Hh & _ & _ & Hinfo & _ & _).
  unfold registered_in_set. rewrite Hd, Ho, Hl, Hi, Hh, Hinfo.
  cbn [date_of offset_of place_of fst snd]. cbv zeta in Hst.
  clear Hd Ho Hl Hi Hh Hinfo.
  destruct (known_id st id) eqn:Hknown.
  - destruct Hst as (Hloc & ->).
    assert (forall s, s = (if negb (shownConflictingWarning st)
                              && off_by cLat cLon cElev location
                           then set_shownConflictingWarning true
                                  (set_out (out st ++ conflict_events cLat cLon cElev
                                                                      location)%list
                                     (base_after date offset n st))
                           else base_after date offset n st) ->
            _dates s = set_add fkey date (_dates st)
            /\ _offsets s = set_add fkey offset (_offsets st)
            /\ Text.header s = Text.header st /\ indices s = indices st
            /\ locationInfo s = locationInfo st /\ _locations s = _locations st)
      as Hproj.
    { intros s ->. destruct (_ && _); unfold base_after; proj; repeat split. }
    destruct (Hproj _ eq_refl) as (-> & -> & -> & -> & -> & ->).
    repeat split; try assumption.
    unfold set_add. rewrite map_id.
    destruct (decide _) as [|Hnot]; [reflexivity|].
    exfalso. apply Hnot. apply (H _ _ Hloc).
  - destruct Hst as (-> & idk & _ & ->). unfold base_after. proj.
    repeat split.
    + intros idk' l Hl'. rewrite set_add_keys.
      destruct (decide (idk = idk')) as [->|Hne].
      * rewrite lookup_insert_eq in Hl'. injection Hl' as <-. left. reflexivity.
      * rewrite lookup_insert_ne in Hl' by exact Hne. right. eauto.
    + exact (set_add_map loc_key _ _).
Qed.

Lemma row_key_frame hdr rowstr row st k st' :
  row_key hdr rowstr row st = (Ret k, st') ->
  obs st' = obs st /\ fcst st' = fcst st /\ pit st' = pit st
  /\ x st' = x st /\ cdf st' = cdf st
  /\ _quantiles st' = _quantiles st /\ _thresholds st' = _thresholds st
  /\ indices st' = indices st /\ Text.header st' = Text.header st.
Proof.
  intros Hk. apply row_key_Ret in Hk
    as (date & offset & id & cLat & cLon & cElev & n & location
        & Hlen & Rid & Rlat & Rlon & Relev & Hn & -> & Hst).
  cbv zeta in Hst. destruct (known_id st id).
  - destruct Hst as (_ & ->). destruct (_ && _); unfold base_after; proj; repeat split.
  - destruct Hst as (_ & idk & _ & ->). unfold base_after; proj; repeat split.
Qed.

(** The values a data row puts into the tables, all under its key. *)
Lemma data_row_tables hdr rowstr st st' :
  data_row hdr rowstr (PyStr.split rowstr) st = (Ret tt, st') ->
  let row := PyStr.split rowstr in
  exists k, key_of (mkMet st hdr rowstr) = Some k
    /\ (exists v, read_column (indices st) row "obs" S754_nan = Some v
                  /\ obs st' = <[key5_of k := v]> (obs st))
    /\ (exists v, read_column (indices st) row "fcst" S754_nan = Some v
                  /\ fcst st' = <[key5_of k := v]> (fcst st))
    /\ match indices st !! "pit" with
       | Some _ => exists v, read_column (indices st) row "pit" S754_nan = Some v
                             /\ pit st' = <[key5_of k := v]> (pit st)
       | None => pit st' = pit st
       end
    /\ (forall v, isnan v = false ->
          (key_val v, 0%N) ∈ map fkey (_quantiles st') <->
          (key_val v, 0%N) ∈ map fkey (_quantiles st)
          \/ is_Some (level_field (_get_quantile_fields hdr) v))
    /\ (forall k6, k6.1 <> key5_of k -> x st' !! k6 = x st !! k6)
    /\ (forall v, isnan v = false ->
          x st' !! (key5_of k, (key_val v, 0%N)) =
          match level_field (_get_quantile_fields hdr) v with
          | Some f => read_column (indices st) row f S754_nan
          | None => x st !! (key5_of k, (key_val v, 0%N))
          end)
    /\ (forall v, isnan v = false ->
          (key_val v, 0%N) ∈ map fkey (_thresholds st') <->
          (key_val v, 0%N) ∈ map fkey (_thresholds st)
          \/ is_Some (level_field (_get_threshold_fields hdr) v))
    /\ (forall k6, k6.1 <> key5_of k -> cdf st' !! k6 = cdf st !! k6)
    /\ (forall v, isnan v = false ->
          cdf st' !! (key5_of k, (key_val v, 0%N)) =
          match level_field (_get_threshold_fields hdr) v with
          | Some f => read_column (indices st) row f S754_nan
          | None => cdf st !! (key5_of k, (key_val v, 0%N))
          end)
    /\ Forall (fun f => is_Some (read_column (indices st) row f S754_nan))
              (_get_quantile_fields hdr ++ _get_threshold_fields hdr).
Proof.
  intros H row. apply data_row_Ret in H as (k & st1 & Hk & Hs).
  exists k. unfold key_of. cbn [met_state met_header met_rowstr]. rewrite Hk.
  split; [reflexivity|].
  apply row_key_frame in Hk as (Ho & Hf & Hp & Hx & Hc & Hq & Ht & Hi & _).
  destruct k as [[[[d o] la] lo] el].
  apply store_row_Ret in Hs as (_ & Hs). cbv zeta in Hs.
  rewrite Ho, Hf, Hp, Hx, Hc, Hq, Ht, Hi in Hs. exact Hs.
Qed.


(** The run from a data row on. *)
Lemma run_split filename file st st' before r later :
  lines filename file st = (Ret tt, st') ->
  data_rows filename file st = (before ++ r :: later)%list ->
  exists file' st1,
    data_row (met_header r) (met_rowstr r) (PyStr.split (met_rowstr r)) (met_state r)
    = (Ret tt, st1)
    /\ lines filename file' st1 = (Ret tt, st')
    /\ data_rows filename file' st1 = later.
Proof.
  revert st before. induction file as [|rowstr file IH]; intros st before H Hrows.
  - destruct before; discriminate.
  - apply lines_cons in H as (st1 & Hl & H). cbn [data_rows] in Hrows.
    rewrite Hl in Hrows. apply line_Ret in Hl.
    destruct (as_data_row st rowstr) as [hdr|]; [|eauto].
    destruct before as [|b before]; cbn in Hrows.
    + injection Hrows as <- <-. exists file, st1. auto.
    + injection Hrows as _ Hrows. eauto.
Qed.

(** *** The sets at the end of a run *)

Lemma foldl_set_add_map {A B K} `{EqDecision K} (key : A -> K) (g : B -> A) l s :
  foldl (fun s b => set_add key (g b) s) s l
  = foldl (fun s a => set_add key a s) s (map g l).
Proof. revert s. induction l as [|b l IH]; intros s; cbn; [reflexivity|apply IH]. Qed.

Lemma foldl_set_add_keys {A K} `{EqDecision K} (key : A -> K) l s k :
  k ∈ map key (foldl (fun s a => set_add key a s) s l)
  <-> k ∈ map key s \/ k ∈ map key l.
Proof.
  revert s. induction l as [|a l IH]; intros s; cbn [foldl map].
  - rewrite elem_of_nil. tauto.
  - rewrite IH, set_add_keys, elem_of_cons. tauto.
Qed.

Lemma foldl_set_add_NoDup {A K} `{EqDecision K} (key : A -> K) l s :
  NoDup (map key s) -> NoDup (map key (foldl (fun s a => set_add key a s) s l)).
Proof.
  revert s. induction l as [|a l IH]; intros s Hs; cbn [foldl]; [exact Hs|].
  apply IH, set_add_NoDup, Hs.
Qed.

Lemma foldl_set_add_keys_map {A K} `{EqDecision K} (key : A -> K) l s :
  map key (foldl (fun s a => set_add key a s) s l)
  = foldl (fun s k => set_add (fun k => k) k s) (map key s) (map key l).
Proof.
  revert s. induction l as [|a l IH]; intros s; cbn [foldl map]; [reflexivity|].
  rewrite IH, set_add_map. reflexivity.
Qed.

Lemma distinct_keys {A K} `{EqDecision K} (key : A -> K) l k :
  k ∈ map key (distinct key l) <-> k ∈ map key l.
Proof.
  unfold distinct. rewrite foldl_set_add_keys. cbn [map]. rewrite elem_of_nil. tauto.
Qed.

Lemma distinct_NoDup {A K} `{EqDecision K} (key : A -> K) l :
  NoDup (map key (distinct key l)).
Proof. apply foldl_set_add_NoDup. constructor. Qed.

Lemma omap_cons_Some {A B} (f : A -> option B) a l b :
  f a = Some b -> omap f (a :: l) = b :: omap f l.
Proof. intros H. cbn. rewrite H. reflexivity. Qed.

Lemma run_sets filename file st st' :
  lines filename file st = (Ret tt, st') ->
  let ks := omap key_of (data_rows filename file st) in
  length ks = length (data_rows filename file st)
  /\ _dates st' = foldl (fun s a => set_add fkey a s) (_dates st) (map date_of ks)
  /\ _offsets st' = foldl (fun s a => set_add fkey a s) (_offsets st) (map offset_of ks)
  /\ (registered_in_set st ->
      registered_in_set st'
      /\ map loc_key (_locations st')
         = foldl (fun s p => set_add (fun p => p) p s) (map loc_key (_locations st))
                 (map place_of ks)).
Proof.
  intros H. revert H. apply (run_ind filename
    (fun st rows st' =>
       let ks := omap key_of rows in
       length ks = length rows
       /\ _dates st' = foldl (fun s a => set_add fkey a s) (_dates st) (map date_of ks)
       /\ _offsets st' = foldl (fun s a => set_add fkey a s) (_offsets st)
                               (map offset_of ks)
       /\ (registered_in_set st ->
           registered_in_set st'
           /\ map loc_key (_locations st')
              = foldl (fun s p => set_add (fun p => p) p s)
                      (map loc_key (_locations st)) (map place_of ks)))).
  - intros s. cbn. auto.
  - intros s hdr rowstr s1 rows s' Hdata Hrow (IHn & IHd & IHo & IHl).
    apply data_row_sets in Hrow as (k & Hk & Hd & Ho & _ & _ & Hl).
    cbv zeta. rewrite (omap_cons_Some _ _ _ _ Hk). cbn [map foldl length].
    rewrite IHn, IHd, IHo, Hd, Ho. repeat split.
    + apply IHl, Hl, H.
    + destruct (Hl H) as (Hr & Hm). destruct (IHl Hr) as (_ & ->).
      rewrite Hm. reflexivity.
  - intros s s1 rows s' Hq IH.
    destruct Hq as (Hd & Ho & Hl & _ & _ & _ & _ & _ & _ & _ & _ & _ & Hi & _).
    unfold registered_in_set in *. rewrite <- Hd, <- Ho, <- Hl, <- Hi. exact IH.
Qed.

(** *** Dense assembly *)

Lemma lookup_map {A B} (f : A -> B) l i : map f l !! i = f <$> (l !! i).
Proof.
  revert i. induction l as [|a l IH]; intros [|i]; cbn; auto.
Qed.

Lemma dense3_at table ds os ls d o s date offset location :
  ds !! d = Some date -> os !! o = Some offset -> ls !! s = Some location ->
  at3 (dense3 table ds os ls) d o s
  = Some (at_key table (mk_key5 date offset (loc_lat location) (loc_lon location)
                                (loc_elev location))).
Proof.
  intros Hd Ho Hs. unfold at3, dense3.
  rewrite lookup_map, Hd. cbn. rewrite lookup_map, Ho. cbn.
  rewrite lookup_map, Hs. reflexivity.
Qed.

Lemma dense4_at table ds os ls qs d o s q date offset location level :
  ds !! d = Some date -> os !! o = Some offset -> ls !! s = Some location ->
  qs !! q = Some level ->
  at4 (dense4 table ds os ls qs) d o s q
  = Some (at_key table (mk_key6 date offset (loc_lat location) (loc_lon location)
                                (loc_elev location) level)).
Proof.
  intros Hd Ho Hs Hq. unfold at4, dense4.
  rewrite lookup_map, Hd. cbn. rewrite lookup_map, Ho. cbn.
  rewrite lookup_map, Hs. cbn. rewrite lookup_map, Hq. reflexivity.
Qed.



(** *** Deferred id assignment keeps the places *)


Lemma assign_ids_lookup ls c s location :
  assign_ids ls c !! s = Some location ->
  exists location0,
    ls !! s = Some location0
    /\ loc_lat location = loc_lat location0
    /\ loc_lon location = loc_lon location0
    /\ loc_elev location = loc_elev location0.
Proof.
  revert c s. induction ls as [|l ls IH]; intros c s; cbn [assign_ids]; [discriminate|].
  destruct (isnan (loc_id l)); destruct s as [|s]; cbn.
  - intros [= <-]. exists l. auto.
  - apply IH.
  - intros [= <-]. exists l. auto.
  - apply IH.
Qed.

(** *** The whole load *)

Lemma init_Ret itf itl w filename t o :
  __init__ itf itl w filename = (Ret t, o) ->
  exists file st,
    open_lines w (expanduser w filename) = Some file
    /\ lines (expanduser w filename) file initial = (Ret tt, st)
    /\ t = assemble itf itl filename (expanduser w filename) st
    /\ o = out st
    /\ rows_of w filename = data_rows (expanduser w filename) file initial.
Proof.
  unfold __init__, rows_of. destruct (open_lines w _) as [file|]; [|discriminate].
  destruct (lines _ file initial) as [[[]|e] st] eqn:E; [|discriminate].
  intros [= <- <-]. eauto 10.
Qed.


Lemma b64_eqb_key a b :
  b64_eqb a b = true -> key_val a = key_val b /\ isnan a = false /\ isnan b = false.
Proof.
  unfold b64_eqb, SFeqb, SFcompare.
  destruct a as [sa|sa| |sa ma ea], b as [sb|sb| |sb mb eb];
    cbn [key_val isnan]; try discriminate;
    try (destruct sa; discriminate); try (destruct sb; discriminate);
    try (intros _; auto; fail).
  - destruct sa, sb; try discriminate; auto.
  - destruct sa, sb; try discriminate;
      destruct (Z.compare ea eb) eqn:Ez; try discriminate;
      apply Z.compare_eq in Ez; subst;
      destruct (Pos.compare_cont Eq ma mb) eqn:Ep; try discriminate;
      apply Pos.compare_eq in Ep; subst; auto.
Qed.

Lemma distinct_keys_not_equal (l : list pyfloat) i j a b :
  NoDup (map fkey l) -> i <> j ->
  map fval l !! i = Some a -> map fval l !! j = Some b -> b64_eqb a b = false.
Proof.
  intros Hnd Hij. rewrite !lookup_map.
  destruct (l !! i) as [x|] eqn:Hi; [|discriminate].
  destruct (l !! j) as [y|] eqn:Hj; [|discriminate].
  cbn. intros [= <-] [= <-].
  destruct (b64_eqb (fval x) (fval y)) eqn:E; [|reflexivity].
  apply b64_eqb_key in E as (Hk & Hx & Hy).
  exfalso. apply Hij. eapply (NoDup_lookup (map fkey l)); [exact Hnd| |].
  - rewrite lookup_map, Hi. reflexivity.
  - rewrite lookup_map, Hj. cbn. f_equal.
    rewrite (fkey_not_nan x Hx), (fkey_not_nan y Hy), Hk. reflexivity.
Qed.

Lemma NoDup_map_perm {A K} (key : A -> K) l l' :
  l ≡ₚ l' -> NoDup (map key l') -> NoDup (map key l).
Proof.
  intros Hp Hn.
  assert (map key l ≡ₚ map key l') as E by (apply Permutation_map; exact Hp).
  rewrite E. exact Hn.
Qed.

(** C7, as far as it holds: the dates and the offsets of the snapshot
    are the distinct values of the data rows, each once, in the order
    in which the set is walked; no two entries are equal. *)
Theorem C7_coordinates_are_the_distinct_values itf itl w filename t o :
  __init__ itf itl w filename = (Ret t, o) ->
  let ks := keys_of w filename in
  dates_ t = as_list itf (distinct fkey (map date_of ks))
  /\ offsets_ t = as_list itf (distinct fkey (map offset_of ks))
  /\ dates_ t ≡ₚ distinct fkey (map date_of ks)
  /\ offsets_ t ≡ₚ distinct fkey (map offset_of ks)
  /\ NoDup (map fkey (dates_ t)) /\ NoDup (map fkey (offsets_ t))
  /\ (forall i j a b, i <> j -> dates t !! i = Some a -> dates t !! j = Some b ->
                      b64_eqb a b = false)
  /\ (forall i j a b, i <> j -> offsets t !! i = Some a -> offsets t !! j = Some b ->
                      b64_eqb a b = false).
Proof.
  intros H ks. apply init_Ret in H as (file & st & Hopen & Hrun & -> & -> & Hrows).
  pose proof (run_sets _ _ _ _ Hrun) as (_ & Hd & Ho & _).
  subst ks. unfold keys_of. rewrite Hrows. unfold distinct.
  cbn [assemble dates_ offsets_ dates offsets]. rewrite Hd, Ho. cbn [initial _dates _offsets].
  assert (NoDup (map fkey (as_list itf
            (foldl (fun s a => set_add fkey a s) []
               (map date_of (omap key_of (data_rows (expanduser w filename) file initial)))))))
    as Hnd.
  { eapply NoDup_map_perm; [apply as_list_perm|]. apply (distinct_NoDup fkey). }
  assert (NoDup (map fkey (as_list itf
            (foldl (fun s a => set_add fkey a s) []
               (map offset_of (omap key_of (data_rows (expanduser w filename) file initial)))))))
    as Hno.
  { eapply NoDup_map_perm; [apply as_list_perm|]. apply (distinct_NoDup fkey). }
  repeat split; try reflexivity; try apply as_list_perm; try assumption.
  - intros i j a b. apply distinct_keys_not_equal. exact Hnd.
  - intros i j a b. apply distinct_keys_not_equal. exact Hno.
Qed.



(** *** Conflicting location information *)

Lemma contains_true {K A} `{Countable K} (m : gmap K A) k v :
  m !! k = Some v -> contains m k = true.
Proof. unfold contains. by intros ->. Qed.

Lemma contains_false {K A} `{Countable K} (m : gmap K A) k :
  contains m k = false -> m !! k = None.
Proof. unfold contains. by destruct (m !! k). Qed.

(** What a data row writes out: the conflict warning, when the row
    conflicts with the registered location and no warning was shown
    before, and nothing else. *)
Lemma data_row_out hdr rowstr st st' :
  data_row hdr rowstr (PyStr.split rowstr) st = (Ret tt, st') ->
  let r := mkMet st hdr rowstr in
  shownConflictingWarning st' = shownConflictingWarning st || conflicting r
  /\ exists evs,
      out st' = (out st ++ evs)%list
      /\ conflict_warnings evs
         = (if conflicting r && negb (shownConflictingWarning st) then 1 else 0)%nat
      /\ (conflicting r && negb (shownConflictingWarning st) = false -> evs = []).
Proof.
  intros H r. apply data_row_Ret in H as (k & st1 & Hk & Hs).
  apply row_key_Ret in Hk
    as (date & offset & id & cLat & cLon & cElev & n & location
        & Hlen & Rid & Rlat & Rlon & Relev & Hn & -> & Hst).
  apply store_row_Ret in Hs as (Hsame & _).
  destruct Hsame as (_ & _ & _ & _ & _ & _ & _ & _ & _ & _ & Hshown & Hout).
  rewrite Hshown, Hout. clear Hshown Hout. subst r.
  rewrite (conflicting_known hdr rowstr st id cLat cLon cElev Rid Rlat Rlon Relev).
  cbv zeta in Hst. unfold known_id in Hst.
  destruct (isnan id); cbn [negb andb] in *.
  - destruct Hst as (_ & idk & _ & ->). unfold base_after. proj.
    rewrite orb_false_r. split; [reflexivity|]. exists []. by rewrite app_nil_r.
  - destruct (contains (locationInfo st) (key_val id, 0%N)) eqn:Ec.
    + destruct Hst as (El & ->). rewrite El.
      destruct (shownConflictingWarning st) eqn:Es; cbn [negb andb].
      * unfold base_after. proj. rewrite Es, andb_false_r. split; [reflexivity|].
        exists []. by rewrite app_nil_r.
      * destruct (off_by cLat cLon cElev location) eqn:Eo; unfold base_after; proj.
        -- split; [reflexivity|]. eexists. split; [reflexivity|].
           split; [|discriminate]. unfold conflict_events.
           change [?a; ?b] with ([a] ++ [b])%list.
           rewrite conflict_warnings_app, !conflict_warnings_one. reflexivity.
        -- rewrite Es. split; [reflexivity|]. exists []. by rewrite app_nil_r.
    + assert (locationInfo st !! (key_val id, 0%N) = None) as El
        by (apply contains_false; exact Ec).
      rewrite El.
      destruct Hst as (_ & idk & _ & ->). unfold base_after. proj.
      rewrite orb_false_r. split; [reflexivity|]. exists []. by rewrite app_nil_r.
Qed.

(** A row that names a registered location is stored under the
    registered latitude, longitude and elevation, and registers
    nothing. *)
Lemma data_row_known hdr rowstr st st' id location :
  data_row hdr rowstr (PyStr.split rowstr) st = (Ret tt, st') ->
  read_column (indices st) (PyStr.split rowstr) "id" S754_nan = Some id ->
  isnan id = false ->
  locationInfo st !! (key_val id, 0%N) = Some location ->
  (exists date offset,
      key_of (mkMet st hdr rowstr)
      = Some (date, offset, loc_lat location, loc_lon location, loc_elev location))
  /\ locationInfo st' = locationInfo st
  /\ _locations st' = _locations st.
Proof.
  intros H Hid Hnan Hloc. apply data_row_Ret in H as (k & st1 & Hk & Hs).
  unfold key_of. cbn [met_state met_header met_rowstr]. rewrite Hk.
  apply row_key_Ret in Hk
    as (date & offset & id' & cLat & cLon & cElev & n & location'
        & Hlen & Rid & Rlat & Rlon & Relev & Hn & -> & Hst).
  apply store_row_Ret in Hs as (Hsame & _).
  destruct Hsame as (_ & _ & _ & _ & Hl & _ & _ & _ & _ & Hinfo & _ & _).
  rewrite Hl, Hinfo. clear Hl Hinfo.
  rewrite Hid in Rid. injection Rid as <-.
  cbv zeta in Hst. unfold known_id in Hst.
  assert (contains (locationInfo st) (key_val id, 0%N) = true) as Ec
    by (eapply contains_true; exact Hloc).
  rewrite Hnan, Ec in Hst. cbn [negb andb] in Hst.
  destruct Hst as (El & ->). rewrite Hloc in El. injection El as <-.
  split; [eauto|]. destruct (_ && _); unfold base_after; proj; auto.
Qed.

Lemma run_rows_complete filename file st st' r :
  lines filename file st = (Ret tt, st') ->
  r ∈ data_rows filename file st ->
  exists st1, data_row (met_header r) (met_rowstr r) (PyStr.split (met_rowstr r))
                       (met_state r) = (Ret tt, st1).
Proof.
  intros H Hr. apply list_elem_of_split in Hr as (before & later & Hr).
  destruct (run_split _ _ _ _ _ _ _ H Hr) as (file' & st1 & Hrow & _). eauto.
Qed.

Lemma filter_existsb_false {A} (f : A -> bool) l :
  existsb f l = false -> filter (fun a => f a = true) l = [].
Proof.
  induction l as [|a l IH]; cbn [existsb]; [reflexivity|].
  intros H. apply orb_false_iff in H as [Ha Hl]. rewrite filter_cons.
  destruct (decide (f a = true)); [congruence|auto].
Qed.

Lemma run_out filename file st st' :
  lines filename file st = (Ret tt, st') ->
  let rows := data_rows filename file st in
  shownConflictingWarning st'
  = shownConflictingWarning st || existsb conflicting rows
  /\ conflict_warnings (out st')
     = (conflict_warnings (out st)
        + if negb (shownConflictingWarning st) && existsb conflicting rows
          then 1 else 0)%nat.
Proof.
  intros H. revert H. apply (run_ind filename
    (fun st rows st' =>
       shownConflictingWarning st'
       = shownConflictingWarning st || existsb conflicting rows
       /\ conflict_warnings (out st')
          = (conflict_warnings (out st)
             + if negb (shownConflictingWarning st) && existsb conflicting rows
               then 1 else 0)%nat)).
  - intros s. cbn [existsb]. rewrite orb_false_r, andb_false_r.
    split; [reflexivity|lia].
  - intros s hdr rowstr s1 rows s' Hdata Hrow (IHs & IHo).
    apply data_row_out in Hrow as (Hs & evs & Ho & Hc & _). cbv zeta in *.
    rewrite IHs, IHo, Hs, Ho, conflict_warnings_app, Hc. cbn [existsb].
    destruct (shownConflictingWarning s), (conflicting _), (existsb conflicting rows);
      cbn; split; try reflexivity; lia.
  - intros s s1 rows s' Hq (IHs & IHo).
    destruct Hq as (_ & _ & _ & _ & _ & _ & _ & _ & _ & _ & _ & _ & _ & Hs & Ho).
    rewrite <- Hs, <- Ho. auto.
Qed.

(** C8: a load that completes has written exactly one conflict warning
    when some data row conflicts with the location registered under its
    id, however many rows do, and none otherwise; and every row that
    names a registered location is stored under the registered latitude,
    longitude and elevation, which stay as they were registered. *)
Theorem C8_one_conflict_warning itf itl w filename t o :
  __init__ itf itl w filename = (Ret t, o) ->
  let rows := rows_of w filename in
  conflict_warnings o = (if existsb conflicting rows then 1 else 0)%nat
  /\ ((2 <= length (filter (fun r => conflicting r = true) rows))%nat ->
      conflict_warnings o = 1%nat)
  /\ forall r id location,
      r ∈ rows ->
      read_column (indices (met_state r)) (PyStr.split (met_rowstr r)) "id" S754_nan
      = Some id ->
      isnan id = false ->
      locationInfo (met_state r) !! (key_val id, 0%N) = Some location ->
      (exists date offset,
          key_of r = Some (date, offset, loc_lat location, loc_lon location,
                           loc_elev location))
      /\ locationInfo (after r) = locationInfo (met_state r)
      /\ _locations (after r) = _locations (met_state r).
Proof.
  intros H rows. apply init_Ret in H as (file & st & Hopen & Hrun & -> & -> & Hrows).
  subst rows. rewrite Hrows.
  pose proof (run_out _ _ _ _ Hrun) as (_ & Ho). cbv zeta in Ho.
  cbn [initial shownConflictingWarning out negb andb] in Ho.
  assert (conflict_warnings [] = 0%nat) as E0 by reflexivity. rewrite E0 in Ho.
  split; [exact Ho|]. split.
  - intros Hlen. rewrite Ho.
    destruct (existsb conflicting _) eqn:Ee; [reflexivity|]. exfalso.
    pose proof (filter_existsb_false conflicting _ Ee) as En.
    rewrite En in Hlen. cbn in Hlen. lia.
  - intros r id location Hr Hid Hnan Hloc.
    destruct (run_rows_complete _ _ _ _ _ Hrun Hr) as (st1 & Hrow).
    unfold after. rewrite Hrow. cbn [snd].
    destruct r as [s hdr rowstr]. cbn [met_state met_header met_rowstr] in *.
    exact (data_row_known _ _ _ _ _ _ Hrow Hid Hnan Hloc).
Qed.

(** *** Rows stored under the same key *)






(** *** Deferred id assignment *)

Lemma b64_ltb_trans a b c :
  b64_ltb a b = true -> b64_ltb b c = true -> b64_ltb a c = true.
Proof.
  unfold b64_ltb, SFltb, SFcompare.
  destruct a as [sa|sa| |sa ma ea], b as [sb|sb| |sb mb eb], c as [sc|sc| |sc mc ec];
    try discriminate; try (destruct sa; discriminate); try (destruct sb; discriminate);
    try (destruct sc; discriminate);
    try (destruct sa, sb; discriminate); try (destruct sb, sc; discriminate);
    try (destruct sa, sc; intros; (reflexivity || discriminate));
    try (destruct sa, sb, sc; intros; (reflexivity || discriminate)).
  destruct sa, sb, sc; try discriminate; try reflexivity;
    change (Pos.compare_cont Eq) with Pos.compare;
    destruct (Z.compare_spec ea eb), (Z.compare_spec eb ec), (Z.compare_spec ea ec);
    subst; try discriminate; try reflexivity; try lia;
    destruct (Pos.compare_spec ma mb), (Pos.compare_spec mb mc), (Pos.compare_spec ma mc);
    subst; cbn; try discriminate; try reflexivity; try lia.
Qed.

Lemma b64_ltb_irrefl a : b64_ltb a a = false.
Proof.
  unfold b64_ltb, SFltb, SFcompare. destruct a as [sa|sa| |sa ma ea]; try reflexivity.
  - destruct sa; reflexivity.
  - destruct sa; rewrite Z.compare_refl;
      change (Pos.compare_cont Eq) with Pos.compare; rewrite Pos.compare_refl;
      reflexivity.
Qed.

Lemma max_id_inv ls seen acc :
  (isnan acc = true /\ Forall unassigned seen) \/ greatest_id seen acc ->
  (isnan (max_id ls acc) = true /\ Forall unassigned (seen ++ ls))
  \/ greatest_id (seen ++ ls) (max_id ls acc).
Proof.
  revert seen acc. induction ls as [|l ls IH]; intros seen acc Hinv; cbn [max_id].
  - rewrite app_nil_r. exact Hinv.
  - replace (seen ++ l :: ls)%list with ((seen ++ [l]) ++ ls)%list
      by (by rewrite <- app_assoc).
    apply IH. destruct Hinv as [(Hnan & Hall)|(Hnan & Hin & Hmax)].
    + rewrite Hnan. destruct (isnan (loc_id l)) eqn:El.
      * left. split; [reflexivity|]. apply Forall_app. split; [exact Hall|].
        constructor; [exact El|constructor].
      * right. split; [exact El|]. split.
        -- rewrite map_app. apply elem_of_app. right. left.
        -- intros l' Hl' Ha. apply elem_of_app in Hl' as [Hl'|Hl'].
           ++ rewrite Forall_forall in Hall. specialize (Hall _ Hl').
              unfold unassigned, assigned in *. congruence.
           ++ apply list_elem_of_singleton in Hl' as ->. apply b64_ltb_irrefl.
    + rewrite Hnan. right. destruct (b64_gtb (loc_id l) acc) eqn:Eg.
      * assert (isnan (loc_id l) = false) as El
          by (unfold b64_gtb, b64_ltb, SFltb, SFcompare in Eg;
              destruct acc, (loc_id l); try discriminate; reflexivity).
        split; [exact El|]. split.
        -- rewrite map_app. apply elem_of_app. right. left.
        -- intros l' Hl' Ha. apply elem_of_app in Hl' as [Hl'|Hl'].
           ++ destruct (b64_gtb (loc_id l') (loc_id l)) eqn:E'; [|reflexivity].
              rewrite <- (Hmax _ Hl' Ha). unfold b64_gtb in *.
              symmetry. eapply b64_ltb_trans; eassumption.
           ++ apply list_elem_of_singleton in Hl' as ->. apply b64_ltb_irrefl.
      * split; [exact Hnan|]. split.
        -- rewrite map_app. apply elem_of_app. left. exact Hin.
        -- intros l' Hl' Ha. apply elem_of_app in Hl' as [Hl'|Hl'].
           ++ auto.
           ++ apply list_elem_of_singleton in Hl' as ->. exact Eg.
Qed.

(** The first id given out: 0 when no location has an id, and one above
    the greatest id otherwise. *)
Lemma first_id_spec ls :
  (Forall unassigned ls /\ first_id ls = zero)
  \/ (exists m, greatest_id ls m /\ first_id ls = b64_add m (of_Z 1)).
Proof.
  unfold first_id.
  destruct (max_id_inv ls [] S754_nan) as [(Hnan & Hall)|Hg].
  - left. split; [reflexivity|constructor].
  - left. rewrite Hnan. auto.
  - right. exists (max_id ls S754_nan). destruct Hg as (Hnan & Hg).
    rewrite Hnan. split; [split; assumption|reflexivity].
Qed.

Lemma assign_ids_spec ls c s l0 :
  ls !! s = Some l0 ->
  assign_ids ls c !! s
  = Some (if isnan (loc_id l0)
          then with_id l0 (nth_id c (unassigned_before ls s)) else l0).
Proof.
  revert c s. induction ls as [|l ls IH]; intros c s Hs; [discriminate|].
  cbn [assign_ids]. destruct s as [|s].
  - injection Hs as <-. destruct (isnan (loc_id l)); reflexivity.
  - cbn in Hs. unfold unassigned_before. cbn [take]. rewrite filter_cons.
    destruct (decide (unassigned l)) as [Hu|Hu]; unfold unassigned in Hu.
    + rewrite Hu. cbn [lookup list_lookup length]. rewrite (IH _ _ Hs).
      unfold nth_id, unassigned_before. rewrite Nat.iter_succ_r. reflexivity.
    + apply not_true_is_false in Hu. rewrite Hu. cbn [lookup list_lookup].
      rewrite (IH _ _ Hs). reflexivity.
Qed.

(** The set of locations at the end of the loop, from the rows. *)

Lemma key_val_idem v : key_val (key_val v) = key_val v.
Proof. destruct v; reflexivity. Qed.

Lemma key_val_isnan v : isnan (key_val v) = isnan v.
Proof. destruct v; reflexivity. Qed.

Lemma fkey_nan f : isnan (fval f) = true -> fkey f = (S754_nan, fobj f).
Proof. unfold fkey. destruct (fval f); simpl; congruence. Qed.

Lemma row_key_locations header rowstr row st k st' :
  row_key header rowstr row st = (Ret k, st') ->
  exists id lat lon elev,
    read_column (indices st) row "id" S754_nan = Some id
    /\ read_column (indices st) row "lat" S754_nan = Some lat
    /\ read_column (indices st) row "lon" S754_nan = Some lon
    /\ read_column (indices st) row "elev" S754_nan = Some elev
    /\ let location := mkLocation id (or_zero lat) (or_zero lon) (or_zero elev) in
       if known_id st id then
         _locations st' = _locations st /\ locationInfo st' = locationInfo st
       else
         _locations st' = set_add loc_key location (_locations st)
         /\ exists idk,
             locationInfo st' = <[idk := location]> (locationInfo st)
             /\ idk = (if isnan id then (S754_nan, idk.2) else (key_val id, 0%N)).
Proof.
  unfold row_key. intros H.
  step H as [] H0.
  destruct (len_is _ _) eqn:Hlen; cbn [negb] in H0; prim H0.
  step H.
  step H as date H0. apply column_or_Ret in H0 as (Rdate & n1 & -> & Hn1).
  do 2 step H. proj.
  step H.
  step H as offset H0. apply column_or_Ret in H0 as (Roffset & n2 & -> & Hn2).
  do 2 step H. proj.
  step H as id H0. apply column_or_Ret in H0 as (Rid & n3 & -> & Hn3).
  step H as cLat H0. apply column_or_Ret in H0 as (Rlat & n4 & -> & Hn4).
  step H as cLon H0. apply column_or_Ret in H0 as (Rlon & n5 & -> & Hn5).
  step H as cElev H0. apply column_or_Ret in H0 as (Relev & n6 & -> & Hn6).
  step H. proj.
  step H as [] H0. step H. step H as location H1. prim H.
  exists (fval id), (fval cLat), (fval cLon), (fval cElev).
  cbn [fval np_nan] in *.
  repeat (split; [assumption|]).
  unfold known_id. cbv zeta.
  destruct (isnan (fval id)) eqn:Hnan; cbn [negb andb] in *.
  - step H0. prim H0. proj. unfold dict_get in H1. rewrite lookup_insert_eq in H1.
    prim H1. proj. split; [reflexivity|].
    exists (fkey id). split; [reflexivity|]. rewrite (fkey_nan id Hnan). reflexivity.
  - rewrite <- (fkey_not_nan id Hnan).
    destruct (contains _ _) eqn:Hin.
    + step H0 as location' H2. unfold dict_get in H1, H2. proj.
      destruct (locationInfo st !! fkey id) as [l|] eqn:El; prim H2.
      step H0. proj.
      destruct (shownConflictingWarning st); cbn [negb andb] in *.
      * prim H0. proj. rewrite El in H1. prim H1. proj. auto.
      * destruct (_ || _).
        -- step H0. step H0. prim H0. proj. rewrite El in H1. prim H1. proj. auto.
        -- prim H0. proj. rewrite El in H1. prim H1. proj. auto.
    + step H0. prim H0. proj. unfold dict_get in H1. rewrite lookup_insert_eq in H1.
      prim H1. proj. split; [reflexivity|].
      exists (fkey id). split; [reflexivity|]. reflexivity.
Qed.

Lemma ids_seen_initial : ids_seen initial [].
Proof.
  intros v _. unfold contains. cbn [locationInfo initial]. rewrite lookup_empty.
  symmetry. apply bool_decide_eq_false_2. apply not_elem_of_nil.
Qed.

Lemma data_row_collected hdr rowstr st st' seen :
  data_row hdr rowstr (PyStr.split rowstr) st = (Ret tt, st') ->
  ids_seen st seen ->
  exists l seen' new,
    stated_location (mkMet st hdr rowstr) = Some l
    /\ ids_seen st' seen'
    /\ (forall rest, collected seen (l :: rest) = (new ++ collected seen' rest)%list)
    /\ _locations st' = foldl (fun s a => set_add loc_key a s) (_locations st) new.
Proof.
  intros H Hseen. apply data_row_Ret in H as (k & st1 & Hk & Hs).
  apply row_key_locations in Hk as (id & lat & lon & elev & Rid & Rlat & Rlon & Relev & Hst).
  destruct k as [[[[d o] la] lo] el].
  apply store_row_Ret in Hs as (Hsame & _).
  destruct Hsame as (_ & _ & _ & _ & Hl & _ & _ & _ & _ & Hinfo & _ & _).
  cbv zeta in Hst.
  set (l := mkLocation id (or_zero lat) (or_zero lon) (or_zero elev)) in *.
  exists l.
  unfold stated_location. cbn [met_state met_rowstr]. rewrite Rid, Rlat, Rlon, Relev.
  cbn [mbind option_bind]. unfold ids_seen. rewrite Hinfo, Hl. clear Hinfo Hl.
  fold l. cbn [collected]. change (loc_id l) with id. unfold known_id in Hst.
  destruct (isnan id) eqn:Hnan; cbn [negb andb] in Hst.
  - destruct Hst as (Hloc & idk & Hi & Hk). exists seen, [l].
    split; [reflexivity|]. split; [|split; [reflexivity | exact Hloc]].
    intros v Hv. rewrite Hi. unfold contains. rewrite lookup_insert_ne.
    + apply Hseen, Hv.
    + rewrite Hk. intros [= E _]. rewrite <- (key_val_isnan v), <- E in Hv. discriminate.
  - rewrite <- (key_val_isnan id) in Hnan. rewrite <- (key_val_idem id) in Hst.
    rewrite (Hseen _ Hnan), key_val_idem in Hst. rewrite key_val_isnan in Hnan.
    destruct (bool_decide (key_val id ∈ seen)) eqn:Hin.
    + destruct Hst as (Hloc & Hi). exists seen, [].
      split; [reflexivity|]. split; [|split; [reflexivity | exact Hloc]].
      intros v Hv. rewrite Hi. apply Hseen, Hv.
    + destruct Hst as (Hloc & idk & Hi & ->). exists (key_val id :: seen), [l].
      split; [reflexivity|]. split; [|split; [reflexivity | exact Hloc]].
      intros v Hv. rewrite Hi. unfold contains.
      destruct (decide (key_val v = key_val id)) as [E|E].
      * rewrite E, lookup_insert_eq. symmetry. apply bool_decide_eq_true_2. left.
      * rewrite lookup_insert_ne by congruence.
        fold (contains (locationInfo st) (key_val v, 0%N)). rewrite (Hseen v Hv).
        apply bool_decide_ext. rewrite elem_of_cons. tauto.
Qed.

Lemma run_locations filename file st st' :
  lines filename file st = (Ret tt, st') ->
  forall seen,
    ids_seen st seen ->
    _locations st'
    = foldl (fun s a => set_add loc_key a s) (_locations st)
            (collected seen (omap stated_location (data_rows filename file st))).
Proof.
  intros H. revert H. apply (run_ind filename
    (fun st rows st' =>
       forall seen,
         ids_seen st seen ->
         _locations st'
         = foldl (fun s a => set_add loc_key a s) (_locations st)
                 (collected seen (omap stated_location rows)))).
  - intros s seen _. reflexivity.
  - intros s hdr rowstr s1 rows s' Hdata Hrow IH seen Hseen.
    destruct (data_row_collected _ _ _ _ _ Hrow Hseen)
      as (l & seen' & new & Hl & Hseen' & Hc & Hloc).
    rewrite (omap_cons_Some _ _ _ _ Hl), Hc, foldl_app, <- Hloc.
    apply IH, Hseen'.
  - intros s s1 rows s' Hq IH seen Hseen.
    destruct Hq as (_ & _ & Hl & _ & _ & _ & _ & _ & _ & _ & _ & _ & Hi & _).
    rewrite <- Hl. apply IH. unfold ids_seen in *. rewrite Hi. exact Hseen.
Qed.

Lemma location_set_eq w filename file st :
  open_lines w (expanduser w filename) = Some file ->
  lines (expanduser w filename) file initial = (Ret tt, st) ->
  _locations st = location_set w filename.
Proof.
  intros Hopen Hrun. unfold location_set, rows_of, distinct. rewrite Hopen.
  apply (run_locations _ _ _ _ Hrun [] ids_seen_initial).
Qed.

(** The locations of the snapshot: the set of locations, walked, with
    the deferred ids. *)
Lemma locations_eq itf itl w filename t o :
  __init__ itf itl w filename = (Ret t, o) ->
  let ls := as_list itl (location_set w filename) in
  locations t = assign_ids ls (first_id ls).
Proof.
  intros H. apply init_Ret in H as (file & st & Hopen & Hrun & -> & _ & _).
  cbn [assemble locations]. rewrite (location_set_eq _ _ _ _ Hopen Hrun). reflexivity.
Qed.


(** *** How the load can fail *)

Lemma fails_bind {A B} P (m : M A) (k : A -> M B) :
  fails_in P m -> (forall a, fails_in P (k a)) -> fails_in P (m ≫= k).
Proof.
  intros Hm Hk st e st' H. apply bind_Fail in H as [H|(a & st1 & _ & H)].
  - eapply Hm, H.
  - eapply Hk, H.
Qed.

Lemma fails_mret {A} P (a : A) : fails_in P (mret (M := M) a).
Proof. intros st e st' H. discriminate. Qed.

Lemma fails_gets {A} P (f : state -> A) : fails_in P (gets f).
Proof. intros st e st' H. discriminate. Qed.

Lemma fails_modify P f : fails_in P (modify f).
Proof. intros st e st' H. discriminate. Qed.

Lemma fails_raise {A} (P : failure -> Prop) e : P e -> fails_in P (raise (A := A) e).
Proof. intros He st e' st' [= <- _]. exact He. Qed.

Lemma fails_float_obj (P : failure -> Prop) s : P ValueError -> fails_in P (float_obj s).
Proof.
  intros He st e st'. unfold float_obj, raise. destruct (float s); [discriminate|].
  intros [= <- _]. exact He.
Qed.

Lemma fails_clean (P : failure -> Prop) s : P ValueError -> fails_in P (_clean s).
Proof.
  intros He st e st'. rewrite _clean_eq. destruct (float s); [discriminate|].
  intros [= <- _]. exact He.
Qed.

Lemma fails_cell (P : failure -> Prop) row name :
  P ValueError -> P IndexError -> P KeyError -> fails_in P (cell row name).
Proof.
  intros Hv Hi Hk st e st'. rewrite cell_eq.
  destruct (indices st !! name); [|intros [= <- _]; exact Hk].
  destruct (row !! _); [|intros [= <- _]; exact Hi]. apply fails_clean, Hv.
Qed.

Lemma fails_column_or (P : failure -> Prop) row name v :
  P ValueError -> P IndexError -> fails_in P (column_or row name v).
Proof.
  intros Hv Hi st e st'. rewrite column_or_eq.
  destruct (indices st !! name); [|discriminate].
  destruct (row !! _); [|intros [= <- _]; exact Hi]. apply fails_clean, Hv.
Qed.

Lemma fails_dict_get {K A} `{Countable K} (P : failure -> Prop) (d : gmap K A) k :
  P KeyError -> fails_in P (dict_get d k).
Proof.
  intros He st e st'. unfold dict_get. destruct (d !! k); [discriminate|].
  intros [= <- _]. exact He.
Qed.

Lemma fails_list_get {A} (P : failure -> Prop) (l : list A) i :
  P IndexError -> fails_in P (list_get l i).
Proof.
  intros He st e st'. unfold list_get. destruct (l !! i); [discriminate|].
  intros [= <- _]. exact He.
Qed.

Ltac fails :=
  repeat first
    [ apply fails_mret | apply fails_gets | apply fails_modify
    | apply fails_column_or | apply fails_cell | apply fails_float_obj
    | apply fails_dict_get | apply fails_list_get | apply fails_raise
    | apply fails_bind; [|intros ?]
    | match goal with
      | |- fails_in _ (if ?c then _ else _) => destruct c
      | |- fails_in _ (emit _) => apply fails_modify
      | |- fails_in _ (warning _) => apply fails_modify
      end ].

Lemma row_key_fails hdr rowstr row :
  fails_in (fun e => lookup_failure e
                     \/ (e = IncorrectNumberOfColumns (length hdr) (PyStr.strip rowstr)
                         /\ len_is (length row) (length hdr) = false))
           (row_key hdr rowstr row).
Proof.
  unfold row_key. apply fails_bind.
  - destruct (len_is _ _); cbn [negb]; [apply fails_mret|].
    apply fails_raise. right. auto.
  - intros _. fails; left; unfold lookup_failure; auto.
Qed.

Lemma store_levels_fails fields row d o la lo el :
  fails_in lookup_failure (store_quantiles fields row d o la lo el)
  /\ fails_in lookup_failure (store_thresholds fields row d o la lo el).
Proof.
  split; induction fields as [|f fs IH]; cbn [store_quantiles store_thresholds];
    fails; unfold lookup_failure; auto.
Qed.

Lemma store_row_fails hdr row k : fails_in lookup_failure (store_row hdr row k).
Proof.
  destruct k as [[[[d o] la] lo] el]. unfold store_row.
  fails; try (unfold lookup_failure; auto; fail); apply store_levels_fails.
Qed.

(** The arity error is raised exactly when the two lengths are not the
    same int object. *)
Lemma arity_error_iff hdr rowstr row st :
  (exists n s st', data_row hdr rowstr row st = (Fail (IncorrectNumberOfColumns n s), st'))
  <-> len_is (length row) (length hdr) = false.
Proof.
  split.
  - intros (n & s & st' & H). unfold data_row in H.
    apply bind_Fail in H as [H|(k & st1 & _ & H)].
    + apply row_key_fails in H as [[?|[?|?]]|[_ ?]]; congruence.
    + apply store_row_fails in H as [?|[?|?]]; discriminate.
  - intros Hlen. exists (length hdr), (PyStr.strip rowstr), st.
    unfold data_row, row_key. rewrite Hlen. reflexivity.
Qed.

Lemma len_is_spec a b : len_is a b = true <-> a = b /\ (a <= 256)%nat.
Proof.
  unfold len_is. rewrite andb_true_iff, Nat.eqb_eq, Nat.leb_le. reflexivity.
Qed.




(** *** The sample files *)


(** C7 on the file of the decoder's description. *)
Lemma C7_coordinates_witness :
  exists t o, load example_file = (Ret t, o)
              /\ map fmt_g (dates t) = ["2.01501e+07"]
              /\ map fmt_g (offsets t) = ["0"; "1"]
              /\ NoDup (map fkey (offsets_ t)).
Proof.
  assert (exists t o, load example_file = (Ret t, o)
                      /\ map fmt_g (dates t) = ["2.01501e+07"]
                      /\ map fmt_g (offsets t) = ["0"; "1"]) as (t & o & H & Hd & Ho).
  { eexists _, _. split; [vm_compute; reflexivity|].
    split; [vm_compute; reflexivity | vm_compute; reflexivity]. }
  exists t, o. repeat (split; [assumption|]).
  pose proof (C7_coordinates_are_the_distinct_values _ _ _ _ _ _ H)
    as (_ & _ & _ & _ & _ & Hn & _). exact Hn.
Defined.

(** C7, where it fails: a file with the offsets 1 and then 0, read by an
    interpreter whose set of two small floats is laid out by their
    hashes, gives the offsets 0 and then 1. *)
Lemma C7_offsets_not_in_first_seen_order :
  exists t o,
    __init__ SetOrder.table8 SetOrder.insertion (text_world offsets_file) "f"
    = (Ret t, o)
    /\ map fmt_g (map fval (distinct fkey (map offset_of
                              (keys_of (text_world offsets_file) "f")))) = ["1"; "0"]
    /\ map fmt_g (offsets t) = ["0"; "1"].
Proof.
  eexists _, _. split; [vm_compute; reflexivity|].
  split; [vm_compute; reflexivity | vm_compute; reflexivity].
Qed.

(** C5, where it fails: the text decoder takes the number after the "q"
    of a header token as the quantile, so the column [q50] gives the
    quantile 50. *)
Lemma C5_text_quantile_outside_unit_interval :
  exists t o, load quantile_file = (Ret t, o)
              /\ quantiles t = [lit "50"]
              /\ b64_leb (lit "50") (of_Z 1) = false.
Proof.
  eexists _, _. split; [vm_compute; reflexivity|].
  split; [vm_compute; reflexivity | vm_compute; reflexivity].
Qed.



(** C8 on a file whose second and third rows both conflict with the
    first. *)
Lemma C8_one_conflict_warning_witness :
  exists t o, load conflict_file = (Ret t, o)
              /\ length (filter (fun r => conflicting r = true)
                                (rows_of (text_world conflict_file) "f")) = 2%nat
              /\ conflict_warnings o = 1%nat
              /\ map lat_and_id (locations t) = [("49.2", "214")].
Proof.
  assert (exists t o, load conflict_file = (Ret t, o)
                      /\ map lat_and_id (locations t) = [("49.2", "214")]
                      /\ length (filter (fun r => conflicting r = true)
                                        (rows_of (text_world conflict_file) "f")) = 2%nat)
    as (t & o & E & Hl & Hn).
  { eexists _, _. split; [vm_compute; reflexivity|].
    split; [vm_compute; reflexivity | vm_compute; reflexivity]. }
  exists t, o. split; [exact E|]. split; [exact Hn|]. split; [|exact Hl].
  destruct (C8_one_conflict_warning _ _ _ _ _ _ E) as (_ & H2 & _).
  apply H2. rewrite Hn. lia.
Defined.



(** C9, where it fails: a row of 257 fields under a header of 257 columns
    is refused, because the two counts are compared with [is not], and
    two ints above 256 are never the same object. *)
Lemma C9_equal_counts_refused_past_256 :
  (length (PyStr.split (nth 0 wide_file "")),
   length (PyStr.split (nth 1 wide_file ""))) = (257, 257)%nat
  /\ exists rowstr o,
       load wide_file = (Fail (IncorrectNumberOfColumns 257 rowstr), o).
Proof.
  split; [vm_compute; reflexivity|].
  eexists _, _. vm_compute. reflexivity.
Qed.

End TextFacts.

(** ** The dispatcher *)

Module DispatchFacts.
Import Facts Dispatch.
















End DispatchFacts.

(** * Further properties *)

Module InputFacts.
Import PySlice InputNotions.

Lemma rfind_range c s : -1 <= rfind c s < Z.of_nat (String.length s).
Proof.
  induction s as [|c' s IH]; cbn [rfind String.length]; [lia|].
  destruct (0 <=? rfind c s) eqn:E; [lia|]. destruct (Ascii.eqb c' c); lia.
Qed.

Lemma rfind_none c s : rfind c s = -1 <-> occurs c s = false.
Proof.
  induction s as [|c' s IH]; cbn [rfind occurs]; [tauto|].
  pose proof (rfind_range c s) as Hr.
  destruct (0 <=? rfind c s) eqn:E.
  - apply Z.leb_le in E. split; [lia|]. intros H. apply orb_false_iff in H as [_ H].
    apply IH in H. lia.
  - apply Z.leb_gt in E. assert (rfind c s = -1) as H1 by lia. apply IH in H1.
    rewrite H1, orb_false_r. destruct (Ascii.eqb c' c); split; (lia || discriminate || reflexivity).
Qed.

Lemma append_String c a b : (String c a ++ b)%string = String c (a ++ b)%string.
Proof. reflexivity. Qed.

Lemma append_assoc a b c : ((a ++ b) ++ c)%string = (a ++ (b ++ c))%string.
Proof.
  induction a as [|x a IH]; [reflexivity|]. rewrite !append_String. f_equal. exact IH.
Qed.

Lemma take_drop n s : (take n s ++ drop n s)%string = s.
Proof.
  revert s. induction n as [|n IH]; intros [|c s]; cbn [take drop];
    try reflexivity.
  rewrite append_String. f_equal. apply IH.
Qed.

(** At the index [rfind] gives, the string splits into what is before,
    the character, and a rest without the character. *)
Lemma rfind_split c s :
  0 <= rfind c s ->
  s = (take (Z.to_nat (rfind c s)) s ++ String c (drop (Z.to_nat (rfind c s + 1)) s))%string
  /\ occurs c (drop (Z.to_nat (rfind c s + 1)) s) = false.
Proof.
  induction s as [|c' s IH]; cbn [rfind]; [lia|].
  pose proof (rfind_range c s) as Hr.
  destruct (0 <=? rfind c s) eqn:E.
  - apply Z.leb_le in E. intros _. destruct (IH E) as [H1 H2].
    replace (Z.to_nat (rfind c s + 1)) with (S (Z.to_nat (rfind c s))) by lia.
    replace (Z.to_nat (rfind c s + 1 + 1)) with (S (Z.to_nat (rfind c s + 1))) by lia.
    cbn [take drop]. rewrite append_String. split; [f_equal; exact H1 | exact H2].
  - apply Z.leb_gt in E. assert (rfind c s = -1) as H1 by lia.
    destruct (Ascii.eqb c' c) eqn:Ec; [|lia]. intros _.
    apply Ascii.eqb_eq in Ec as ->. cbn. split; [reflexivity|].
    apply rfind_none, H1.
Qed.

(** X1: the name is the part of the full name after its last slash:
    the full name is a directory part, empty or ending in a slash,
    followed by the name, and the name has no slash. *)
Theorem name_is_after_the_last_slash fullname :
  exists dir,
    fullname = (dir ++ Input.name fullname)%string
    /\ (dir = "" \/ exists d, dir = (d ++ "/")%string)
    /\ occurs "/" (Input.name fullname) = false.
Proof.
  unfold Input.name, from. cbv zeta.
  pose proof (rfind_range "/" fullname) as Hr.
  destruct (0 <=? rfind "/" fullname) eqn:E.
  - apply Z.leb_le in E. destruct (rfind_split _ _ E) as [H1 H2].
    assert ((0 <=? rfind "/" fullname + 1) = true) as -> by (apply Z.leb_le; lia).
    exists (String.append (take (Z.to_nat (rfind "/" fullname)) fullname) "/").
    split; [|split; [right; eauto | exact H2]].
    rewrite append_assoc. exact H1.
  - apply Z.leb_gt in E. assert (rfind "/" fullname = -1) as H1 by lia.
    rewrite H1. cbn. exists "". split; [reflexivity|]. split; [auto|].
    apply rfind_none, H1.
Qed.

Lemma take_all_but_last s :
  s = "" /\ take (Z.to_nat (Z.max 0 (Z.of_nat (String.length s) + -1))) s = ""
  \/ exists c, s = (take (Z.to_nat (Z.max 0 (Z.of_nat (String.length s) + -1))) s
                    ++ String c "")%string.
Proof.
  induction s as [|c s IH]; [left; split; reflexivity|]. right.
  cbn [String.length].
  replace (Z.to_nat (Z.max 0 (Z.of_nat (S (String.length s)) + -1)))
    with (String.length s) by lia.
  destruct IH as [[-> _]|[c' IH]]; [exists c; reflexivity|].
  replace (Z.to_nat (Z.max 0 (Z.of_nat (String.length s) + -1)))
    with (Nat.pred (String.length s)) in IH by lia.
  destruct s as [|c0 s]; [discriminate|]. cbn [String.length Nat.pred] in *.
  exists c'. cbn [take]. rewrite append_String. f_equal. exact IH.
Qed.

(** X2: for a name without a dot the short name is not the name: it is
    the name without its last character. *)
Theorem shortname_without_dot_drops_a_character fullname :
  occurs "." (Input.name fullname) = false ->
  (Input.name fullname = "" /\ Input.shortname fullname = "")
  \/ exists c,
       Input.name fullname = (Input.shortname fullname ++ String c "")%string.
Proof.
  intros H. apply rfind_none in H. unfold Input.shortname, upto. cbv zeta.
  rewrite H. cbn [Z.leb Z.compare]. apply take_all_but_last.
Qed.

(** X3: for a name with a dot the short name is the part before the
    last dot. *)
Theorem shortname_is_before_the_last_dot fullname :
  occurs "." (Input.name fullname) = true ->
  exists ext,
    Input.name fullname = (Input.shortname fullname ++ "." ++ ext)%string
    /\ occurs "." ext = false.
Proof.
  intros H. unfold Input.shortname, upto. cbv zeta.
  pose proof (rfind_range "." (Input.name fullname)) as Hr.
  destruct (0 <=? rfind "." (Input.name fullname)) eqn:E.
  - apply Z.leb_le in E. destruct (rfind_split _ _ E) as [H1 H2].
    exists (drop (Z.to_nat (rfind "." (Input.name fullname) + 1)) (Input.name fullname)).
    split; [exact H1 | exact H2].
  - apply Z.leb_gt in E.
    assert (rfind "." (Input.name fullname) = -1) as H1 by lia.
    apply rfind_none in H1. congruence.
Qed.

(** X2 on the file [/data/run]: its short name is [ru]. *)
Lemma shortname_without_dot_witness :
  Input.shortname "/data/run" = "ru"
  /\ ((Input.name "/data/run" = "" /\ Input.shortname "/data/run" = "")
      \/ exists c, Input.name "/data/run"
                   = (Input.shortname "/data/run" ++ String c "")%string).
Proof.
  split; [reflexivity|].
  apply (shortname_without_dot_drops_a_character "/data/run"). reflexivity.
Defined.

(** X3 on a name with two dots: only the last extension is dropped. *)
Lemma shortname_with_dot_witness :
  Input.shortname "~/data/run.v2.txt" = "run.v2"
  /\ exists ext,
       Input.name "~/data/run.v2.txt"
       = (Input.shortname "~/data/run.v2.txt" ++ "." ++ ext)%string
       /\ occurs "." ext = false.
Proof.
  split; [reflexivity|].
  apply (shortname_is_before_the_last_dot "~/data/run.v2.txt"). reflexivity.
Defined.

End InputFacts.

(** ** The structured decoders *)

Module StructuredFacts.
Import PyNum Facts StructuredNotions.

Lemma is_number_float s : Util.is_number s = true -> exists v, float s = Some v.
Proof. unfold Util.is_number. destruct (float s); [eauto | discriminate]. Qed.

Lemma long_or_starts_Fail c name e :
  Comps.long_or_starts c name = Fail e <-> name = "" /\ e = IndexError.
Proof.
  unfold Comps.long_or_starts. destruct name as [|c0 name].
  - cbn. split; [intros [= <-]; auto | intros [_ ->]; reflexivity].
  - cbn [String.length PyStr.head rbind].
    destruct (2 <=? S (String.length name))%nat;
      (split; [discriminate | intros [[=] _]]).
Qed.

Lemma codec_decoders_fail_on_the_empty_name name e :
  (Comps._comps_to_verif_threshold name = Fail e <-> name = "" /\ e = IndexError)
  /\ (Comps._comps_to_verif_quantile name = Fail e <-> name = "" /\ e = IndexError).
Proof.
  unfold Comps._comps_to_verif_threshold, Comps._comps_to_verif_quantile.
  pose proof (long_or_starts_Fail "p" name e) as Hp.
  pose proof (long_or_starts_Fail "q" name e) as Hq.
  split.
  - rewrite <- Hp. clear Hp Hq.
    destruct (Comps.long_or_starts "p" name) as [[]|e0]; cbn [rbind]; cbv zeta;
      try destruct (Util.is_number _).
    all: first [split; intros H; discriminate H
               | split; intros [= ->]; reflexivity].
  - rewrite <- Hq. clear Hp Hq.
    destruct (Comps.long_or_starts "q" name) as [[]|e0]; cbn [rbind]; cbv zeta;
      try (destruct (Util.is_number _) eqn:En;
           [apply is_number_float in En as [v ->];
            match goal with |- context [if ?c then _ else _] => destruct c end|]).
    all: first [split; intros H; discriminate H
               | split; intros [= ->]; reflexivity].
Qed.

(** X4: the two decoders of the naming codec raise on the empty name,
    with IndexError, and on no other name; in particular a name of two
    or more characters is never refused, whatever its first letter. *)
Theorem codec_decoders_fail_on_the_empty_name_only name :
  ((exists e, Comps._comps_to_verif_threshold name = Fail e) <-> name = "")
  /\ ((exists e, Comps._comps_to_verif_quantile name = Fail e) <-> name = "")
  /\ Comps._comps_to_verif_threshold "" = Fail IndexError
  /\ Comps._comps_to_verif_quantile "" = Fail IndexError.
Proof.
  split; [|split; [|split; reflexivity]].
  - split.
    + intros [e He]. apply codec_decoders_fail_on_the_empty_name in He. tauto.
    + intros ->. exists IndexError. reflexivity.
  - split.
    + intros [e He]. apply codec_decoders_fail_on_the_empty_name in He. tauto.
    + intros ->. exists IndexError. reflexivity.
Qed.

(** X5: [NetcdfCf.is_valid] accepts exactly the files that open as
    NetCDF and whose attribute [Conventions] is "verif_1.0.0". *)
Theorem netcdf_cf_is_valid_iff w filename :
  NetcdfCf.is_valid w filename = true <->
  exists file, netcdf w filename = Some file
               /\ getattr file "Conventions" = Some "verif_1.0.0".
Proof.
  unfold NetcdfCf.is_valid, hasattr, getattr.
  destruct (netcdf w filename) as [file|];
    [|split; [discriminate | intros (f & H & _); discriminate]].
  cbv zeta. destruct (nc_attrs file !! "Conventions") as [v|] eqn:E; cbn [andb].
  - destruct (String.eqb v "verif_1.0.0") eqn:Ev.
    + apply String.eqb_eq in Ev as ->. split; [eauto | reflexivity].
    + split; [discriminate|]. intros (f & [= <-] & H). rewrite E in H.
      injection H as ->. rewrite String.eqb_refl in Ev. discriminate.
  - split; [discriminate|]. intros (f & [= <-] & H). congruence.
Qed.

(** X6: the locations of a structured file are as many as its
    latitudes, the [i]-th built from the [i]-th id, latitude, longitude
    and elevation; entries of the other arrays past the latitudes are
    ignored, and IndexError is raised when one of them is shorter. *)
Theorem locations_follow_the_latitudes lat lon id elev :
  ((length lat <= length lon /\ length lat <= length id
    /\ length lat <= length elev)%nat ->
   exists ls,
     zip_locations lat lon id elev = Ret ls
     /\ length ls = length lat
     /\ forall i l, ls !! i = Some l ->
          id !! i = Some (loc_id l) /\ lat !! i = Some (loc_lat l)
          /\ lon !! i = Some (loc_lon l) /\ elev !! i = Some (loc_elev l))
  /\ ((length lon < length lat \/ length id < length lat
       \/ length elev < length lat)%nat ->
      zip_locations lat lon id elev = Fail IndexError).
Proof.
  revert lon id elev. induction lat as [|la lat IH]; intros lon id elev.
  - split.
    + intros _. exists []. split; [reflexivity|]. split; [reflexivity|].
      intros j l H. discriminate.
    + cbn. lia.
  - cbn [zip_locations].
    destruct lon as [|lo lon], id as [|i0 id], elev as [|el elev]; cbn [length];
      try (split; [lia | reflexivity]).
    destruct (IH lon id elev) as [IH1 IH2]. split.
    + intros H. destruct IH1 as (ls & -> & Hlen & Hls); [lia|]. cbn [rbind].
      eexists. split; [reflexivity|]. split; [cbn; lia|].
      intros [|j] l Hl; [injection Hl as <-; repeat split|].
      apply Hls, Hl.
    + intros H. rewrite IH2 by lia. reflexivity.
Qed.

(** X23: the legacy predicate looks at which attributes a file has and
    never at their values: two NetCDF files with the same attribute
    names get the same answer. *)
Theorem comps_is_valid_ignores_attribute_values w1 w2 filename f1 f2 :
  netcdf w1 filename = Some f1 ->
  netcdf w2 filename = Some f2 ->
  (forall name, hasattr f1 name = hasattr f2 name) ->
  Comps.is_valid w1 filename = Comps.is_valid w2 filename.
Proof.
  intros H1 H2 Hsame. unfold Comps.is_valid, Comps.is_valid_try. rewrite H1, H2.
  cbn [mbind option_bind]. rewrite <- (Hsame "Convensions").
  destruct (hasattr f1 "Convensions"); [|reflexivity].
  pose proof (Hsame "Convension") as Hc. unfold hasattr, getattr in *.
  destruct (nc_attrs f1 !! "Convension"), (nc_attrs f2 !! "Convension");
    try discriminate; reflexivity.
Qed.

(** X23 on two files whose attribute [Convension] differs in value. *)
Lemma comps_is_valid_ignores_values_witness :
  Comps.is_valid (netcdf_world comps_file) "f"
  = Comps.is_valid (netcdf_world other_file) "f".
Proof.
  apply (comps_is_valid_ignores_attribute_values
           (netcdf_world comps_file) (netcdf_world other_file) "f"
           comps_file other_file eq_refl eq_refl).
  intros name. unfold hasattr, comps_file, other_file. cbn [nc_attrs].
  destruct (decide (name = "Convension")) as [->|Hne].
  - rewrite !lookup_singleton_eq. reflexivity.
  - rewrite !lookup_singleton_ne by congruence. reflexivity.
Defined.

(** X24: the threshold encoder raises exactly on the values [int()]
    refuses: ValueError on NaN and OverflowError on the infinities. *)
Theorem threshold_encoder_fails_on_nan_and_infinity threshold e :
  Comps._verif_to_comps_threshold threshold = Fail e <->
  (threshold = S754_nan /\ e = ValueError)
  \/ (exists s, threshold = S754_infinity s /\ e = OverflowError).
Proof.
  unfold Comps._verif_to_comps_threshold. destruct threshold as [s|s| |s m ex].
  - assert (b64_eqb (S754_zero s) (of_Z 0) = true) as -> by (destruct s; reflexivity).
    cbn [rbind]. split; [discriminate|]. intros [[[=] _]|(s' & [=] & _)].
  - assert (b64_eqb (S754_infinity s) (of_Z 0) = false) as ->
      by (destruct s; reflexivity).
    assert (b64_ltb (b64_abs (S754_infinity s)) (of_Z 1) = false) as ->
      by (destruct s; reflexivity).
    cbn. split; [intros [= <-]; right; eauto|].
    intros [[[=] _]|(s' & _ & ->)]. reflexivity.
  - assert (b64_eqb S754_nan (of_Z 0) = false) as -> by reflexivity.
    assert (b64_ltb (b64_abs S754_nan) (of_Z 1) = false) as -> by reflexivity.
    cbn. split; [intros [= <-]; left; auto|].
    intros [[_ ->]|(s' & [=] & _)]. reflexivity.
  - destruct (b64_eqb _ _); [|destruct (b64_ltb _ _)]; cbn [rbind fmt_d to_int];
      (split; [discriminate|]); intros [[[=] _]|(s' & [=] & _)].
Qed.

Lemma variables_get_Ret vars name :
  (exists v, variables_get vars name = Ret v) <-> name ∈ map fst vars.
Proof.
  induction vars as [|[n v] vars IH]; cbn [variables_get map fst].
  - split; [intros [v [=]] | intros H; apply elem_of_nil in H; destruct H].
  - destruct (String.eqb n name) eqn:E.
    + apply String.eqb_eq in E as ->. split; [intros _; left | eauto].
    + rewrite IH. apply String.eqb_neq in E. rewrite elem_of_cons.
      split; [auto | intros [->|H]; [congruence | exact H]].
Qed.

Lemma zip_locations_Ret lat lon id elev :
  (exists ls, zip_locations lat lon id elev = Ret ls) <->
  (length lat <= length lon /\ length lat <= length id
   /\ length lat <= length elev)%nat.
Proof.
  revert lon id elev. induction lat as [|la lat IH]; intros lon id elev.
  - cbn. split; [lia | eauto].
  - cbn [zip_locations].
    destruct lon as [|lo lon], id as [|i0 id], elev as [|el elev]; cbn [length];
      try (split; [intros [ls [=]] | lia]).
    specialize (IH lon id elev).
    destruct (zip_locations lat lon id elev) as [ls|e]; cbn [rbind].
    + split; [intros _|eauto]. destruct (proj1 IH) as (H1 & H2 & H3); [eauto|]. lia.
    + split; [intros [ls [=]]|]. intros H. destruct (proj2 IH) as [ls [=]]. lia.
Qed.

Lemma clean_length data : length (Util.clean data) = length data.
Proof. apply length_map. Qed.

Lemma discover_Ret codec vars :
  (forall name, (exists e, codec name = Fail e) <-> name = "") ->
  (exists l, Comps.discover codec vars = Ret l) <-> "" ∉ map fst vars.
Proof.
  intros Hc. induction vars as [|[var data] vars IH]; cbn [Comps.discover map fst].
  - split; [intros _; apply not_elem_of_nil | eauto].
  - rewrite not_elem_of_cons. destruct (decide (var = "")) as [->|Hne].
    + assert (mem_string "" Comps._dimensionNames = false) as -> by reflexivity.
      cbn [negb]. destruct (proj2 (Hc "") eq_refl) as [e ->]. cbn [rbind].
      split; [intros [l [=]] | intros [[] _]; reflexivity].
    + assert (forall r : result (list b64),
                 ((exists l, r = Ret l) <-> "" ∉ map fst vars) ->
                 (exists l, r = Ret l) <-> "" <> var /\ "" ∉ map fst vars) as Hr.
      { intros r ->. split; [auto | tauto]. }
      destruct (negb (mem_string var Comps._dimensionNames)); [|apply Hr, IH].
      destruct (codec var) as [o|e] eqn:Eo.
      2:{ exfalso. apply Hne, Hc. eauto. }
      cbn [rbind]. apply Hr. rewrite <- IH.
      destruct (Comps.discover codec vars) as [l|e]; cbn [rbind];
        split; intros [l' [=]]; eauto.
Qed.

Lemma var_length_Ret file name v :
  variables_get (nc_variables file) name = Ret v ->
  var_length file name = length v.
Proof. unfold var_length. intros ->. reflexivity. Qed.

Lemma rbind_Ret {A B} (r : result A) (k : A -> result B) :
  (exists b, rbind r k = Ret b) <-> exists a, r = Ret a /\ exists b, k a = Ret b.
Proof.
  destruct r as [a|e]; cbn [rbind].
  - split; [intros H; eauto | intros (a' & [= <-] & H); exact H].
  - split; [intros [b [=]] | intros (a' & [=] & _)].
Qed.

Lemma get_locations_Ret vars names :
  forall lat lon id elev,
    names = (lat, lon, id, elev) ->
    forall file,
      vars = nc_variables file ->
      (exists ls,
          rbind (variables_get vars lat) (fun la =>
          rbind (variables_get vars lon) (fun lo =>
          rbind (variables_get vars id) (fun i =>
          rbind (variables_get vars elev) (fun el =>
          zip_locations (Util.clean la) (Util.clean lo) (Util.clean i)
                        (Util.clean el))))) = Ret ls)
      <-> Forall (fun name => name ∈ variable_names file) [lat; lon; id; elev]
          /\ locations_fit file lat lon id elev.
Proof.
  intros lat lon id elev _ file ->. unfold locations_fit, variable_names.
  rewrite !Forall_cons, Forall_nil, <- !variables_get_Ret.
  split.
  - intros H. apply rbind_Ret in H as (la & Hla & H).
    apply rbind_Ret in H as (lo & Hlo & H). apply rbind_Ret in H as (i & Hi & H).
    apply rbind_Ret in H as (el & Hel & H). apply zip_locations_Ret in H.
    rewrite !clean_length in H.
    rewrite (var_length_Ret _ _ _ Hla), (var_length_Ret _ _ _ Hlo),
      (var_length_Ret _ _ _ Hi), (var_length_Ret _ _ _ Hel).
    split; [eauto 10 | exact H].
  - intros (([la Hla] & [lo Hlo] & [i Hi] & [el Hel] & _) & H).
    rewrite (var_length_Ret _ _ _ Hla), (var_length_Ret _ _ _ Hlo),
      (var_length_Ret _ _ _ Hi), (var_length_Ret _ _ _ Hel) in H.
    rewrite Hla, Hlo, Hi, Hel. cbn [rbind]. apply zip_locations_Ret.
    rewrite !clean_length. exact H.
Qed.

(** X25: the legacy decoder is built exactly from the files that open
    as NetCDF, have the six variables Date, Offset, Lat, Lon, Location
    and Elev and no variable with the empty name, whose Lon, Location and
    Elev are not shorter than Lat, and that have the attribute
    Variable. *)
Theorem comps_constructor_succeeds_iff w filename :
  (exists i, Comps.__init__ w filename = Ret i) <->
  exists file,
    netcdf w (expanduser w filename) = Some file
    /\ Forall (fun name => name ∈ variable_names file)
              ["Date"; "Offset"; "Lat"; "Lon"; "Location"; "Elev"]
    /\ ("" ∉ variable_names file)
    /\ locations_fit file "Lat" "Lon" "Location" "Elev"
    /\ hasattr file "Variable" = true.
Proof.
  unfold Comps.__init__. cbv zeta. destruct (netcdf w (expanduser w filename)) as [file|].
  2:{ split; [intros [i [=]] | intros (f & [=] & _)]. }
  assert (forall name e,
             Comps._comps_to_verif_threshold name = Fail e <-> name = "" /\ e = IndexError)
    as Ht by (intros; apply codec_decoders_fail_on_the_empty_name).
  assert (forall name e,
             Comps._comps_to_verif_quantile name = Fail e <-> name = "" /\ e = IndexError)
    as Hq by (intros; apply codec_decoders_fail_on_the_empty_name).
  assert (forall codec : string -> result (option b64),
             (forall name e, codec name = Fail e <-> name = "" /\ e = IndexError) ->
             forall name, (exists e, codec name = Fail e) <-> name = "") as Hcodec.
  { intros codec Hc name. split.
    - intros [e He]. apply Hc in He. tauto.
    - intros ->. exists IndexError. apply Hc. auto. }
  pose proof (discover_Ret _ (nc_variables file) (Hcodec _ Ht)) as Dt.
  pose proof (discover_Ret _ (nc_variables file) (Hcodec _ Hq)) as Dq.
  pose proof (get_locations_Ret (nc_variables file) _ "Lat" "Lon" "Location" "Elev"
                eq_refl file eq_refl) as Dl.
  fold (Comps._get_thresholds file) in Dt. fold (Comps._get_quantiles file) in Dq.
  fold (Comps._get_locations file) in Dl.
  unfold variable_names in *.
  rewrite !Forall_cons, Forall_nil in Dl. rewrite <- !variables_get_Ret in Dl.
  split.
  - intros H. apply rbind_Ret in H as (dates & Hd & H).
    apply rbind_Ret in H as (offsets & Ho & H).
    apply rbind_Ret in H as (ths & Hths & H). apply rbind_Ret in H as (qs & Hqs & H).
    apply rbind_Ret in H as (ls & Hls & H). apply rbind_Ret in H as (v & Hv & _).
    exists file. split; [reflexivity|].
    destruct (proj1 Dl (ex_intro _ ls Hls)) as ((H1 & H2 & H3 & H4 & _) & Hfit).
    split.
    { rewrite !Forall_cons, Forall_nil, <- !variables_get_Ret. repeat split; eauto. }
    split; [apply Dq; eauto|]. split; [exact Hfit|].
    unfold Comps._get_variable, getattr in Hv. unfold hasattr.
    destruct (nc_attrs file !! "Variable"); [reflexivity | discriminate].
  - intros (f & [= <-] & Hvars & Hempty & Hfit & Hattr).
    rewrite !Forall_cons, Forall_nil, <- !variables_get_Ret in Hvars.
    destruct Hvars as (Hd & Ho & H1 & H2 & H3 & H4 & _).
    destruct Hd as [dates ->], Ho as [offsets ->]. cbn [rbind].
    destruct (proj2 Dt Hempty) as [ths ->]. destruct (proj2 Dq Hempty) as [qs ->].
    destruct (proj2 Dl (conj (conj H1 (conj H2 (conj H3 (conj H4 I)))) Hfit)) as [ls ->].
    cbn [rbind]. unfold Comps._get_variable, getattr. unfold hasattr in Hattr.
    destruct (nc_attrs file !! "Variable"); [cbn; eauto | discriminate].
Qed.

(** X26: the NetCDF/CF decoder is built exactly from the files that open
    as NetCDF, have the eight variables date, offset, lat, lon, id,
    elev, thresholds and quantiles, whose lon, id and elev are not
    shorter than lat, and that have the attribute standard_name. *)
Theorem netcdf_cf_constructor_succeeds_iff w filename :
  (exists i, NetcdfCf.__init__ w filename = Ret i) <->
  exists file,
    netcdf w (expanduser w filename) = Some file
    /\ Forall (fun name => name ∈ variable_names file)
              ["date"; "offset"; "lat"; "lon"; "id"; "elev"; "thresholds"; "quantiles"]
    /\ locations_fit file "lat" "lon" "id" "elev"
    /\ hasattr file "standard_name" = true.
Proof.
  unfold NetcdfCf.__init__. cbv zeta.
  destruct (netcdf w (expanduser w filename)) as [file|].
  2:{ split; [intros [i [=]] | intros (f & [=] & _)]. }
  pose proof (get_locations_Ret (nc_variables file) _ "lat" "lon" "id" "elev"
                eq_refl file eq_refl) as Dl.
  fold (NetcdfCf._get_locations file) in Dl.
  unfold variable_names in *.
  rewrite !Forall_cons, Forall_nil in Dl. rewrite <- !variables_get_Ret in Dl.
  split.
  - intros H. apply rbind_Ret in H as (dates & Hd & H).
    apply rbind_Ret in H as (offsets & Ho & H).
    apply rbind_Ret in H as (ls & Hls & H).
    apply rbind_Ret in H as (ths & Hths & H). apply rbind_Ret in H as (qs & Hqs & H).
    apply rbind_Ret in H as (v & Hv & _).
    exists file. split; [reflexivity|].
    destruct (proj1 Dl (ex_intro _ ls Hls)) as ((H1 & H2 & H3 & H4 & _) & Hfit).
    split.
    { rewrite !Forall_cons, Forall_nil, <- !variables_get_Ret. repeat split; eauto. }
    split; [exact Hfit|].
    unfold NetcdfCf._get_variable, getattr in Hv. unfold hasattr.
    destruct (nc_attrs file !! "standard_name"); [reflexivity | discriminate].
  - intros (f & [= <-] & Hvars & Hfit & Hattr).
    rewrite !Forall_cons, Forall_nil, <- !variables_get_Ret in Hvars.
    destruct Hvars as (Hd & Ho & H1 & H2 & H3 & H4 & Hths & Hqs & _).
    destruct Hd as [dates ->], Ho as [offsets ->]. cbn [rbind].
    destruct (proj2 Dl (conj (conj H1 (conj H2 (conj H3 (conj H4 I)))) Hfit)) as [ls ->].
    destruct Hths as [ths ->], Hqs as [qs ->].
    cbn [rbind]. unfold NetcdfCf._get_variable, getattr. unfold hasattr in Hattr.
    destruct (nc_attrs file !! "standard_name"); [cbn; eauto | discriminate].
Qed.

End StructuredFacts.

(** ** Which decoder reads which file *)

Module RoutingFacts.
Import Facts TextNotions Dispatch.

(** X7: a file that exists and does not open as NetCDF is read by the
    text decoder, after both other predicates were tried. *)
Theorem a_file_that_is_not_netcdf_is_read_as_text itf itl w filename :
  path_exists w filename = true ->
  netcdf w filename = None ->
  probes (get_input itf itl w filename) = [NetcdfCf; Comps; Text]
  /\ (returned (get_input itf itl w filename), output (get_input itf itl w filename))
     = construct itf itl w filename Text.
Proof.
  intros He Hn. unfold get_input, NetcdfCf.is_valid, Comps.is_valid, Comps.is_valid_try.
  rewrite He, Hn. cbn [negb mbind option_bind Text.is_valid].
  destruct (construct itf itl w filename Text) as [r o]. split; reflexivity.
Qed.

(** X7 on the file of the text decoder's description. *)
Lemma text_routing_witness :
  probes (get_input SetOrder.insertion SetOrder.insertion (text_world example_file) "f")
  = [NetcdfCf; Comps; Text].
Proof.
  exact (proj1 (a_file_that_is_not_netcdf_is_read_as_text
                  SetOrder.insertion SetOrder.insertion (text_world example_file) "f"
                  eq_refl eq_refl)).
Defined.

Lemma netcdf_cf_is_valid_eq w filename file :
  netcdf w filename = Some file ->
  NetcdfCf.is_valid w filename
  = bool_decide (getattr file "Conventions" = Some "verif_1.0.0").
Proof.
  intros Hn. unfold NetcdfCf.is_valid, hasattr, getattr. rewrite Hn. cbv zeta.
  destruct (nc_attrs file !! "Conventions") as [v|]; cbn [andb].
  - destruct (String.eqb v "verif_1.0.0") eqn:Ev.
    + apply String.eqb_eq in Ev as ->. rewrite bool_decide_eq_true_2; reflexivity.
    + rewrite bool_decide_eq_false_2; [reflexivity|]. intros [= ->].
      rewrite String.eqb_refl in Ev. discriminate.
  - rewrite bool_decide_eq_false_2; [reflexivity | discriminate].
Qed.

(** X8: a file that opens as NetCDF is read by the NetCDF/CF decoder when
    it carries the convention "verif_1.0.0"; else by the legacy decoder,
    whatever its attributes say, unless it has the attribute
    [Convensions] without the attribute [Convension], in which case it
    is handed to the text decoder. *)
Theorem routing_of_a_netcdf_file itf itl w filename file :
  path_exists w filename = true ->
  netcdf w filename = Some file ->
  probes (get_input itf itl w filename)
  = if bool_decide (getattr file "Conventions" = Some "verif_1.0.0") then [NetcdfCf]
    else if hasattr file "Convensions" && negb (hasattr file "Convension")
         then [NetcdfCf; Comps; Text]
         else [NetcdfCf; Comps].
Proof.
  intros He Hn. unfold get_input. rewrite He. cbn [negb].
  rewrite (netcdf_cf_is_valid_eq _ _ _ Hn).
  destruct (bool_decide (getattr file "Conventions" = Some "verif_1.0.0")).
  - destruct (construct itf itl w filename NetcdfCf). reflexivity.
  - destruct (Comps.is_valid w filename) eqn:E2.
    + apply CompsFacts.is_valid_iff in E2 as (f & Hf & H).
      rewrite Hn in Hf. injection Hf as <-.
      destruct (hasattr file "Convensions"); cbn [andb].
      * rewrite H by reflexivity. cbn. destruct (construct itf itl w filename Comps).
        reflexivity.
      * destruct (construct itf itl w filename Comps). reflexivity.
    + cbn [Text.is_valid]. destruct (construct itf itl w filename Text).
      cbn [probes].
      destruct (hasattr file "Convensions") eqn:E3; cbn [andb].
      * destruct (hasattr file "Convension") eqn:E4; [|reflexivity].
        exfalso. assert (Comps.is_valid w filename = true) as H; [|congruence].
        apply CompsFacts.is_valid_iff. exists file. auto.
      * exfalso. assert (Comps.is_valid w filename = true) as H; [|congruence].
        apply CompsFacts.is_valid_iff. exists file. split; [exact Hn|].
        rewrite E3. discriminate.
Qed.

(** X8 on a NetCDF file without attributes: the legacy decoder takes it. *)
Lemma netcdf_routing_witness :
  probes (get_input SetOrder.insertion SetOrder.insertion
                    (netcdf_world (mkNc ∅ [])) "f")
  = [NetcdfCf; Comps].
Proof.
  exact (routing_of_a_netcdf_file SetOrder.insertion SetOrder.insertion
           (netcdf_world (mkNc ∅ [])) "f" (mkNc ∅ []) eq_refl eq_refl).
Defined.

End RoutingFacts.

(** ** How the text decoder fails *)

Module LoadFacts.
Import PyNum Facts Text TextNotions LoadNotions TextFacts.

Lemma triple_bind {A B} I (m : M A) (k : A -> M B) Q R P :
  triple I m Q P -> (forall a, triple (Q a) (k a) R P) -> triple I (m ≫= k) R P.
Proof.
  intros Hm Hk st HI. specialize (Hm st HI). unfold mbind, M_bind.
  destruct (m st) as [[a|e] st1]; [|exact Hm]. apply (Hk a st1 Hm).
Qed.

Lemma triple_weaken {A} (I I' : state -> Prop) (m : M A) (Q Q' : A -> state -> Prop)
      (P P' : failure -> Prop) :
  triple I' m Q' P' ->
  (forall st, I st -> I' st) -> (forall a st, Q' a st -> Q a st) ->
  (forall e, P' e -> P e) ->
  triple I m Q P.
Proof.
  intros Hm HI HQ HP st Hst. specialize (Hm st (HI st Hst)).
  destruct (m st) as [[a|e] st1]; auto.
Qed.

Lemma triple_mret {A} (I : state -> Prop) (a : A) (Q : A -> state -> Prop) P :
  (forall st, I st -> Q a st) -> triple I (mret (M := M) a) Q P.
Proof. intros H st HI. apply H, HI. Qed.

Lemma triple_gets {A} (I : state -> Prop) (f : state -> A) (Q : A -> state -> Prop) P :
  (forall st, I st -> Q (f st) st) -> triple I (gets f) Q P.
Proof. intros H st HI. apply H, HI. Qed.

Lemma triple_modify (I : state -> Prop) f (Q : unit -> state -> Prop) P :
  (forall st, I st -> Q tt (f st)) -> triple I (modify f) Q P.
Proof. intros H st HI. apply H, HI. Qed.

Lemma triple_raise {A} (I : state -> Prop) e (Q : A -> state -> Prop) (P : failure -> Prop) :
  P e -> triple I (raise e) Q P.
Proof. intros H st HI. exact H. Qed.

(** A statement that keeps the header and the indices. *)
Ltac keeps := intros ? [? ?]; split; proj; assumption.

Lemma dict_get_eq {K A} `{Countable K} (d : gmap K A) k st :
  dict_get d k st = match d !! k with
                    | Some a => (Ret a, st)
                    | None => (Fail KeyError, st)
                    end.
Proof. unfold dict_get. destruct (d !! k); reflexivity. Qed.

Lemma in_row_clean h ind (P : failure -> Prop) value :
  (float value = None -> P ValueError) ->
  triple (in_row h ind) (_clean value) (fun _ => in_row h ind) P.
Proof.
  intros HP st HI. rewrite _clean_eq. destruct (float value) ; [|exact (HP eq_refl)].
  destruct HI. split; proj; assumption.
Qed.

Lemma in_row_float_obj h ind (P : failure -> Prop) s :
  (float s = None -> P ValueError) ->
  triple (in_row h ind) (float_obj s) (fun _ => in_row h ind) P.
Proof.
  intros HP st [Hh Hi]. unfold float_obj. destruct (float s) ; [|exact (HP eq_refl)].
  split; proj; assumption.
Qed.

Lemma quantile_fields_subseteq h : Forall (fun f => f ∈ h) (_get_quantile_fields h).
Proof.
  induction h as [|att h IH]; cbn [_get_quantile_fields]; [constructor|].
  assert (Forall (fun f => f ∈ att :: h) (_get_quantile_fields h)) as IH'.
  { eapply Forall_impl; [exact IH|]. intros f Hf. right. exact Hf. }
  destruct (PyStr.starts_with_char "q" att); [|exact IH'].
  constructor; [left|exact IH'].
Qed.

Lemma threshold_fields_subseteq h : Forall (fun f => f ∈ h) (_get_threshold_fields h).
Proof.
  induction h as [|att h IH]; cbn [_get_threshold_fields]; [constructor|].
  assert (Forall (fun f => f ∈ att :: h) (_get_threshold_fields h)) as IH'.
  { eapply Forall_impl; [exact IH|]. intros f Hf. right. exact Hf. }
  destruct (_ && _); [|exact IH'].
  constructor; [left|exact IH'].
Qed.

Section Row.
Variables (h : list string) (ind : gmap string nat) (row : list string).
Variable P : failure -> Prop.
Hypothesis Hcols : columns_of h ind.
Hypothesis Hvalues : Forall (fun value => float value = None -> P ValueError) row.

Lemma in_row_cell name i :
  ind !! name = Some i -> (i < length row)%nat ->
  triple (in_row h ind) (cell row name) (fun _ => in_row h ind) P.
Proof.
  intros Hi Hlen st HI. rewrite cell_eq. destruct HI as [Hh Hind].
  rewrite Hind, Hi. destruct (lookup_lt_is_Some_2 row i Hlen) as [value Hv].
  rewrite Hv. apply in_row_clean; [|split; assumption].
  exact (proj1 (Forall_lookup _ row) Hvalues i value Hv).
Qed.

Lemma in_row_column_or name v :
  (forall i, ind !! name = Some i -> (i < length row)%nat) ->
  triple (in_row h ind) (column_or row name v) (fun _ => in_row h ind) P.
Proof.
  intros Hlen st HI. rewrite column_or_eq. destruct HI as [Hh Hind].
  rewrite Hind. destruct (ind !! name) as [i|] eqn:Hi; [|split; assumption].
  destruct (lookup_lt_is_Some_2 row i (Hlen i eq_refl)) as [value Hv].
  rewrite Hv. apply in_row_clean; [|split; assumption].
  exact (proj1 (Forall_lookup _ row) Hvalues i value Hv).
Qed.

Ltac tstep :=
  eapply triple_bind with (Q := fun _ => in_row h ind);
  [ first [ apply triple_gets; intros ? HI; exact HI
          | apply triple_mret; intros ? HI; exact HI
          | apply triple_modify; keeps
          | apply in_row_column_or; eauto ]
  | intros ? ].

Ltac tstep_as x :=
  eapply triple_bind with (Q := fun _ => in_row h ind);
  [ first [ apply triple_gets; intros ? HI; exact HI
          | apply in_row_column_or; eauto ]
  | intros x ].

(** The coordinates of a data row, under a header that has been read:
    the only failures are the arity error and a field that is not a
    number. *)
Lemma row_key_triple rowstr :
  (len_is (length row) (length h) = false ->
   P (IncorrectNumberOfColumns (length h) (PyStr.strip rowstr))) ->
  triple (in_row h ind) (row_key h rowstr row)
         (fun _ st => in_row h ind st /\ length row = length h) P.
Proof.
  intros Harity. destruct Hcols as (Hall & Hlt & Hobs & Hfcst). unfold row_key.
  destruct (len_is (length row) (length h)) eqn:Hlen; cbn [negb].
  2:{ eapply triple_bind with (Q := fun _ _ => False).
      - apply triple_raise. auto.
      - intros _ st []. }
  apply len_is_spec in Hlen as [Hlen _].
  assert (forall name i, ind !! name = Some i -> (i < length row)%nat) as Hrow.
  { intros name i Hi. rewrite Hlen. eauto. }
  do 9 tstep. tstep_as rid. do 3 tstep.
  eapply triple_bind with
    (Q := fun info st => in_row h ind st /\ info = locationInfo st).
  { apply triple_gets. auto. }
  intros info.
  eapply triple_bind with
    (Q := fun _ st => in_row h ind st /\ is_Some (locationInfo st !! fkey rid)).
  - destruct (negb (isnan (fval rid)) && contains info (fkey rid)) eqn:Hc.
    + apply andb_true_iff in Hc as [_ Hc]. unfold contains in Hc.
      destruct (info !! fkey rid) as [location|] eqn:Hl; [|discriminate].
      intros st [HI ->]. unfold mbind, M_bind. rewrite dict_get_eq, Hl.
      unfold gets. destruct (negb (shownConflictingWarning st)).
      * destruct (_ || _); [|split; [exact HI | eauto]].
        unfold emit, warning, emit, modify. destruct HI. proj.
        split; [split; assumption | eauto].
      * split; [exact HI | eauto].
    + intros st [[Hh Hi] ->]. unfold mbind, M_bind, modify. cbv zeta. proj.
      split; [split; assumption|]. rewrite lookup_insert_eq. eauto.
  - intros _.
    eapply triple_bind with
      (Q := fun info st => in_row h ind st /\ is_Some (info !! fkey rid)).
    { apply triple_gets. auto. }
    intros info' st [HI [location Hl]]. unfold mbind, M_bind.
    rewrite dict_get_eq, Hl. split; [exact HI | exact Hlen].
Qed.

Hypothesis Hlen : length row = length h.

Lemma store_quantiles_triple fields d o la lo el :
  Forall (fun f => f ∈ h /\ (float (PyStr.tail f) = None -> P ValueError)) fields ->
  triple (in_row h ind) (store_quantiles fields row d o la lo el)
         (fun _ => in_row h ind) P.
Proof.
  intros Hf. induction Hf as [|f fields [Hf Hq] Hfs IH]; cbn [store_quantiles].
  - apply triple_mret. auto.
  - destruct Hcols as (Hall & Hlt & _). destruct (proj1 (Hall f) Hf) as [i Hi].
    eapply triple_bind; [apply in_row_float_obj, Hq | intros q].
    tstep. cbv zeta.
    eapply triple_bind;
      [eapply in_row_cell; [exact Hi | rewrite Hlen; eauto] | intros v].
    tstep. exact IH.
Qed.

Lemma store_thresholds_triple fields d o la lo el :
  Forall (fun f => f ∈ h /\ (float (PyStr.tail f) = None -> P ValueError)) fields ->
  triple (in_row h ind) (store_thresholds fields row d o la lo el)
         (fun _ => in_row h ind) P.
Proof.
  intros Hf. induction Hf as [|f fields [Hf Hq] Hfs IH]; cbn [store_thresholds].
  - apply triple_mret. auto.
  - destruct Hcols as (Hall & Hlt & _). destruct (proj1 (Hall f) Hf) as [i Hi].
    eapply triple_bind; [apply in_row_float_obj, Hq | intros q].
    tstep. cbv zeta.
    eapply triple_bind;
      [eapply in_row_cell; [exact Hi | rewrite Hlen; eauto] | intros v].
    tstep. exact IH.
Qed.

Hypothesis Hlevels :
  Forall (fun f => float (PyStr.tail f) = None -> P ValueError)
         (_get_quantile_fields h ++ _get_threshold_fields h).

Lemma store_row_triple k :
  triple (in_row h ind) (store_row h row k) (fun _ => in_row h ind) P.
Proof.
  pose proof Hcols as (Hall & Hlt & [io Hobs] & [ifc Hfcst]).
  apply Forall_app in Hlevels as [Hq Ht].
  destruct k as [[[[d o] la] lo] el]. unfold store_row. cbv zeta.
  eapply triple_bind;
    [eapply in_row_cell; [exact Hobs | rewrite Hlen; eauto] | intros v].
  tstep.
  eapply triple_bind;
    [eapply in_row_cell; [exact Hfcst | rewrite Hlen; eauto] | intros v'].
  tstep.
  eapply triple_bind with (Q := fun i st => in_row h ind st /\ i = ind).
  { apply triple_gets. intros st HI. split; [exact HI | apply HI]. }
  intros ind'.
  eapply triple_bind with (Q := fun _ => in_row h ind).
  - unfold contains. destruct (ind' !! "pit") as [i|] eqn:Hp.
    + intros st [HI ->]. revert st HI.
      eapply triple_bind;
        [eapply in_row_cell; [exact Hp | rewrite Hlen; eauto] | intros vp].
      apply triple_modify. keeps.
    + intros st [HI _]. exact HI.
  - intros _.
    eapply triple_bind with (Q := fun _ => in_row h ind).
    + apply store_quantiles_triple. apply Forall_and. split; [|exact Hq].
      apply quantile_fields_subseteq.
    + intros _. apply store_thresholds_triple. apply Forall_and. split; [|exact Ht].
      apply threshold_fields_subseteq.
Qed.

End Row.

(** A data row under a header that has been read. *)
Lemma data_row_triple h ind rowstr row (P : failure -> Prop) :
  columns_of h ind ->
  (len_is (length row) (length h) = false ->
   P (IncorrectNumberOfColumns (length h) (PyStr.strip rowstr))) ->
  Forall (fun value => float value = None -> P ValueError) row ->
  Forall (fun f => float (PyStr.tail f) = None -> P ValueError)
         (_get_quantile_fields h ++ _get_threshold_fields h) ->
  triple (in_row h ind) (data_row h rowstr row) (fun _ => in_row h ind) P.
Proof.
  intros Hc Ha Hv Hl. unfold data_row.
  eapply triple_bind; [apply row_key_triple; eassumption | intros k].
  intros st [HI Hlen]. revert st HI. apply store_row_triple; assumption.
Qed.

(** *** The header line *)

Lemma header_index_insert att i ind : header_index att i ind = <[att := i]> ind.
Proof.
  unfold header_index.
  repeat match goal with
         | |- context [String.eqb att ?s] =>
             destruct (String.eqb att s) eqn:?E;
             [apply String.eqb_eq in E; subst att; reflexivity|]; clear E
         end.
  reflexivity.
Qed.

Lemma header_indices_spec h i ind name :
  match header_indices h i ind !! name with
  | Some j => (name ∈ h /\ (i <= j < i + length h)%nat) \/ ind !! name = Some j
  | None => (name ∉ h) /\ ind !! name = None
  end.
Proof.
  revert i ind. induction h as [|att h IH]; intros i ind; cbn [header_indices].
  - destruct (ind !! name) eqn:E; [right; reflexivity|].
    split; [apply not_elem_of_nil | reflexivity].
  - specialize (IH (S i) (header_index att i ind)).
    rewrite header_index_insert in *.
    destruct (header_indices h (S i) (<[att:=i]> ind) !! name) as [j|].
    + destruct IH as [[Hin Hj]|Hj].
      * left. split; [right; exact Hin | cbn [length]; lia].
      * destruct (decide (att = name)) as [->|Hne].
        -- rewrite lookup_insert_eq in Hj. injection Hj as <-.
           left. split; [left | cbn [length]; lia].
        -- rewrite lookup_insert_ne in Hj by exact Hne. right. exact Hj.
    + destruct IH as [Hin Hj]. destruct (decide (att = name)) as [->|Hne].
      * rewrite lookup_insert_eq in Hj. discriminate.
      * rewrite lookup_insert_ne in Hj by exact Hne. split; [|exact Hj].
        intros [->|H]%elem_of_cons; [congruence | exact (Hin H)].
Qed.

Lemma require_columns_eq filename cols st :
  require_columns filename cols st =
  match filter (fun col => indices st !! col = None) cols with
  | [] => (Ret tt, st)
  | col :: _ => (Fail (MissingColumn filename col), st)
  end.
Proof.
  induction cols as [|col cols IH]; [reflexivity|].
  cbn [require_columns]. unfold mbind, M_bind, gets, contains. rewrite filter_cons.
  destruct (indices st !! col) eqn:E.
  - rewrite decide_False by discriminate. cbn [negb]. exact IH.
  - rewrite decide_True by reflexivity. reflexivity.
Qed.

(** The header line: it is read into the indices, and the load fails
    with the missing-column error, for "obs" first, when one of the two
    required columns is not in it. *)
Lemma header_line_eq filename row st :
  indices st = ∅ ->
  header_line filename row st =
  let st' := set_indices (header_indices row 0 ∅) (set_header (Some row) st) in
  if bool_decide ("obs" ∈ row) then
    if bool_decide ("fcst" ∈ row) then (Ret tt, st')
    else (Fail (MissingColumn filename "fcst"), st')
  else (Fail (MissingColumn filename "obs"), st').
Proof.
  intros Hind. unfold header_line, mbind, M_bind, modify. proj. rewrite Hind.
  rewrite require_columns_eq. proj. cbv zeta.
  pose proof (header_indices_spec row 0 ∅ "obs") as Ho.
  pose proof (header_indices_spec row 0 ∅ "fcst") as Hf.
  rewrite !filter_cons, filter_nil.
  destruct (header_indices row 0 ∅ !! "obs") as [j|].
  - destruct Ho as [[Ho _]|Ho]; [|rewrite lookup_empty in Ho; discriminate].
    rewrite (bool_decide_eq_true_2 _ Ho), decide_False by discriminate.
    destruct (header_indices row 0 ∅ !! "fcst") as [j'|].
    + destruct Hf as [[Hf _]|Hf]; [|rewrite lookup_empty in Hf; discriminate].
      rewrite (bool_decide_eq_true_2 _ Hf), decide_False by discriminate. reflexivity.
    + destruct Hf as [Hf _].
      rewrite (bool_decide_eq_false_2 _ Hf), decide_True by reflexivity. reflexivity.
  - destruct Ho as [Ho _].
    rewrite (bool_decide_eq_false_2 _ Ho), decide_True by reflexivity. reflexivity.
Qed.

Lemma columns_of_header row :
  "obs" ∈ row -> "fcst" ∈ row -> columns_of row (header_indices row 0 ∅).
Proof.
  intros Ho Hf.
  assert (forall name, name ∈ row <-> is_Some (header_indices row 0 ∅ !! name)) as Hall.
  { intros name. pose proof (header_indices_spec row 0 ∅ name) as H.
    destruct (header_indices row 0 ∅ !! name) as [j|].
    - split; [eauto|]. intros _. destruct H as [[H _]|H]; [exact H|].
      rewrite lookup_empty in H. discriminate.
    - destruct H as [H _]. split; [tauto|]. intros [? [=]]. }
  split; [exact Hall|]. split; [|split; apply Hall; assumption].
  intros name i Hi. pose proof (header_indices_spec row 0 ∅ name) as H.
  rewrite Hi in H. destruct H as [[_ H]|H]; [lia|]. rewrite lookup_empty in H. discriminate.
Qed.

(** *** A metadata line *)

Lemma comment_line_triple filename rowstr (I : state -> Prop) :
  (forall st v, I st -> I (set__variable v st)) ->
  (forall st v, I st -> I (set__units v st)) ->
  (forall st v, I st -> I (set_out v st)) ->
  triple I (comment_line filename rowstr) (fun _ => I) (fun e => e = IndexError).
Proof.
  intros Hv Hu Ho st HI. unfold comment_line, mbind, M_bind, list_get. cbv zeta.
  destruct (PyStr.split (PyStr.tail rowstr) !! 0%nat) as [curr0|]; [|reflexivity].
  cbn [mret M_ret]. destruct (String.eqb curr0 "variable:"); [apply Hv, HI|].
  destruct (String.eqb curr0 "units:").
  - destruct (PyStr.split (PyStr.tail rowstr) !! 1%nat) as [curr1|]; [|reflexivity].
    apply Hu, HI.
  - apply Ho, HI.
Qed.

(** *** The loop over the file *)

Lemma between_lines_line filename rowstr :
  triple between_lines (line filename rowstr) (fun _ => between_lines) text_failure.
Proof.
  unfold line. destruct (PyStr.head rowstr) as [c|e] eqn:Eh.
  2:{ intros st _. destruct rowstr; [|discriminate]. injection Eh as <-. exact I. }
  destruct (Ascii.eqb c "#").
  - eapply triple_weaken;
      [apply (comment_line_triple filename rowstr between_lines); auto
      | auto | auto | intros e ->; exact I].
  - intros st HI. unfold mbind, M_bind, gets. unfold between_lines in HI.
    destruct (header st) as [h|] eqn:Hh.
    + assert (Forall (fun value => float value = None -> text_failure ValueError)
                     (PyStr.split rowstr)) as Hv.
      { apply Forall_forall. intros ? _ _. exact I. }
      assert (Forall (fun f => float (PyStr.tail f) = None -> text_failure ValueError)
                     (_get_quantile_fields h ++ _get_threshold_fields h)) as Hl.
      { apply Forall_forall. intros ? _ _. exact I. }
      pose proof (data_row_triple h (indices st) rowstr (PyStr.split rowstr)
                    text_failure HI (fun _ => I) Hv Hl st (conj Hh eq_refl)) as T.
      destruct (data_row h rowstr (PyStr.split rowstr) st) as [[a|e] st1]; [|exact T].
      destruct T as [H1 H2]. unfold between_lines. rewrite H1, H2. exact HI.
    + rewrite header_line_eq by exact HI. cbv zeta.
      destruct (bool_decide ("obs" ∈ PyStr.split rowstr)) eqn:Eo; [|exact I].
      destruct (bool_decide ("fcst" ∈ PyStr.split rowstr)) eqn:Ef; [|exact I].
      unfold between_lines. proj. apply columns_of_header.
      * eapply bool_decide_eq_true_1, Eo.
      * eapply bool_decide_eq_true_1, Ef.
Qed.

Lemma between_lines_lines filename file :
  triple between_lines (lines filename file) (fun _ => between_lines) text_failure.
Proof.
  induction file as [|rowstr file IH]; cbn [lines].
  - apply triple_mret. auto.
  - eapply triple_bind; [apply between_lines_line | intros ?; exact IH].
Qed.

Lemma data_rows_between filename file st :
  between_lines st ->
  Forall (fun r => header (met_state r) = Some (met_header r)
                   /\ columns_of (met_header r) (indices (met_state r)))
         (data_rows filename file st).
Proof.
  revert st. induction file as [|rowstr file IH]; intros st HI; [constructor|].
  cbn [data_rows].
  assert (Forall (fun r => header (met_state r) = Some (met_header r)
                           /\ columns_of (met_header r) (indices (met_state r)))
            match line filename rowstr st with
            | (Ret _, st') => data_rows filename file st'
            | (Fail _, _) => []
            end) as Hrest.
  { pose proof (between_lines_line filename rowstr st HI) as T.
    destruct (line filename rowstr st) as [[a|e] st1]; [apply IH, T | constructor]. }
  destruct (as_data_row st rowstr) as [h|] eqn:Ea; [|exact Hrest].
  constructor; [|exact Hrest]. cbn [met_state met_header].
  unfold as_data_row in Ea. destruct (PyStr.head rowstr) as [c|]; [|discriminate].
  destruct (Ascii.eqb c "#"); [discriminate|].
  unfold between_lines in HI. rewrite Ea in HI. auto.
Qed.

Lemma between_lines_initial : between_lines initial.
Proof. reflexivity. Qed.

(** X9: the text decoder raises IOError when the file cannot be opened,
    and otherwise only IndexError, ValueError or one of its own two
    errors; no KeyError of a dictionary lookup ever escapes. *)
Theorem text_load_failures itf itl w filename e o :
  __init__ itf itl w filename = (Fail e, o) ->
  (open_lines w (expanduser w filename) = None /\ e = IOError /\ o = [])
  \/ (is_Some (open_lines w (expanduser w filename)) /\ text_failure e).
Proof.
  unfold __init__. cbv zeta. destruct (open_lines w _) as [file|].
  - pose proof (between_lines_lines (expanduser w filename) file initial
                  between_lines_initial) as T.
    destruct (lines _ file initial) as [[[]|e0] st]; [discriminate|].
    intros [= <- <-]. right. split; [eauto | exact T].
  - intros [= <- <-]. left. auto.
Qed.

(** X9 on a file of one line without the required columns. *)
Lemma text_load_failures_witness :
  exists e o, load ["date offset" ++ newline] = (Fail e, o) /\ text_failure e.
Proof.
  assert (exists e o, load ["date offset" ++ newline] = (Fail e, o)) as (e & o & E).
  { eexists _, _. vm_compute. reflexivity. }
  exists e, o. split; [exact E|].
  destruct (text_load_failures _ _ _ _ _ _ E) as [(H & _)|(_ & H)];
    [discriminate H | exact H].
Defined.

(** X10: a data row that the loop reaches fails in two ways only: with
    the arity error, or with ValueError for a field or a level that is
    not a number.  No index is out of range and no key is missing. *)
Theorem data_rows_fail_by_arity_or_value w filename r e :
  r ∈ rows_of w filename ->
  (data_row (met_header r) (met_rowstr r) (PyStr.split (met_rowstr r)) (met_state r)).1
  = Fail e ->
  e = ValueError \/ exists n s, e = IncorrectNumberOfColumns n s.
Proof.
  intros Hr H. unfold rows_of in Hr.
  destruct (open_lines w _) as [file|]; [|apply elem_of_nil in Hr; destruct Hr].
  pose proof (data_rows_between (expanduser w filename) file initial
                between_lines_initial) as Hall.
  destruct (proj1 (Forall_forall _ _) Hall r Hr) as [Hh Hc].
  assert (arity_or_value ValueError) as HV by (left; reflexivity).
  pose proof (data_row_triple (met_header r) (indices (met_state r)) (met_rowstr r)
                (PyStr.split (met_rowstr r)) arity_or_value Hc) as T.
  specialize (T (fun _ => or_intror (ex_intro _ _ (ex_intro _ _ eq_refl)))).
  assert (forall l : list string,
             Forall (fun v => float v = None -> arity_or_value ValueError) l) as Hany.
  { intros l. apply Forall_forall. auto. }
  assert (forall l : list string,
             Forall (fun f => float (PyStr.tail f) = None -> arity_or_value ValueError) l)
    as Hany'.
  { intros l. apply Forall_forall. auto. }
  specialize (T (Hany _) (Hany' _) (met_state r) (conj Hh eq_refl)).
  destruct (data_row _ _ _ _) as [[a|e0] st']; [discriminate H|].
  injection H as <-. exact T.
Qed.

Lemma nth_elem_of {A} (l : list A) i d : (i < length l)%nat -> nth i l d ∈ l.
Proof.
  revert i. induction l as [|a l IH]; intros i Hi; [cbn in Hi; lia|].
  destruct i as [|i]; [left|]. right. apply IH. cbn in Hi. lia.
Qed.

(** X10 on a file whose only data row has a field that is not a number. *)
Lemma data_rows_fail_witness :
  (data_row (met_header (row_at bad_value_file 0)) (met_rowstr (row_at bad_value_file 0))
            (PyStr.split (met_rowstr (row_at bad_value_file 0)))
            (met_state (row_at bad_value_file 0))).1 = Fail ValueError
  /\ (ValueError = ValueError
      \/ exists n s, ValueError = IncorrectNumberOfColumns n s).
Proof.
  assert ((data_row (met_header (row_at bad_value_file 0))
                    (met_rowstr (row_at bad_value_file 0))
                    (PyStr.split (met_rowstr (row_at bad_value_file 0)))
                    (met_state (row_at bad_value_file 0))).1 = Fail ValueError) as E
    by (vm_compute; reflexivity).
  split; [exact E|].
  apply (data_rows_fail_by_arity_or_value (text_world bad_value_file) "f"
           (row_at bad_value_file 0) ValueError); [|exact E].
  apply nth_elem_of. vm_compute. lia.
Defined.

(** X11: a data row that the loop reaches is stored, without any error,
    when it has as many fields as the header, at most 256, all its
    fields are numbers, and so is what follows the first letter of every
    quantile and threshold column of the header. *)
Theorem numeric_rows_are_stored w filename r :
  r ∈ rows_of w filename ->
  length (PyStr.split (met_rowstr r)) = length (met_header r) ->
  (length (met_header r) <= 256)%nat ->
  Forall (fun value => is_Some (float value)) (PyStr.split (met_rowstr r)) ->
  Forall (fun f => is_Some (float (PyStr.tail f)))
         (_get_quantile_fields (met_header r) ++ _get_threshold_fields (met_header r)) ->
  exists st',
    data_row (met_header r) (met_rowstr r) (PyStr.split (met_rowstr r)) (met_state r)
    = (Ret tt, st').
Proof.
  intros Hr Hlen H256 Hv Hl. unfold rows_of in Hr.
  destruct (open_lines w _) as [file|]; [|apply elem_of_nil in Hr; destruct Hr].
  pose proof (data_rows_between (expanduser w filename) file initial
                between_lines_initial) as Hall.
  destruct (proj1 (Forall_forall _ _) Hall r Hr) as [Hh Hc].
  pose proof (data_row_triple (met_header r) (indices (met_state r)) (met_rowstr r)
                (PyStr.split (met_rowstr r)) (fun _ => False) Hc) as T.
  assert (len_is (length (PyStr.split (met_rowstr r))) (length (met_header r)) = true)
    as Hlen'.
  { apply len_is_spec. split; [exact Hlen | lia]. }
  specialize (T (fun H => eq_ind true (fun b => if b then True else False) I false
                            (eq_trans (eq_sym Hlen') H))).
  assert (forall (g : string -> string) (l : list string),
             Forall (fun v => is_Some (float (g v))) l ->
             Forall (fun v => float (g v) = None -> False) l) as Hsome.
  { intros g l H. eapply Forall_impl; [exact H|]. intros v [u ->]. discriminate. }
  specialize (T (Hsome (fun v => v) _ Hv) (Hsome PyStr.tail _ Hl) (met_state r)
                (conj Hh eq_refl)).
  destruct (data_row _ _ _ _) as [[[]|e] st']; [eauto | destruct T].
Qed.

(** X11 on the first data row of the file of the decoder's description. *)
Lemma numeric_rows_witness :
  exists st',
    data_row (met_header (row_at example_file 0)) (met_rowstr (row_at example_file 0))
             (PyStr.split (met_rowstr (row_at example_file 0)))
             (met_state (row_at example_file 0))
    = (Ret tt, st').
Proof.
  apply (numeric_rows_are_stored (text_world example_file) "f").
  - apply nth_elem_of. vm_compute. lia.
  - vm_compute. reflexivity.
  - vm_compute. lia.
  - match goal with
    | |- ?G => assert (bool_decide G = true) as B by (vm_compute; reflexivity);
               exact (bool_decide_eq_true_1 _ B)
    end.
  - match goal with
    | |- ?G => assert (bool_decide G = true) as B by (vm_compute; reflexivity);
               exact (bool_decide_eq_true_1 _ B)
    end.
Defined.

(** X27: for a row of at most 256 fields the arity error is raised
    exactly when the number of fields is not the number of columns of
    the header, whatever the fields are. *)
Theorem arity_check_compares_counts_up_to_256 hdr rowstr row st :
  (length row <= 256)%nat ->
  (exists n s st',
      data_row hdr rowstr row st = (Fail (IncorrectNumberOfColumns n s), st'))
  <-> length row <> length hdr.
Proof.
  intros H256. rewrite arity_error_iff.
  pose proof (len_is_spec (length row) (length hdr)) as Hspec.
  destruct (len_is (length row) (length hdr)).
  - split; [discriminate|]. intros Hne. destruct (proj1 Hspec eq_refl). contradiction.
  - split; [|reflexivity]. intros _ Heq.
    assert (false = true) as [=]. apply Hspec. auto.
Qed.

(** X27 on a row of one field under a header of two columns. *)
Lemma arity_check_witness :
  exists n s st',
    data_row short_row.1 "1" short_row.2 initial
    = (Fail (IncorrectNumberOfColumns n s), st').
Proof.
  apply (arity_check_compares_counts_up_to_256 short_row.1 "1" short_row.2 initial).
  - cbn. lia.
  - cbn. lia.
Defined.

(** *** Lines before and after a line *)

Lemma lines_app filename a b st :
  lines filename (a ++ b)%list st =
  match lines filename a st with
  | (Ret _, st1) => lines filename b st1
  | (Fail e, st1) => (Fail e, st1)
  end.
Proof.
  revert st. induction a as [|l a IH]; intros st; [reflexivity|].
  cbn [app lines]. unfold mbind, M_bind.
  destruct (line filename l st) as [[[]|e] st1]; [apply IH | reflexivity].
Qed.

Lemma starts_with_head c s :
  s <> "" -> PyStr.head s = Ret c -> Ascii.eqb c "#" = PyStr.starts_with_char "#" s.
Proof. destruct s; [congruence|]. intros _ [= ->]. reflexivity. Qed.

Lemma metadata_lines_no_header filename comments :
  Forall (fun l => PyStr.starts_with_char "#" l = true) comments ->
  triple no_header (lines filename comments) (fun _ => no_header)
         (fun e => e = IndexError).
Proof.
  induction 1 as [|l comments Hl Hc IH]; cbn [lines]; [apply triple_mret; auto|].
  eapply triple_bind; [|intros ?; exact IH].
  unfold line. destruct l as [|c l]; [discriminate|]. cbn [PyStr.head].
  cbn in Hl. rewrite Hl. apply comment_line_triple; intros st v Hst; exact Hst.
Qed.

(** X12: when the first line that is not a metadata line lacks one of
    the columns obs and fcst, the load is refused: with the
    missing-column error, for obs if that is missing and for fcst
    otherwise, unless a metadata line before it was already refused. *)
Theorem header_without_required_column_is_refused
        itf itl w filename comments hdr rest :
  open_lines w (expanduser w filename) = Some (comments ++ hdr :: rest)%list ->
  Forall (fun l => PyStr.starts_with_char "#" l = true) comments ->
  PyStr.starts_with_char "#" hdr = false ->
  hdr <> "" ->
  (bool_decide ("obs" ∈ PyStr.split hdr) && bool_decide ("fcst" ∈ PyStr.split hdr)
   = false) ->
  exists e o,
    __init__ itf itl w filename = (Fail e, o)
    /\ (e = IndexError
        \/ e = MissingColumn (expanduser w filename)
                 (if bool_decide ("obs" ∈ PyStr.split hdr) then "fcst" else "obs")).
Proof.
  intros Hopen Hc Hh Hne Hcols. unfold __init__. cbv zeta. rewrite Hopen, lines_app.
  pose proof (metadata_lines_no_header (expanduser w filename) comments Hc initial
                (conj eq_refl eq_refl)) as T.
  destruct (lines _ comments initial) as [[[]|e] st]; [|subst e; eauto].
  destruct T as [Hhd Hind]. cbn [lines]. unfold mbind at 1, M_bind at 1, line.
  destruct hdr as [|c hdr]; [congruence|]. cbn [PyStr.head].
  cbn [PyStr.starts_with_char] in Hh. rewrite Hh.
  unfold mbind at 1, M_bind at 1, gets. rewrite Hhd.
  rewrite header_line_eq by exact Hind. cbv zeta.
  destruct (bool_decide ("obs" ∈ _)); [|eauto].
  cbn [andb] in Hcols. rewrite Hcols. eauto.
Qed.

(** X12 on a file with a metadata line and a header without fcst. *)
Lemma missing_column_witness :
  exists e o,
    load ["# variable: T" ++ newline; "date obs" ++ newline; "1 2" ++ newline]
    = (Fail e, o)
    /\ (e = IndexError
        \/ e = MissingColumn "f"
                 (if bool_decide ("obs" ∈ PyStr.split ("date obs" ++ newline))
                  then "fcst" else "obs")).
Proof.
  apply (header_without_required_column_is_refused
           SetOrder.insertion SetOrder.insertion
           (text_world ["# variable: T" ++ newline; "date obs" ++ newline;
                        "1 2" ++ newline]) "f"
           ["# variable: T" ++ newline] ("date obs" ++ newline) ["1 2" ++ newline]).
  - reflexivity.
  - constructor; [reflexivity | constructor].
  - reflexivity.
  - discriminate.
  - vm_compute. reflexivity.
Defined.

(** X13: [_clean] raises ValueError exactly on the strings [float()]
    refuses, leaving the state as it was, and never returns -999: the
    sentinel comes back as NaN. *)
Theorem clean_never_returns_the_sentinel value st :
  match _clean value st with
  | (Ret v, _) =>
      b64_eqb (fval v) (of_Z (-999)) = false
      /\ exists u, float value = Some u
                   /\ fval v = if b64_eqb u (of_Z (-999)) then S754_nan else u
  | (Fail e, st') => e = ValueError /\ float value = None /\ st' = st
  end.
Proof.
  rewrite _clean_eq. destruct (float value) as [u|]; [|auto].
  destruct (b64_eqb u (of_Z (-999))) eqn:E; cbn [fval np_nan].
  - split; [vm_compute; reflexivity|]. exists u. rewrite E. auto.
  - split; [exact E|]. exists u. rewrite E. auto.
Qed.

(** *** Files that load *)

Lemma comment_line_ok filename l st :
  metadata_ok l = true ->
  exists st', comment_line filename l st = (Ret tt, st')
              /\ header st' = header st /\ indices st' = indices st.
Proof.
  unfold metadata_ok, comment_line. cbv zeta. unfold mbind, M_bind, list_get.
  destruct (PyStr.split (PyStr.tail l)) as [|word [|word' words]]; [discriminate| |].
  - intros Hu. cbn [lookup list_lookup mret M_ret].
    destruct (String.eqb word "variable:"); [eexists; split; [reflexivity|]; proj; auto|].
    destruct (String.eqb word "units:"); [discriminate|].
    eexists. split; [reflexivity|]. proj. auto.
  - intros _. cbn [lookup list_lookup mret M_ret].
    destruct (String.eqb word "variable:"); [eexists; split; [reflexivity|]; proj; auto|].
    destruct (String.eqb word "units:"); eexists; (split; [reflexivity|]); proj; auto.
Qed.

Lemma forallb_numeric (g : string -> string) l :
  forallb (fun f => Util.is_number (g f)) l = true ->
  Forall (fun f => float (g f) = None -> False) l.
Proof.
  intros H. apply Forall_forall. intros f Hf E.
  pose proof (proj1 (forallb_forall _ l) H f (proj1 (list_elem_of_In _ _) Hf)) as Hn.
  unfold Util.is_number in Hn. cbv beta in Hn. rewrite E in Hn. discriminate.
Qed.

Lemma well_formed_lines filename file st :
  between_lines st ->
  match header st with
  | Some h => forallb (fun f => Util.is_number (PyStr.tail f))
                      (_get_quantile_fields h ++ _get_threshold_fields h) = true
  | None => True
  end ->
  well_formed (header st) file = true ->
  exists st', lines filename file st = (Ret tt, st').
Proof.
  revert st. induction file as [|l file IH]; intros st HI Hlev Hwf; [eexists; reflexivity|].
  cbn [well_formed] in Hwf. cbn [lines]. unfold mbind at 1, M_bind at 1, line.
  destruct l as [|c l].
  { cbn [PyStr.starts_with_char] in Hwf. rewrite String.eqb_refl in Hwf. discriminate. }
  cbn [PyStr.head]. cbn [PyStr.starts_with_char] in Hwf.
  destruct (Ascii.eqb c "#").
  - apply andb_true_iff in Hwf as [Hm Hwf].
    destruct (comment_line_ok filename (String c l) st Hm) as (st1 & -> & Hh & Hi).
    apply IH.
    + unfold between_lines. rewrite Hh, Hi. exact HI.
    + rewrite Hh. exact Hlev.
    + rewrite Hh. exact Hwf.
  - apply andb_true_iff in Hwf as [_ Hwf]. unfold mbind at 1, M_bind at 1, gets.
    unfold between_lines in HI. destruct (header st) as [h|] eqn:Hh.
    + apply andb_true_iff in Hwf as [Hrow Hwf]. unfold row_ok in Hrow.
      apply andb_true_iff in Hrow as [Hrow Hnum].
      apply andb_true_iff in Hrow as [Hlen H256].
      apply Nat.eqb_eq in Hlen. apply Nat.leb_le in H256.
      assert (len_is (length (PyStr.split (String c l))) (length h) = true) as Hlen'.
      { apply len_is_spec. split; [exact Hlen | lia]. }
      pose proof (data_row_triple h (indices st) (String c l) (PyStr.split (String c l))
                    (fun _ => False) HI
                    (fun H => eq_ind true (fun b => if b then True else False) I false
                                     (eq_trans (eq_sym Hlen') H))
                    (forallb_numeric (fun v => v) _ Hnum)
                    (forallb_numeric PyStr.tail _ Hlev) st (conj Hh eq_refl)) as T.
      destruct (data_row h (String c l) (PyStr.split (String c l)) st)
        as [[[]|e] st1]; [|destruct T].
      destruct T as [Hh1 Hi1]. apply IH.
      * unfold between_lines. rewrite Hh1, Hi1. exact HI.
      * rewrite Hh1. exact Hlev.
      * rewrite Hh1. exact Hwf.
    + apply andb_true_iff in Hwf as [Hhdr Hwf]. unfold header_ok in Hhdr.
      apply andb_true_iff in Hhdr as [Hhdr Hlevels].
      apply andb_true_iff in Hhdr as [Hobs Hfcst].
      rewrite header_line_eq by exact HI. cbv zeta. rewrite Hobs, Hfcst.
      apply IH.
      * unfold between_lines. proj. apply columns_of_header.
        -- eapply bool_decide_eq_true_1, Hobs.
        -- eapply bool_decide_eq_true_1, Hfcst.
      * proj. exact Hlevels.
      * proj. exact Hwf.
Qed.

(** X29: a file loads, with the snapshot as its result, when every
    metadata line has a word after the "#" (and a value after "units:"),
    the first other line has the columns obs and fcst and a number after
    the letter of every quantile and threshold column, and every line
    after it has as many fields as the header, at most 256, all of them
    numbers. *)
Theorem well_formed_files_load itf itl w filename file :
  open_lines w (expanduser w filename) = Some file ->
  well_formed None file = true ->
  exists t o, __init__ itf itl w filename = (Ret t, o).
Proof.
  intros Hopen Hwf. unfold __init__. cbv zeta. rewrite Hopen.
  destruct (well_formed_lines (expanduser w filename) file initial
              between_lines_initial I Hwf) as [st ->].
  eauto.
Qed.

(** X29 on the file of the decoder's description. *)
Lemma well_formed_files_witness :
  exists t o, load example_file = (Ret t, o).
Proof.
  apply (well_formed_files_load SetOrder.insertion SetOrder.insertion
           (text_world example_file) "f" example_file).
  - reflexivity.
  - vm_compute. reflexivity.
Defined.

(** *** The lines that are ignored *)

Lemma data_row_ignoring hdr rowstr row st st' :
  data_row hdr rowstr row st = (Ret tt, st') ->
  List.filter is_ignoring (out st') = List.filter is_ignoring (out st).
Proof.
  intros H. apply data_row_Ret in H as (k & st1 & Hk & Hs).
  apply row_key_Ret in Hk
    as (date & offset & id & cLat & cLon & cElev & n & location
        & _ & _ & _ & _ & _ & _ & -> & Hst).
  apply store_row_Ret in Hs as (Hsame & _).
  destruct Hsame as (_ & _ & _ & _ & _ & _ & _ & _ & _ & _ & _ & Hout).
  rewrite Hout. clear Hout. cbv zeta in Hst.
  destruct (known_id st id).
  - destruct Hst as (_ & ->).
    destruct (_ && _); unfold base_after; proj; [|reflexivity].
    rewrite List.filter_app. unfold conflict_events. cbn [List.filter is_ignoring].
    apply app_nil_r.
  - destruct Hst as (_ & idk & _ & ->). unfold base_after. proj. reflexivity.
Qed.

Lemma line_ignoring filename l st st' :
  line filename l st = (Ret tt, st') ->
  List.filter is_ignoring (out st')
  = (List.filter is_ignoring (out st)
     ++ if unknown_metadata l
        then [Warned (IgnoringLine (PyStr.strip l) filename)] else [])%list.
Proof.
  unfold line, unknown_metadata. destruct l as [|c l]; [discriminate|].
  cbn [PyStr.head PyStr.starts_with_char].
  destruct (Ascii.eqb c "#"); cbn [andb].
  - unfold comment_line. intros H. step H as curr0 H0.
    unfold list_get in H0.
    destruct (PyStr.split (PyStr.tail (String c l))) as [|word words];
      cbn [lookup list_lookup] in H0; prim H0.
    destruct (String.eqb _ "variable:"); cbn [negb andb].
    { prim H. proj. symmetry. apply app_nil_r. }
    destruct (String.eqb _ "units:"); cbn [negb].
    + step H as curr1 H1. unfold list_get in H1. destruct (_ !! 1%nat); prim H1.
      prim H. proj. symmetry. apply app_nil_r.
    + prim H. proj. rewrite List.filter_app. reflexivity.
  - intros H. step H. rewrite app_nil_r. destruct (header st) as [h|].
    + eapply data_row_ignoring, H.
    + unfold header_line in H. step H. step H. apply require_columns_Ret in H as ->.
      reflexivity.
Qed.

Lemma lines_ignoring filename file st st' :
  lines filename file st = (Ret tt, st') ->
  List.filter is_ignoring (out st')
  = (List.filter is_ignoring (out st)
     ++ map (fun l => Warned (IgnoringLine (PyStr.strip l) filename))
            (List.filter unknown_metadata file))%list.
Proof.
  revert st. induction file as [|l file IH]; intros st H.
  - prim H. symmetry. apply app_nil_r.
  - apply lines_cons in H as (st1 & Hl & H). apply IH in H.
    apply line_ignoring in Hl. rewrite H, Hl, <- app_assoc. f_equal.
    cbn [List.filter]. destruct (unknown_metadata l); reflexivity.
Qed.

(** X30: a load that completes has warned of an ignored line once for
    every metadata line whose first word is neither "variable:" nor
    "units:", in the order of the lines, with the stripped line and the
    expanded file name, and of no other line. *)
Theorem unknown_metadata_lines_are_reported itf itl w filename file t o :
  open_lines w (expanduser w filename) = Some file ->
  __init__ itf itl w filename = (Ret t, o) ->
  List.filter is_ignoring o
  = map (fun l => Warned (IgnoringLine (PyStr.strip l) (expanduser w filename)))
        (List.filter unknown_metadata file).
Proof.
  intros Hopen. unfold __init__. cbv zeta. rewrite Hopen.
  destruct (lines _ file initial) as [[[]|e] st] eqn:H; [|discriminate].
  intros [= <- <-]. apply lines_ignoring in H. exact H.
Qed.

(** X30 on a file with one such line before the variable. *)
Lemma unknown_metadata_lines_witness :
  exists t o, load annotated_file = (Ret t, o)
              /\ List.filter is_ignoring o
                 = [Warned (IgnoringLine "# source: station" "f")].
Proof.
  assert (exists t o, load annotated_file = (Ret t, o)) as (t & o & E).
  { eexists _, _. vm_compute. reflexivity. }
  exists t, o. split; [exact E|].
  exact (unknown_metadata_lines_are_reported
           SetOrder.insertion SetOrder.insertion (text_world annotated_file) "f"
           annotated_file t o eq_refl E).
Defined.

(** *** The metadata *)

Lemma data_row_metadata hdr rowstr row st st' :
  data_row hdr rowstr row st = (Ret tt, st') ->
  _variable st' = _variable st /\ _units st' = _units st.
Proof.
  intros H. apply data_row_Ret in H as (k & st1 & Hk & Hs).
  destruct k as [[[[d o] la] lo] el].
  apply store_row_Ret in Hs as ((Hu & Hv & _) & _). rewrite Hu, Hv. clear Hu Hv.
  apply row_key_Ret in Hk
    as (date & offset & rid & cLat & cLon & cElev & n & location & _ & _ & _ & _ & _ & _
        & _ & Hst).
  cbv zeta in Hst. destruct (known_id st rid).
  - destruct Hst as (_ & ->). destruct (_ && _); unfold base_after; proj; auto.
  - destruct Hst as (_ & idk & _ & ->). unfold base_after; proj; auto.
Qed.

Lemma line_keeps_metadata filename rowstr st st' :
  PyStr.starts_with_char "#" rowstr = false ->
  line filename rowstr st = (Ret tt, st') ->
  _variable st' = _variable st /\ _units st' = _units st.
Proof.
  intros Hc H. unfold line in H. destruct rowstr as [|c rowstr]; [discriminate H|].
  cbn [PyStr.head] in H. cbn [PyStr.starts_with_char] in Hc. rewrite Hc in H.
  step H. destruct (header st) as [h|].
  - eapply data_row_metadata, H.
  - unfold header_line in H. step H. step H. apply require_columns_Ret in H as ->.
    proj. auto.
Qed.

Lemma lines_keep_metadata filename file st st' :
  Forall (fun l => PyStr.starts_with_char "#" l = false) file ->
  lines filename file st = (Ret tt, st') ->
  _variable st' = _variable st /\ _units st' = _units st.
Proof.
  intros Hf. revert st. induction Hf as [|l file Hl Hf IH]; intros st H.
  - injection H as <-. auto.
  - cbn [lines] in H. apply bind_Ret in H as ([] & st1 & H1 & H).
    apply (line_keeps_metadata _ _ _ _ Hl) in H1 as [E1 E2].
    apply IH in H as [E3 E4]. split; congruence.
Qed.

(** X14: a file without metadata lines gives the variable "Unknown" in
    "Unknown units". *)
Theorem variable_defaults_without_metadata itf itl w filename file t o :
  open_lines w (expanduser w filename) = Some file ->
  Forall (fun l => PyStr.starts_with_char "#" l = false) file ->
  __init__ itf itl w filename = (Ret t, o) ->
  variable t = mkVariable "Unknown" "Unknown units".
Proof.
  intros Hopen Hf H. apply init_Ret in H as (file' & st & Hopen' & Hrun & -> & _).
  rewrite Hopen in Hopen'. injection Hopen' as <-.
  apply (lines_keep_metadata _ _ _ _ Hf) in Hrun as [E1 E2].
  cbn [assemble variable]. rewrite E1, E2. reflexivity.
Qed.

(** X14 on a file of a header and two rows. *)
Lemma variable_defaults_witness :
  exists t o, load offsets_file = (Ret t, o)
              /\ variable t = mkVariable "Unknown" "Unknown units".
Proof.
  assert (exists t o, load offsets_file = (Ret t, o)) as (t & o & E).
  { eexists _, _. vm_compute. reflexivity. }
  exists t, o. split; [exact E|].
  apply (variable_defaults_without_metadata SetOrder.insertion SetOrder.insertion
           (text_world offsets_file) "f" offsets_file t o); [reflexivity| |exact E].
  repeat (apply List.Forall_cons; [reflexivity|]). apply List.Forall_nil.
Defined.

(** X15: the name of the variable is what follows "variable:" on the
    last metadata line, its words joined by single spaces, and the units
    are the first word after "units:", whatever follows it. *)
Theorem metadata_line_sets_the_variable
        itf itl w filename before l after t o :
  open_lines w (expanduser w filename) = Some (before ++ l :: after)%list ->
  PyStr.starts_with_char "#" l = true ->
  Forall (fun l' => PyStr.starts_with_char "#" l' = false) after ->
  __init__ itf itl w filename = (Ret t, o) ->
  (forall words, PyStr.split (PyStr.tail l) = "variable:" :: words ->
                 var_name (variable t) = PyStr.join words)
  /\ (forall u words, PyStr.split (PyStr.tail l) = "units:" :: u :: words ->
                      var_units (variable t) = u).
Proof.
  intros Hopen Hl Hafter H. apply init_Ret in H as (file' & st & Hopen' & Hrun & -> & _).
  rewrite Hopen in Hopen'. injection Hopen' as <-. rewrite lines_app in Hrun.
  destruct (lines _ before initial) as [[[]|e] st1]; [|discriminate].
  cbn [lines] in Hrun. apply bind_Ret in Hrun as ([] & st2 & H1 & H2).
  apply (lines_keep_metadata _ _ _ _ Hafter) in H2 as [E1 E2].
  cbn [assemble variable var_name var_units]. rewrite E1, E2. clear E1 E2.
  unfold line in H1. destruct l as [|c l]; [discriminate Hl|].
  cbn [PyStr.head] in H1. cbn [PyStr.starts_with_char] in Hl. rewrite Hl in H1.
  unfold comment_line in H1. cbv zeta in H1. cbn [PyStr.tail] in *.
  split.
  - intros words Hw. rewrite Hw in H1.
    unfold mbind, M_bind, list_get in H1. cbn in H1. injection H1 as <-. reflexivity.
  - intros u words Hw. rewrite Hw in H1.
    unfold mbind, M_bind, list_get in H1. cbn in H1. injection H1 as <-. reflexivity.
Qed.

(** X15 on the file of the decoder's description, whose last metadata
    line gives the units. *)
Lemma metadata_line_witness :
  exists t o, load example_file = (Ret t, o)
              /\ var_units (variable t) = "$^oC$".
Proof.
  assert (exists t o, load example_file = (Ret t, o)) as (t & o & E).
  { eexists _, _. vm_compute. reflexivity. }
  exists t, o. split; [exact E|].
  apply (proj2 (metadata_line_sets_the_variable
                  SetOrder.insertion SetOrder.insertion (text_world example_file) "f"
                  [nth 0 example_file ""] (nth 1 example_file "")
                  (List.skipn 2 example_file) t o
                  eq_refl eq_refl
                  ltac:(repeat (apply List.Forall_cons; [reflexivity|]);
                        apply List.Forall_nil)
                  E) "$^oC$" []).
  vm_compute. reflexivity.
Defined.

(** X16: a metadata line with nothing after the "#", or with "units:"
    and nothing after it, is not ignored: the load ends there with
    IndexError. *)
Theorem bare_metadata_line_raises_IndexError
        itf itl w filename before l after :
  open_lines w (expanduser w filename) = Some (before ++ l :: after)%list ->
  (lines (expanduser w filename) before initial).1 = Ret tt ->
  PyStr.starts_with_char "#" l = true ->
  PyStr.split (PyStr.tail l) = [] \/ PyStr.split (PyStr.tail l) = ["units:"] ->
  exists o, __init__ itf itl w filename = (Fail IndexError, o).
Proof.
  intros Hopen Hbefore Hl Hbare. unfold __init__. cbv zeta. rewrite Hopen, lines_app.
  destruct (lines _ before initial) as [[[]|e] st1]; [|discriminate Hbefore].
  cbn [lines]. unfold mbind at 1, M_bind at 1, line.
  destruct l as [|c l]; [discriminate Hl|].
  cbn [PyStr.head]. cbn [PyStr.starts_with_char] in Hl. rewrite Hl.
  unfold comment_line. cbv zeta. cbn [PyStr.tail] in *.
  destruct Hbare as [-> | ->]; cbn; eauto.
Qed.

(** X16 on a file that starts with a bare "#". *)
Lemma bare_metadata_line_witness :
  exists o, load ["#" ++ newline; "obs fcst" ++ newline] = (Fail IndexError, o).
Proof.
  apply (bare_metadata_line_raises_IndexError
           SetOrder.insertion SetOrder.insertion
           (text_world ["#" ++ newline; "obs fcst" ++ newline]) "f"
           [] ("#" ++ newline) ["obs fcst" ++ newline]).
  - reflexivity.
  - reflexivity.
  - reflexivity.
  - left. vm_compute. reflexivity.
Defined.

End LoadFacts.

(** ** What the snapshot of the text decoder holds *)

Module SnapshotFacts.
Import PyNum Facts Text TextNotions LoadNotions TextFacts.

(** A data row registers a new location, built from its own id,
    latitude, longitude and elevation with 0 for what is missing, or
    none. *)
Lemma data_row_locations hdr rowstr st st' :
  data_row hdr rowstr (PyStr.split rowstr) st = (Ret tt, st') ->
  _locations st' = _locations st
  \/ exists id cLat cLon cElev,
       read_column (indices st) (PyStr.split rowstr) "id" S754_nan = Some id
       /\ read_column (indices st) (PyStr.split rowstr) "lat" S754_nan = Some cLat
       /\ read_column (indices st) (PyStr.split rowstr) "lon" S754_nan = Some cLon
       /\ read_column (indices st) (PyStr.split rowstr) "elev" S754_nan = Some cElev
       /\ _locations st'
          = set_add loc_key (mkLocation id (or_zero cLat) (or_zero cLon) (or_zero cElev))
                    (_locations st).
Proof.
  intros H. apply data_row_Ret in H as (k & st1 & Hk & Hs).
  destruct k as [[[[d o] la] lo] el].
  apply store_row_Ret in Hs as ((_ & _ & _ & _ & Hl & _) & _). rewrite Hl. clear Hl.
  apply row_key_Ret in Hk
    as (date & offset & rid & cLat & cLon & cElev & n & location & _ & Hid & Hlat & Hlon
        & Helev & _ & _ & Hst).
  cbv zeta in Hst. destruct (known_id st rid).
  - left. destruct Hst as (_ & ->). destruct (_ && _); unfold base_after; proj; auto.
  - right. destruct Hst as (-> & idk & _ & ->). exists rid, cLat, cLon, cElev.
    unfold base_after; proj. auto.
Qed.

Lemma set_add_Forall {A K} `{EqDecision K} (key : A -> K) (Q : A -> Prop) x s :
  Q x -> Forall Q s -> Forall Q (set_add key x s).
Proof.
  intros Hx Hs. unfold set_add. destruct (decide _); [exact Hs|].
  apply Forall_app. split; [exact Hs|]. constructor; [exact Hx | constructor].
Qed.

(** A property of every location a data row can register holds of every
    location of the set. *)
Lemma run_locations_Forall (Q : Location -> Prop) (R : met_row -> Prop) filename :
  (forall r id cLat cLon cElev,
      R r ->
      read_column (indices (met_state r)) (PyStr.split (met_rowstr r)) "id" S754_nan
      = Some id ->
      read_column (indices (met_state r)) (PyStr.split (met_rowstr r)) "lat" S754_nan
      = Some cLat ->
      read_column (indices (met_state r)) (PyStr.split (met_rowstr r)) "lon" S754_nan
      = Some cLon ->
      read_column (indices (met_state r)) (PyStr.split (met_rowstr r)) "elev" S754_nan
      = Some cElev ->
      Q (mkLocation id (or_zero cLat) (or_zero cLon) (or_zero cElev))) ->
  forall file st st',
    lines filename file st = (Ret tt, st') ->
    Forall R (data_rows filename file st) ->
    Forall Q (_locations st) -> Forall Q (_locations st').
Proof.
  intros HQ. apply (run_ind filename
    (fun st rows st' => Forall R rows -> Forall Q (_locations st) ->
                        Forall Q (_locations st'))).
  - auto.
  - intros s hdr rowstr s1 rows s' Hdata Hrow IH HR Hs.
    apply Forall_cons in HR as [Hr HR]. apply IH; [exact HR|].
    apply data_row_locations in Hrow
      as [->|(id & cLat & cLon & cElev & Hid & Hlat & Hlon & Helev & ->)]; [exact Hs|].
    apply set_add_Forall; [|exact Hs].
    exact (HQ (mkMet s hdr rowstr) _ _ _ _ Hr Hid Hlat Hlon Helev).
  - intros s s1 rows s' Hq IH HR Hs. destruct Hq as (_ & _ & Hl & _).
    apply IH; [exact HR|]. rewrite Hl. exact Hs.
Qed.

(** The rows of a file are met under a header that has been read. *)
Lemma rows_under_a_header w filename r :
  r ∈ rows_of w filename -> columns_of (met_header r) (indices (met_state r)).
Proof.
  intros Hr. unfold rows_of in Hr.
  destruct (open_lines w _) as [file|]; [|apply elem_of_nil in Hr; destruct Hr].
  pose proof (LoadFacts.data_rows_between (expanduser w filename) file initial
                LoadFacts.between_lines_initial) as Hall.
  exact (proj2 (proj1 (Forall_forall _ _) Hall r Hr)).
Qed.

Lemma read_missing_column h ind row name dflt :
  columns_of h ind -> name ∉ h -> read_column ind row name dflt = Some dflt.
Proof.
  intros (Hall & _) Hn. unfold read_column.
  destruct (ind !! name) eqn:E; [|reflexivity].
  exfalso. apply Hn, Hall. rewrite E. eauto.
Qed.

Lemma assign_ids_Forall (Q : Location -> Prop) ls c :
  (forall l id, Q l -> Q (with_id l id)) ->
  Forall Q ls -> Forall Q (assign_ids ls c).
Proof.
  intros HQ Hls. revert c. induction Hls as [|l ls Hl Hls IH]; intros c;
    cbn [assign_ids]; [constructor|].
  destruct (isnan (loc_id l)); constructor; auto.
Qed.

Lemma Forall_perm {A} (Q : A -> Prop) l l' : l ≡ₚ l' -> Forall Q l' -> Forall Q l.
Proof. intros Hp H. rewrite Hp. exact H. Qed.

(** X17: where the header has no lat column every location of the
    snapshot has the latitude 0, and so for lon and elev: "a value of 0
    is used for any missing column". *)
Theorem missing_coordinate_columns_give_zero itf itl w filename t o :
  __init__ itf itl w filename = (Ret t, o) ->
  (Forall (fun r => "lat" ∉ met_header r) (rows_of w filename) ->
   Forall (fun l => loc_lat l = zero) (locations t))
  /\ (Forall (fun r => "lon" ∉ met_header r) (rows_of w filename) ->
      Forall (fun l => loc_lon l = zero) (locations t))
  /\ (Forall (fun r => "elev" ∉ met_header r) (rows_of w filename) ->
      Forall (fun l => loc_elev l = zero) (locations t)).
Proof.
  intros H. pose proof (rows_under_a_header w filename) as Hcols.
  apply init_Ret in H as (file & st & Hopen & Hrun & -> & _ & Hrows).
  rewrite Hrows in *. cbn [assemble locations].
  assert (forall (Q : Location -> Prop) name,
             (forall l id, Q l -> Q (with_id l id)) ->
             (forall r id cLat cLon cElev,
                 r ∈ data_rows (expanduser w filename) file initial
                 /\ name ∉ met_header r ->
                 read_column (indices (met_state r)) (PyStr.split (met_rowstr r))
                             "id" S754_nan = Some id ->
                 read_column (indices (met_state r)) (PyStr.split (met_rowstr r))
                             "lat" S754_nan = Some cLat ->
                 read_column (indices (met_state r)) (PyStr.split (met_rowstr r))
                             "lon" S754_nan = Some cLon ->
                 read_column (indices (met_state r)) (PyStr.split (met_rowstr r))
                             "elev" S754_nan = Some cElev ->
                 Q (mkLocation id (or_zero cLat) (or_zero cLon) (or_zero cElev))) ->
             Forall (fun r => name ∉ met_header r)
                    (data_rows (expanduser w filename) file initial) ->
             Forall Q (assign_ids (as_list itl (_locations st))
                                  (first_id (as_list itl (_locations st))))) as Hgen.
  { intros Q name Hid HQ Hname. apply assign_ids_Forall; [exact Hid|].
    eapply Forall_perm; [apply as_list_perm|].
    eapply (run_locations_Forall Q _ _ HQ _ _ _ Hrun); [|constructor].
    apply Forall_forall. intros r Hr. split; [exact Hr|].
    exact (proj1 (Forall_forall _ _) Hname r Hr). }
  split; [|split]; apply Hgen; try (intros l id Hl; exact Hl).
  - intros r id cLat cLon cElev [Hr Hn] _ Hlat _ _. cbn [loc_lat].
    rewrite (read_missing_column _ _ _ _ _ (Hcols r Hr) Hn) in Hlat.
    injection Hlat as <-. reflexivity.
  - intros r id cLat cLon cElev [Hr Hn] _ _ Hlon _. cbn [loc_lon].
    rewrite (read_missing_column _ _ _ _ _ (Hcols r Hr) Hn) in Hlon.
    injection Hlon as <-. reflexivity.
  - intros r id cLat cLon cElev [Hr Hn] _ _ _ Helev. cbn [loc_elev].
    rewrite (read_missing_column _ _ _ _ _ (Hcols r Hr) Hn) in Helev.
    injection Helev as <-. reflexivity.
Qed.

(** X17 on a file with a lat column only. *)
Lemma missing_coordinate_columns_witness :
  exists t o, load places_file = (Ret t, o)
              /\ Forall (fun l => loc_lon l = zero) (locations t).
Proof.
  assert (exists t o, load places_file = (Ret t, o)) as (t & o & E).
  { eexists _, _. vm_compute. reflexivity. }
  exists t, o. split; [exact E|].
  apply (proj1 (proj2 (missing_coordinate_columns_give_zero _ _ _ _ _ _ E))).
  match goal with
  | |- ?G => assert (bool_decide G = true) as B by (vm_compute; reflexivity);
             exact (bool_decide_eq_true_1 _ B)
  end.
Defined.

Lemma unassigned_before_all ls s :
  Forall unassigned ls -> (s <= length ls)%nat -> unassigned_before ls s = s.
Proof.
  intros Hls. revert s. induction Hls as [|l ls Hl Hls IH]; intros s Hs.
  - cbn in Hs. assert (s = 0%nat) as -> by lia. reflexivity.
  - destruct s as [|s]; [reflexivity|]. unfold unassigned_before. cbn [take].
    rewrite filter_cons, decide_True by exact Hl. cbn [length]. f_equal.
    apply IH. cbn in Hs. lia.
Qed.

Lemma first_id_all_unassigned ls : Forall unassigned ls -> first_id ls = zero.
Proof.
  intros Hls. destruct (first_id_spec ls) as [[_ H]|(m & (Hm & Hin & _) & _)]; [exact H|].
  apply list_elem_of_fmap in Hin as (l & -> & Hin).
  pose proof (proj1 (Forall_forall _ _) Hls l Hin) as Hl. unfold unassigned in Hl.
  congruence.
Qed.

(** X19: where the header has no id column the locations get the ids 0,
    1, 2, ... along the snapshot's location sequence: "If 'id' is not
    provided, then they are assigned sequentially starting at 0". *)
Theorem ids_are_sequential_without_id_column itf itl w filename t o :
  __init__ itf itl w filename = (Ret t, o) ->
  Forall (fun r => "id" ∉ met_header r) (rows_of w filename) ->
  forall s l, locations t !! s = Some l -> loc_id l = nth_id zero s.
Proof.
  intros H Hno. pose proof (rows_under_a_header w filename) as Hcols.
  apply init_Ret in H as (file & st & Hopen & Hrun & -> & _ & Hrows).
  rewrite Hrows in *. cbn [assemble locations].
  assert (Forall unassigned (as_list itl (_locations st))) as Hun.
  { eapply Forall_perm; [apply as_list_perm|].
    eapply (run_locations_Forall unassigned
              (fun r => r ∈ data_rows (expanduser w filename) file initial
                        /\ "id" ∉ met_header r) _ _ _ _ _ Hrun); [|constructor].
    apply Forall_forall. intros r Hr. split; [exact Hr|].
    exact (proj1 (Forall_forall _ _) Hno r Hr). }
  intros s l Hl. rewrite (first_id_all_unassigned _ Hun) in Hl.
  destruct (assign_ids_lookup _ _ _ _ Hl) as (l0 & Hl0 & _).
  rewrite (assign_ids_spec _ _ _ _ Hl0) in Hl. injection Hl as <-.
  pose proof (proj1 (Forall_forall _ _) Hun l0 (list_elem_of_lookup_2 _ _ _ Hl0)) as Hu.
  unfold unassigned in Hu. rewrite Hu. cbn [with_id loc_id].
  rewrite unassigned_before_all; [reflexivity | exact Hun|].
  apply lookup_lt_Some in Hl0. lia.
  Unshelve.
  intros r id cLat cLon cElev [Hr Hn] Hid _ _ _. unfold unassigned. cbn [loc_id].
  rewrite (read_missing_column _ _ _ _ _ (Hcols r Hr) Hn) in Hid.
  injection Hid as <-. reflexivity.
Qed.

(** X19 on a file with two places and no id column. *)
Lemma sequential_ids_witness :
  exists t o, load places_file = (Ret t, o)
              /\ map (fun l => fmt_g (loc_id l)) (locations t) = ["0"; "1"]
              /\ forall s l, locations t !! s = Some l -> loc_id l = nth_id zero s.
Proof.
  assert (exists t o, load places_file = (Ret t, o)
                      /\ map (fun l => fmt_g (loc_id l)) (locations t) = ["0"; "1"])
    as (t & o & E & Hids).
  { eexists _, _. split; [vm_compute; reflexivity | vm_compute; reflexivity]. }
  exists t, o. split; [exact E|]. split; [exact Hids|].
  apply (ids_are_sequential_without_id_column _ _ _ _ _ _ E).
  match goal with
  | |- ?G => assert (bool_decide G = true) as B by (vm_compute; reflexivity);
             exact (bool_decide_eq_true_1 _ B)
  end.
Defined.

(** The PIT table over a run: it stays as it was while the rows have no
    pit column, and it is not empty after a row that has one. *)
Lemma run_pit filename file st st' :
  lines filename file st = (Ret tt, st') ->
  let no_pit r := indices (met_state r) !! "pit" = None in
  (Forall no_pit (data_rows filename file st) -> pit st' = pit st)
  /\ (pit st <> ∅ \/ Exists (fun r => ~ no_pit r) (data_rows filename file st) ->
      pit st' <> ∅).
Proof.
  intros H. revert H. apply (run_ind filename
    (fun st rows st' =>
       let no_pit r := indices (met_state r) !! "pit" = None in
       (Forall no_pit rows -> pit st' = pit st)
       /\ (pit st <> ∅ \/ Exists (fun r => ~ no_pit r) rows -> pit st' <> ∅))).
  - intros s. cbv zeta. split; [reflexivity|]. intros [H|H]; [exact H|].
    apply Exists_nil in H. destruct H.
  - intros s hdr rowstr s1 rows s' Hdata Hrow [IH1 IH2]. cbv zeta.
    apply data_row_tables in Hrow as (k & _ & _ & _ & Hp & _). cbv zeta in Hp.
    split.
    + intros Hall. apply Forall_cons in Hall as [Hr Hall]. cbn [met_state] in Hr.
      rewrite Hr in Hp. rewrite (IH1 Hall). exact Hp.
    + intros Hex. apply IH2. destruct (indices s !! "pit") as [i|] eqn:Ei.
      * left. destruct Hp as (v & _ & ->). apply insert_non_empty.
      * rewrite Hp. destruct Hex as [Hne|Hex]; [left; exact Hne|].
        apply Exists_cons in Hex as [Hr|Hex]; [|right; exact Hex].
        cbn [met_state] in Hr. congruence.
  - intros s s1 rows s' Hq [IH1 IH2].
    destruct Hq as (_ & _ & _ & _ & _ & _ & _ & _ & Hp & _). cbv zeta.
    rewrite <- Hp. split; assumption.
Qed.

(** X20: the snapshot has a PIT array exactly when some data row was
    read under a header with a pit column; a file without data rows has
    none, whatever its header says. *)
Theorem pit_array_is_present_iff itf itl w filename t o :
  __init__ itf itl w filename = (Ret t, o) ->
  _pit t = None <-> Forall (fun r => "pit" ∉ met_header r) (rows_of w filename).
Proof.
  intros H. pose proof (rows_under_a_header w filename) as Hcols.
  apply init_Ret in H as (file & st & Hopen & Hrun & -> & _ & Hrows).
  rewrite Hrows in *. cbn [assemble _pit].
  pose proof (run_pit _ _ _ _ Hrun) as [H1 H2]. cbv zeta in H1, H2.
  cbn [initial pit] in H1, H2.
  assert (forall r, r ∈ data_rows (expanduser w filename) file initial ->
                    "pit" ∉ met_header r <-> indices (met_state r) !! "pit" = None)
    as Hiff.
  { intros r Hr. destruct (Hcols r Hr) as (Hall & _). rewrite (Hall "pit").
    destruct (indices (met_state r) !! "pit"); split; try congruence.
    - intros Hn. exfalso. apply Hn. eauto.
    - intros _ [? [=]]. }
  split.
  - intros Hnone. apply Forall_forall. intros r Hr. apply (Hiff r Hr).
    destruct (indices (met_state r) !! "pit") as [i|] eqn:Ei; [|reflexivity].
    exfalso. assert (pit st <> ∅) as Hne.
    { apply H2. right. apply Exists_exists. exists r. split; [exact Hr|]. congruence. }
    destruct (size (pit st) =? 0)%nat eqn:Es; [|discriminate Hnone].
    apply Nat.eqb_eq, map_size_empty_iff in Es. contradiction.
  - intros Hall. rewrite H1.
    + rewrite map_size_empty. reflexivity.
    + apply Forall_forall. intros r Hr. apply (Hiff r Hr).
      exact (proj1 (Forall_forall _ _) Hall r Hr).
Qed.

(** X20 on the file with a pit column. *)
Lemma pit_array_witness :
  exists t o, load repeated_file = (Ret t, o)
              /\ (_pit t = None
                  <-> Forall (fun r => "pit" ∉ met_header r)
                             (rows_of (text_world repeated_file) "f")).
Proof.
  assert (exists t o, load repeated_file = (Ret t, o)) as (t & o & E).
  { eexists _, _. vm_compute. reflexivity. }
  exists t, o. split; [exact E|].
  exact (pit_array_is_present_iff _ _ _ _ _ _ E).
Defined.

(** The level sets over a run without data rows. *)
Lemma run_without_rows filename file st st' :
  lines filename file st = (Ret tt, st') ->
  data_rows filename file st = [] ->
  _dates st' = _dates st /\ _offsets st' = _offsets st
  /\ _locations st' = _locations st
  /\ _quantiles st' = _quantiles st /\ _thresholds st' = _thresholds st
  /\ pit st' = pit st.
Proof.
  intros H. revert H. apply (run_ind filename
    (fun st rows st' =>
       rows = [] ->
       _dates st' = _dates st /\ _offsets st' = _offsets st
       /\ _locations st' = _locations st
       /\ _quantiles st' = _quantiles st /\ _thresholds st' = _thresholds st
       /\ pit st' = pit st)).
  - intros s _. repeat split.
  - intros s hdr rowstr s1 rows s' _ _ _ [=].
  - intros s s1 rows s' Hq IH Hrows.
    destruct Hq as (Hd & Ho & Hl & Hqs & Hts & _ & _ & _ & Hp & _).
    rewrite <- Hd, <- Ho, <- Hl, <- Hqs, <- Hts, <- Hp. exact (IH Hrows).
Qed.

Lemma as_list_nil {A} (it : iteration A) : as_list it [] = [].
Proof. apply Permutation_nil_r, as_list_perm. Qed.

(** X21: a file without data rows, be it empty, or metadata and a
    header only, gives a snapshot without dates, offsets, locations,
    thresholds and quantiles, with arrays of no cells and no PIT
    array. *)
Theorem without_data_rows_the_snapshot_is_empty itf itl w filename t o :
  __init__ itf itl w filename = (Ret t, o) ->
  rows_of w filename = [] ->
  dates t = [] /\ offsets t = [] /\ locations t = []
  /\ thresholds t = [] /\ quantiles t = []
  /\ self_obs t = [] /\ deterministic t = []
  /\ threshold_scores t = [] /\ quantile_scores t = []
  /\ _pit t = None.
Proof.
  intros H Hnone. apply init_Ret in H as (file & st & Hopen & Hrun & -> & _ & Hrows).
  rewrite Hrows in Hnone.
  destruct (run_without_rows _ _ _ _ Hrun Hnone) as (Hd & Ho & Hl & Hq & Ht & Hp).
  cbn [initial _dates _offsets _locations _quantiles _thresholds pit] in *.
  cbn [assemble dates offsets locations thresholds quantiles self_obs deterministic
       threshold_scores quantile_scores _pit].
  rewrite Hd, Ho, Hl, Hq, Ht, Hp, !as_list_nil, map_size_empty.
  repeat split.
Qed.

(** X21 on a file of a metadata line and a header. *)
Lemma empty_snapshot_witness :
  exists t o,
    load ["# variable: T" ++ newline; "obs fcst p10" ++ newline] = (Ret t, o)
    /\ thresholds t = [] /\ self_obs t = [].
Proof.
  assert (exists t o,
             load ["# variable: T" ++ newline; "obs fcst p10" ++ newline] = (Ret t, o))
    as (t & o & E).
  { eexists _, _. vm_compute. reflexivity. }
  exists t, o. split; [exact E|].
  assert (rows_of (text_world ["# variable: T" ++ newline; "obs fcst p10" ++ newline])
                  "f" = []) as Hrows by (vm_compute; reflexivity).
  destruct (without_data_rows_the_snapshot_is_empty _ _ _ _ _ _ E Hrows)
    as (_ & _ & _ & Ht & _ & Hobs & _).
  split; [exact Ht | exact Hobs].
Defined.

(** *** Missing date and offset columns *)

(** Without a date column the row is stored under the date of the row
    before, and likewise for the offset. *)
Lemma row_key_defaults hdr rowstr row st k st' :
  row_key hdr rowstr row st = (Ret k, st') ->
  (indices st !! "date" = None -> date_of k = date st)
  /\ (indices st !! "offset" = None -> offset_of k = offset st)
  /\ date st' = date_of k /\ offset st' = offset_of k.
Proof.
  intros H. pose proof H as H'. unfold row_key in H.
  step H as [] H0. destruct (len_is _ _); cbn [negb] in H0; prim H0.
  step H.
  step H as date H0. rewrite column_or_eq in H0.
  assert (indices st !! "date" = None -> date = Text.date st /\ s = st) as Hdate.
  { intros E. rewrite E in H0. injection H0 as <- <-. auto. }
  assert (indices s = indices st /\ offset s = offset st) as [Hi Ho].
  { destruct (indices st !! "date") as [i|]; [|injection H0 as <- <-; auto].
    destruct (row !! i) as [value|]; [|discriminate]. rewrite _clean_eq in H0.
    destruct (float value); [|discriminate]. injection H0 as <- <-. proj. auto. }
  clear H0. do 2 step H. proj.
  step H. proj.
  step H as offset H0. rewrite column_or_eq in H0. proj. rewrite Hi, Ho in H0.
  assert (indices st !! "offset" = None -> offset = Text.offset st) as Hoffset.
  { intros E. rewrite E in H0. injection H0 as <- _. reflexivity. }
  clear H0.
  apply row_key_Ret in H'
    as (date' & offset' & rid & cLat & cLon & cElev & n & location & _ & _ & _ & _ & _ & _
        & -> & Hst).
  do 2 step H. step H as ? H0. clear H0. step H as ? H0. clear H0.
  step H as ? H0. clear H0. step H as ? H0. clear H0. step H.
  step H as [] H0. clear H0. step H. step H as location' H1. clear H1. prim H.
  match goal with E : (_, _, _, _, _) = (_, _, _, _, _) |- _ => injection E as <- <- _ _ _ end.
  unfold date_of, offset_of. cbn [fst snd].
  split; [intros E; apply Hdate, E|]. split; [exact Hoffset|].
  cbv zeta in Hst. destruct (known_id st rid).
  - destruct Hst as (_ & ->). destruct (_ && _); unfold base_after; proj; auto.
  - destruct Hst as (_ & idk & _ & ->). unfold base_after; proj; auto.
Qed.

Lemma data_row_defaults hdr rowstr st st' :
  data_row hdr rowstr (PyStr.split rowstr) st = (Ret tt, st') ->
  exists k,
    key_of (mkMet st hdr rowstr) = Some k
    /\ date st' = date_of k /\ offset st' = offset_of k
    /\ (indices st !! "date" = None -> date_of k = date st)
    /\ (indices st !! "offset" = None -> offset_of k = offset st).
Proof.
  intros H. apply data_row_Ret in H as (k & st1 & Hk & Hs). exists k.
  unfold key_of. cbn [met_state met_header met_rowstr]. rewrite Hk.
  destruct k as [[[[d o] la] lo] el].
  apply store_row_Ret in Hs as ((_ & _ & _ & _ & _ & _ & _ & Ho & Hd & _) & _).
  apply row_key_defaults in Hk as (H1 & H2 & H3 & H4).
  rewrite Ho, Hd. auto.
Qed.

Lemma run_defaults filename file st st' :
  lines filename file st = (Ret tt, st') ->
  let rows := data_rows filename file st in
  (Forall (fun r => indices (met_state r) !! "date" = None) rows ->
   Forall (fun k => date_of k = date st) (omap key_of rows))
  /\ (Forall (fun r => indices (met_state r) !! "offset" = None) rows ->
      Forall (fun k => offset_of k = offset st) (omap key_of rows)).
Proof.
  intros H. revert H. apply (run_ind filename
    (fun st rows st' =>
       (Forall (fun r => indices (met_state r) !! "date" = None) rows ->
        Forall (fun k => date_of k = date st) (omap key_of rows))
       /\ (Forall (fun r => indices (met_state r) !! "offset" = None) rows ->
           Forall (fun k => offset_of k = offset st) (omap key_of rows)))).
  - intros s. split; intros _; constructor.
  - intros s hdr rowstr s1 rows s' Hdata Hrow [IH1 IH2].
    apply data_row_defaults in Hrow as (k & Hk & Hd & Ho & Hd0 & Ho0).
    rewrite (omap_cons_Some _ _ _ _ Hk). split.
    + intros Hall. apply Forall_cons in Hall as [Hr Hall]. cbn [met_state] in Hr.
      specialize (Hd0 Hr). constructor; [exact Hd0|].
      rewrite <- Hd0, <- Hd. exact (IH1 Hall).
    + intros Hall. apply Forall_cons in Hall as [Hr Hall]. cbn [met_state] in Hr.
      specialize (Ho0 Hr). constructor; [exact Ho0|].
      rewrite <- Ho0, <- Ho. exact (IH2 Hall).
  - intros s s1 rows s' Hq [IH1 IH2].
    destruct Hq as (_ & _ & _ & _ & _ & _ & _ & _ & _ & _ & Ho & Hd & _).
    rewrite <- Ho, <- Hd. split; assumption.
Qed.

Lemma foldl_set_add_same {A K} `{EqDecision K} (key : A -> K) x l :
  Forall (fun a => a = x) l ->
  foldl (fun s a => set_add key a s) [x] l = [x].
Proof.
  induction 1 as [|a l -> Hl IH]; [reflexivity|]. cbn [foldl]. unfold set_add at 2.
  rewrite decide_True by (cbn; left). exact IH.
Qed.

Lemma distinct_same {A K} `{EqDecision K} (key : A -> K) x l :
  Forall (fun a => a = x) l ->
  distinct key l = match l with [] => [] | _ => [x] end.
Proof.
  intros Hl. destruct Hl as [|a l -> Hl]; [reflexivity|]. unfold distinct.
  cbn [foldl]. apply foldl_set_add_same, Hl.
Qed.

Lemma as_list_singleton {A} (it : iteration A) x : as_list it [x] = [x].
Proof. apply Permutation_singleton_r, as_list_perm. Qed.

(** X22: where the header has no date column the rows are stored under
    the date 0, and where it has no offset column under the offset 0, so
    that the snapshot has the one date, or offset, 0 as soon as there
    is a data row: "a value of 0 is used for any missing column". *)
Theorem missing_date_and_offset_columns_give_zero itf itl w filename t o :
  __init__ itf itl w filename = (Ret t, o) ->
  (Forall (fun r => "date" ∉ met_header r) (rows_of w filename) ->
   dates t = match rows_of w filename with [] => [] | _ => [zero] end)
  /\ (Forall (fun r => "offset" ∉ met_header r) (rows_of w filename) ->
      offsets t = match rows_of w filename with [] => [] | _ => [zero] end).
Proof.
  intros H. pose proof (rows_under_a_header w filename) as Hcols.
  apply init_Ret in H as (file & st & Hopen & Hrun & -> & _ & Hrows).
  rewrite Hrows in *.
  pose proof (run_sets _ _ _ _ Hrun) as (Hlen & Hd & Ho & _).
  pose proof (run_defaults _ _ _ _ Hrun) as [Hd0 Ho0]. cbv zeta in Hd0, Ho0.
  cbn [initial _dates _offsets date offset] in *.
  cbn [assemble dates offsets]. rewrite Hd, Ho.
  assert (forall name r,
             r ∈ data_rows (expanduser w filename) file initial ->
             name ∉ met_header r -> indices (met_state r) !! name = None) as Hnone.
  { intros name r Hr Hn. destruct (Hcols r Hr) as (Hall & _).
    destruct (indices (met_state r) !! name) eqn:E; [|reflexivity].
    exfalso. apply Hn, Hall. eauto. }
  assert (forall (l : list coords) (f : coords -> pyfloat),
             Forall (fun k => f k = mkFloat zero 0) l ->
             map fval (as_list itf (foldl (fun s a => set_add fkey a s) [] (map f l)))
             = match l with [] => [] | _ => [zero] end) as Hone.
  { intros l f Hl.
    pose proof (distinct_same fkey (mkFloat zero 0) (map f l)) as E. unfold distinct in E.
    rewrite E by (apply Forall_fmap; exact Hl).
    destruct l; cbn [map]; [rewrite as_list_nil | rewrite as_list_singleton]; reflexivity. }
  assert (forall A B (l : list A) (l' : list B) (x : list b64),
             length l = length l' ->
             match l with [] => [] | _ => x end = match l' with [] => [] | _ => x end)
    as Hmatch.
  { intros A B [|a l] [|b l'] x; cbn; intros [=]; reflexivity. }
  split; intros Hno.
  - rewrite Hone.
    + apply Hmatch, Hlen.
    + apply Hd0. apply Forall_forall. intros r Hr.
      exact (Hnone "date" r Hr (proj1 (Forall_forall _ _) Hno r Hr)).
  - rewrite Hone.
    + apply Hmatch, Hlen.
    + apply Ho0. apply Forall_forall. intros r Hr.
      exact (Hnone "offset" r Hr (proj1 (Forall_forall _ _) Hno r Hr)).
Qed.

(** X22 on a file without date and offset columns. *)
Lemma missing_date_column_witness :
  exists t o, load places_file = (Ret t, o) /\ dates t = [zero].
Proof.
  assert (exists t o, load places_file = (Ret t, o)) as (t & o & E).
  { eexists _, _. vm_compute. reflexivity. }
  exists t, o. split; [exact E|].
  assert (Forall (fun r => "date" ∉ met_header r)
                 (rows_of (text_world places_file) "f")) as Hno.
  { match goal with
    | |- ?G => assert (bool_decide G = true) as B by (vm_compute; reflexivity);
               exact (bool_decide_eq_true_1 _ B)
    end. }
  rewrite (proj1 (missing_date_and_offset_columns_give_zero _ _ _ _ _ _ E) Hno).
  vm_compute. reflexivity.
Defined.

(** *** The thresholds and the quantiles *)

Lemma key_eqb a b :
  isnan a = false -> key_val a = key_val b -> b64_eqb a b = true.
Proof.
  unfold b64_eqb, SFeqb.
  destruct a as [sa|sa| |sa ma ea], b as [sb|sb| |sb mb eb]; cbn;
    try discriminate; try reflexivity.
  - intros _ [= ->]. destruct sb; reflexivity.
  - intros _ [= -> -> ->]. rewrite Z.compare_refl, Pos.compare_cont_refl.
    destruct sb; reflexivity.
Qed.

(** A number is the level of a field of the header. *)
Lemma level_field_Some fields v :
  isnan v = false ->
  is_Some (level_field fields v) <->
  exists f u, f ∈ fields /\ float (PyStr.tail f) = Some u /\ b64_eqb u v = true.
Proof.
  intros Hv. induction fields as [|f fields IH].
  - cbn. split; [intros [? [=]] | intros (f & u & H & _); apply elem_of_nil in H; destruct H].
  - rewrite level_field_cons. destruct (level_field fields v) as [g|] eqn:Eg.
    + split; [intros _ | eauto]. destruct (proj1 IH (ex_intro _ g eq_refl))
        as (f' & u & Hin & Hf & Hu).
      exists f', u. split; [right; exact Hin | auto].
    + assert (forall f' u, f' ∈ fields -> float (PyStr.tail f') = Some u ->
                           b64_eqb u v = true -> False) as Hnone.
      { intros f' u Hin Hf Hu. destruct (proj2 IH) as [? [=]]. eauto. }
      destruct (float (PyStr.tail f)) as [u|] eqn:Ef.
      * destruct (bool_decide (key_val u = key_val v) && negb (isnan u)) eqn:Ek.
        -- split; [intros _ | eauto]. exists f, u. split; [left|]. split; [exact Ef|].
           apply andb_true_iff in Ek as [Ek En]. apply bool_decide_eq_true_1 in Ek.
           apply key_eqb; [|exact Ek]. destruct (isnan u); [discriminate | reflexivity].
        -- split; [intros [? [=]]|]. intros (f' & u' & Hin & Hf & Hu). exfalso.
           apply elem_of_cons in Hin as [->|Hin]; [|eauto].
           rewrite Ef in Hf. injection Hf as <-.
           apply b64_eqb_key in Hu as (Hk & Hn & _).
           rewrite (bool_decide_eq_true_2 _ Hk), Hn in Ek. discriminate.
      * split; [intros [? [=]]|]. intros (f' & u' & Hin & Hf & Hu). exfalso.
        apply elem_of_cons in Hin as [->|Hin]; [congruence | eauto].
Qed.

Lemma run_levels filename file st st' v :
  isnan v = false ->
  lines filename file st = (Ret tt, st') ->
  let rows := data_rows filename file st in
  ((key_val v, 0%N) ∈ map fkey (_thresholds st') <->
   (key_val v, 0%N) ∈ map fkey (_thresholds st)
   \/ Exists (fun r => is_Some (level_field (_get_threshold_fields (met_header r)) v))
             rows)
  /\ ((key_val v, 0%N) ∈ map fkey (_quantiles st') <->
      (key_val v, 0%N) ∈ map fkey (_quantiles st)
      \/ Exists (fun r => is_Some (level_field (_get_quantile_fields (met_header r)) v))
                rows).
Proof.
  intros Hv H. revert H. apply (run_ind filename
    (fun st rows st' =>
       ((key_val v, 0%N) ∈ map fkey (_thresholds st') <->
        (key_val v, 0%N) ∈ map fkey (_thresholds st)
        \/ Exists (fun r => is_Some (level_field (_get_threshold_fields (met_header r)) v))
                  rows)
       /\ ((key_val v, 0%N) ∈ map fkey (_quantiles st') <->
           (key_val v, 0%N) ∈ map fkey (_quantiles st)
           \/ Exists (fun r => is_Some (level_field (_get_quantile_fields (met_header r))
                                                    v)) rows))).
  - intros s. rewrite !Exists_nil. tauto.
  - intros s hdr rowstr s1 rows s' Hdata Hrow [IH1 IH2].
    apply data_row_tables in Hrow as (k & _ & _ & _ & _ & Hq & _ & _ & Ht & _).
    specialize (Hq v Hv). specialize (Ht v Hv).
    rewrite !Exists_cons. cbn [met_header]. rewrite IH1, IH2, Hq, Ht. tauto.
  - intros s s1 rows s' Hq [IH1 IH2].
    destruct Hq as (_ & _ & _ & Hqs & Hts & _). rewrite <- Hqs, <- Hts.
    split; assumption.
Qed.

Lemma has_level_keys (l : list pyfloat) v :
  isnan v = false ->
  has_level (map fval l) v <-> (key_val v, 0%N) ∈ map fkey l.
Proof.
  intros Hv. unfold has_level. rewrite list_elem_of_fmap. split.
  - intros (u & Hu & He). apply list_elem_of_fmap in Hu as (f & -> & Hf).
    exists f. split; [|exact Hf]. apply b64_eqb_key in He as (Hk & Hn & _).
    rewrite (fkey_not_nan _ Hn), Hk. reflexivity.
  - intros (f & Hk & Hf). exists (fval f). split; [apply list_elem_of_fmap; eauto|].
    symmetry in Hk. apply (fkey_level _ _ Hv) in Hk.
    apply andb_true_iff in Hk as [Hk Hn]. apply bool_decide_eq_true_1 in Hk.
    apply key_eqb; [|exact Hk]. destruct (isnan (fval f)); [discriminate | reflexivity].
Qed.

(** X18: a number is a threshold of the snapshot exactly when some data
    row was read under a header with a column "p" followed by that
    number, other than "pit"; and a quantile exactly when a column "q"
    followed by it was there.  The number after the letter is taken as
    it is. *)
Theorem levels_come_from_the_header itf itl w filename t o v :
  __init__ itf itl w filename = (Ret t, o) ->
  isnan v = false ->
  (has_level (thresholds t) v <->
   exists r f u, r ∈ rows_of w filename /\ f ∈ _get_threshold_fields (met_header r)
                 /\ float (PyStr.tail f) = Some u /\ b64_eqb u v = true)
  /\ (has_level (quantiles t) v <->
      exists r f u, r ∈ rows_of w filename /\ f ∈ _get_quantile_fields (met_header r)
                    /\ float (PyStr.tail f) = Some u /\ b64_eqb u v = true).
Proof.
  intros H Hv. apply init_Ret in H as (file & st & Hopen & Hrun & -> & _ & Hrows).
  rewrite Hrows. cbn [assemble thresholds quantiles].
  pose proof (run_levels _ _ _ _ v Hv Hrun) as [Ht Hq]. cbv zeta in Ht, Hq.
  cbn [initial _thresholds _quantiles map] in Ht, Hq.
  rewrite !(has_level_keys _ _ Hv).
  assert (forall l : list pyfloat,
             (key_val v, 0%N) ∈ map fkey (as_list itf l) <-> (key_val v, 0%N) ∈ map fkey l)
    as Hperm.
  { intros l. assert (map fkey (as_list itf l) ≡ₚ map fkey l) as ->; [|reflexivity].
    apply Permutation_map, as_list_perm. }
  rewrite !Hperm, Ht, Hq, !Exists_exists. rewrite !elem_of_nil.
  split; (split; [intros [[]|(r & Hr & Hl)] | intros (r & f & u & Hr & Hl)]).
  - apply (level_field_Some _ _ Hv) in Hl as (f & u & Hl). eauto 10.
  - right. exists r. split; [exact Hr|]. apply (level_field_Some _ _ Hv). eauto.
  - apply (level_field_Some _ _ Hv) in Hl as (f & u & Hl). eauto 10.
  - right. exists r. split; [exact Hr|]. apply (level_field_Some _ _ Hv). eauto.
Qed.

(** X18 on the file of the decoder's description: its column p10 makes
    10 a threshold. *)
Lemma levels_witness :
  exists t o, load example_file = (Ret t, o) /\ has_level (thresholds t) (lit "10").
Proof.
  assert (exists t o, load example_file = (Ret t, o)) as (t & o & E).
  { eexists _, _. vm_compute. reflexivity. }
  exists t, o. split; [exact E|].
  apply (proj1 (levels_come_from_the_header _ _ _ _ _ _ (lit "10") E eq_refl)).
  exists (row_at example_file 0), "p10", (lit "10").
  split; [apply LoadFacts.nth_elem_of; vm_compute; lia|].
  split; [|split; vm_compute; reflexivity].
  match goal with
  | |- ?G => assert (bool_decide G = true) as B by (vm_compute; reflexivity);
             exact (bool_decide_eq_true_1 _ B)
  end.
Defined.

(** *** The order in which the sets are walked *)

Lemma assign_ids_loc_key ls c : map loc_key (assign_ids ls c) = map loc_key ls.
Proof.
  revert c. induction ls as [|l ls IH]; intros c; cbn [assign_ids map]; [reflexivity|].
  destruct (isnan (loc_id l)); cbn [map]; rewrite IH; reflexivity.
Qed.

Lemma mk_key5_keys date date' offset offset' l l' :
  fkey date = fkey date' -> fkey offset = fkey offset' -> loc_key l = loc_key l' ->
  mk_key5 date offset (loc_lat l) (loc_lon l) (loc_elev l)
  = mk_key5 date' offset' (loc_lat l') (loc_lon l') (loc_elev l').
Proof. unfold mk_key5, loc_key. intros -> -> [= -> -> ->]. reflexivity. Qed.

Lemma assigned_location ls c s l :
  assign_ids ls c !! s = Some l ->
  exists l0, ls !! s = Some l0 /\ loc_key l0 = loc_key l.
Proof.
  intros H. destruct (assign_ids_lookup _ _ _ _ H) as (l0 & Hl0 & E1 & E2 & E3).
  exists l0. split; [exact Hl0|]. unfold loc_key. rewrite E1, E2, E3. reflexivity.
Qed.

(** The first new id does not depend on the order of the locations. *)

Lemma b64_gtb_neither a b :
  isnan a = false -> isnan b = false ->
  b64_gtb a b = false -> b64_gtb b a = false -> key_val a = key_val b.
Proof.
  unfold b64_gtb, SFltb, SFcompare.
  destruct a as [sa|sa| |sa ma ea], b as [sb|sb| |sb mb eb];
    cbn [isnan key_val]; try discriminate; try reflexivity;
    try (destruct sa; discriminate); try (destruct sb; discriminate);
    try (destruct sa, sb; (discriminate || reflexivity)).
  intros _ _.
  destruct sa, sb; try discriminate;
    change (Pos.compare_cont Eq) with Pos.compare;
    destruct (Z.compare_spec ea eb), (Z.compare_spec eb ea); subst;
    try discriminate; try lia;
    destruct (Pos.compare_spec ma mb), (Pos.compare_spec mb ma); subst;
    cbn; try discriminate; try lia; reflexivity.
Qed.

Lemma add_one_key a b :
  key_val a = key_val b -> b64_add a (of_Z 1) = b64_add b (of_Z 1).
Proof.
  destruct a as [sa|sa| |sa ma ea], b as [sb|sb| |sb mb eb];
    cbn [key_val]; intros E; try discriminate E; try (injection E as ->; reflexivity);
    try (injection E as -> -> ->; reflexivity); reflexivity.
Qed.

Lemma greatest_id_perm ls ls' m :
  ls ≡ₚ ls' -> greatest_id ls m -> greatest_id ls' m.
Proof.
  intros Hp (Hnan & Hin & Hmax). split; [exact Hnan|]. split.
  - rewrite <- Hp. exact Hin.
  - intros l Hl. apply Hmax. rewrite Hp. exact Hl.
Qed.

Lemma first_id_perm ls ls' : ls ≡ₚ ls' -> first_id ls = first_id ls'.
Proof.
  intros Hp.
  destruct (first_id_spec ls) as [(Hall & ->)|(m & Hm & ->)],
      (first_id_spec ls') as [(Hall' & ->)|(m' & Hm' & ->)].
  - reflexivity.
  - exfalso. destruct Hm' as (Hnan & Hin & _).
    apply list_elem_of_fmap in Hin as (l & -> & Hl). rewrite <- Hp in Hl.
    rewrite Forall_forall in Hall. specialize (Hall _ Hl).
    unfold unassigned in Hall. congruence.
  - exfalso. destruct Hm as (Hnan & Hin & _).
    apply list_elem_of_fmap in Hin as (l & -> & Hl). rewrite Hp in Hl.
    rewrite Forall_forall in Hall'. specialize (Hall' _ Hl).
    unfold unassigned in Hall'. congruence.
  - apply add_one_key. apply (greatest_id_perm _ _ _ Hp) in Hm.
    destruct Hm as (Hnan & Hin & Hmax), Hm' as (Hnan' & Hin' & Hmax').
    apply list_elem_of_fmap in Hin as (l & -> & Hl).
    apply list_elem_of_fmap in Hin' as (l' & -> & Hl').
    apply b64_gtb_neither; try assumption.
    + apply Hmax'; assumption.
    + apply Hmax; assumption.
Qed.

Lemma nth_id_succ c j : nth_id (b64_add c (of_Z 1)) j = nth_id c (S j).
Proof. unfold nth_id. rewrite Nat.iter_succ_r. reflexivity. Qed.

(** The ids after the assignment: the ids the locations had, and one
    new id for each location that had none. *)
Lemma assign_ids_ids ls c :
  map loc_id (assign_ids ls c)
  ≡ₚ (map loc_id (filter (fun l => ~ unassigned l) ls)
      ++ map (nth_id c) (seq 0 (length (filter unassigned ls))))%list.
Proof.
  revert c. induction ls as [|l ls IH]; intros c; cbn [assign_ids]; [reflexivity|].
  rewrite !filter_cons. destruct (isnan (loc_id l)) eqn:E.
  - destruct (decide (unassigned l)) as [_|N]; [|unfold unassigned in N; congruence].
    destruct (decide (~ unassigned l)) as [N|_]; [unfold unassigned in N; congruence|].
    cbn [map length seq]. rewrite IH, <- seq_shift, map_map.
    rewrite (map_ext _ _ (nth_id_succ c)). apply Permutation_middle.
  - destruct (decide (unassigned l)) as [U|_]; [unfold unassigned in U; congruence|].
    destruct (decide (~ unassigned l)) as [_|N];
      [|exfalso; apply N; unfold unassigned; congruence].
    cbn [map app]. rewrite IH. reflexivity.
Qed.

Lemma assign_ids_perm ls ls' c :
  ls ≡ₚ ls' -> map loc_id (assign_ids ls c) ≡ₚ map loc_id (assign_ids ls' c).
Proof.
  intros Hp. rewrite !assign_ids_ids. apply Permutation_app.
  - apply Permutation_map. rewrite Hp. reflexivity.
  - assert (filter unassigned ls ≡ₚ filter unassigned ls') as Hf
      by (rewrite Hp; reflexivity).
    rewrite (Permutation_length Hf). reflexivity.
Qed.

Lemma assigned_kept ls c l :
  l ∈ ls -> assigned l -> l ∈ assign_ids ls c.
Proof.
  intros Hl Ha. apply list_elem_of_lookup_1 in Hl as (s & Hs).
  apply (list_elem_of_lookup_2 _ s). rewrite (assign_ids_spec _ c _ _ Hs).
  unfold assigned in Ha. rewrite Ha. reflexivity.
Qed.

(** X28: the order in which the sets of dates, offsets and locations
    are walked decides the positions in the snapshot, and which of the
    locations without an id gets which of the new ids, and nothing
    else.  Two loads of one file that differ in these orders write the
    same output; they have the same dates, offsets and places, and the
    same ids, each up to order, so that the first new id is the same;
    a location that has an id in the set of locations is in both
    snapshots as it is; and the cells of the same date, offset, place
    and level hold the same value. *)
Theorem the_walk_decides_positions_and_new_ids
        itf itl itf' itl' w filename t o t' o' :
  __init__ itf itl w filename = (Ret t, o) ->
  __init__ itf' itl' w filename = (Ret t', o') ->
  o = o'
  /\ dates_ t ≡ₚ dates_ t' /\ offsets_ t ≡ₚ offsets_ t'
  /\ map loc_key (locations t) ≡ₚ map loc_key (locations t')
  /\ map loc_id (locations t) ≡ₚ map loc_id (locations t')
  /\ (forall l, l ∈ location_set w filename -> assigned l ->
                l ∈ locations t /\ l ∈ locations t')
  /\ forall d d' k k' s s' date date' offset offset' l l',
      dates_ t !! d = Some date -> dates_ t' !! d' = Some date' ->
      offsets_ t !! k = Some offset -> offsets_ t' !! k' = Some offset' ->
      locations t !! s = Some l -> locations t' !! s' = Some l' ->
      fkey date = fkey date' -> fkey offset = fkey offset' -> loc_key l = loc_key l' ->
      at3 (self_obs t) d k s = at3 (self_obs t') d' k' s'
      /\ at3 (deterministic t) d k s = at3 (deterministic t') d' k' s'
      /\ (forall q q' level level',
            thresholds_ t !! q = Some level -> thresholds_ t' !! q' = Some level' ->
            fkey level = fkey level' ->
            at4 (threshold_scores t) d k s q = at4 (threshold_scores t') d' k' s' q')
      /\ (forall q q' level level',
            quantiles_ t !! q = Some level -> quantiles_ t' !! q' = Some level' ->
            fkey level = fkey level' ->
            at4 (quantile_scores t) d k s q = at4 (quantile_scores t') d' k' s' q').
Proof.
  intros H H'.
  pose proof (locations_eq _ _ _ _ _ _ H) as Hls.
  pose proof (locations_eq _ _ _ _ _ _ H') as Hls'. cbv zeta in Hls, Hls'.
  assert (as_list itl (location_set w filename) ≡ₚ as_list itl' (location_set w filename))
    as Hp by (rewrite !as_list_perm; reflexivity).
  assert (map loc_id (locations t) ≡ₚ map loc_id (locations t')) as Hids.
  { rewrite Hls, Hls', (first_id_perm _ _ Hp). apply assign_ids_perm, Hp. }
  assert (forall l, l ∈ location_set w filename -> assigned l ->
                    l ∈ locations t /\ l ∈ locations t') as Hkept.
  { intros l Hl Ha. rewrite Hls, Hls'.
    split; apply assigned_kept; try exact Ha; rewrite as_list_perm; exact Hl. }
  clear Hls Hls' Hp.
  apply init_Ret in H as (file & st & Hopen & Hrun & -> & -> & _).
  apply init_Ret in H' as (file' & st' & Hopen' & Hrun' & -> & -> & _).
  rewrite Hopen in Hopen'. injection Hopen' as <-.
  rewrite Hrun in Hrun'. injection Hrun' as <-.
  split; [reflexivity|].
  split; [cbn [assemble dates_]; rewrite !as_list_perm; reflexivity|].
  split; [cbn [assemble offsets_]; rewrite !as_list_perm; reflexivity|].
  split; [cbn [assemble locations]; rewrite !assign_ids_loc_key, !as_list_perm;
          reflexivity|].
  split; [exact Hids|]. split; [exact Hkept|]. clear Hids Hkept.
  cbn [assemble dates_ offsets_ locations thresholds_ quantiles_ self_obs deterministic
       threshold_scores quantile_scores].
  intros d d' k k' s s' date date' offset offset' l l' Hd Hd' Ho Ho' Hl Hl' Ed Eo El.
  apply assigned_location in Hl as (l0 & Hl0 & E0).
  apply assigned_location in Hl' as (l0' & Hl0' & E0').
  assert (loc_key l0 = loc_key l0') as El0 by congruence.
  pose proof (mk_key5_keys _ _ _ _ _ _ Ed Eo El0) as Ek.
  split; [|split; [|split]].
  - rewrite (dense3_at _ _ _ _ _ _ _ _ _ _ Hd Ho Hl0),
      (dense3_at _ _ _ _ _ _ _ _ _ _ Hd' Ho' Hl0'), Ek. reflexivity.
  - rewrite (dense3_at _ _ _ _ _ _ _ _ _ _ Hd Ho Hl0),
      (dense3_at _ _ _ _ _ _ _ _ _ _ Hd' Ho' Hl0'), Ek. reflexivity.
  - intros q q' level level' Hq Hq' Elv.
    rewrite (dense4_at _ _ _ _ _ _ _ _ _ _ _ _ _ Hd Ho Hl0 Hq),
      (dense4_at _ _ _ _ _ _ _ _ _ _ _ _ _ Hd' Ho' Hl0' Hq').
    unfold mk_key6. rewrite Ek, Elv. reflexivity.
  - intros q q' level level' Hq Hq' Elv.
    rewrite (dense4_at _ _ _ _ _ _ _ _ _ _ _ _ _ Hd Ho Hl0 Hq),
      (dense4_at _ _ _ _ _ _ _ _ _ _ _ _ _ Hd' Ho' Hl0' Hq').
    unfold mk_key6. rewrite Ek, Elv. reflexivity.
Qed.

(** X28 on the file with the latitudes 2 and 1 and no id column, walked
    in the order of the file and in the order of the latitudes: the
    place of latitude 2 has the id 0 in the one snapshot and the id 1 in
    the other, and the ids of the two snapshots are the same. *)
Lemma the_walk_witness :
  exists t o t' o',
    load places_file = (Ret t, o)
    /\ __init__ SetOrder.insertion SetOrder.by_latitude (text_world places_file) "f"
       = (Ret t', o')
    /\ map lat_and_id (locations t) = [("2", "0"); ("1", "1")]
    /\ map lat_and_id (locations t') = [("1", "0"); ("2", "1")]
    /\ map loc_id (locations t) ≡ₚ map loc_id (locations t').
Proof.
  assert (exists t o t' o',
             load places_file = (Ret t, o)
             /\ __init__ SetOrder.insertion SetOrder.by_latitude
                         (text_world places_file) "f" = (Ret t', o')
             /\ map lat_and_id (locations t) = [("2", "0"); ("1", "1")]
             /\ map lat_and_id (locations t') = [("1", "0"); ("2", "1")])
    as (t & o & t' & o' & E & E' & H1 & H2).
  { eexists _, _, _, _. split; [vm_compute; reflexivity|].
    split; [vm_compute; reflexivity|].
    split; [vm_compute; reflexivity | vm_compute; reflexivity]. }
  exists t, o, t', o'. repeat (split; [assumption|]).
  exact (proj1 (proj2 (proj2 (proj2 (proj2
           (the_walk_decides_positions_and_new_ids _ _ _ _ _ _ _ _ _ _ E E')))))).
Defined.

End SnapshotFacts.
